(** * FT232RL adapter: frame codec, CAN bulk codec and adapter session

    A shallow embedding of [porting/FT232RL/PC/ft232rl_python_wrapper.py]
    and of the tester of [porting/FT232RL/Examples/simple_can_test.py].

    Python integers are unbounded, so they are [Z]; a [bytes] object is a
    list of [byte]; [len] is Python's [len]; a [float] (a timeout, a
    voltage) is a rational.  A Python call that can raise returns an
    [outcome]; the adapter's methods run in a state-and-exception monad over
    the adapter object, where the changes made before an exception stay in
    the object, as in Python.  The serial port is an interface, [Serial],
    that the methods are written against; the theorems about the adapter
    hold for every implementation of it.

    Left out: what [print] writes, the [timestamp] of a [CANMessage], and, of
    the tester, the interactive and the timed loop and [main], which wait
    for input and for the clock. *)

From Stdlib Require Import ZArith List Lia Bool String QArith.
From Stdlib.Strings Require Import Byte.
Import ListNotations.
Open Scope Z_scope.

(** ** Bytes and Python built-ins *)

Definition bytes := list byte.

Definition len {A : Type} (l : list A) : Z := Z.of_nat (List.length l).

(** The integer a byte of a [bytes] object reads as. *)
Definition byte_val (b : byte) : Z := Z.of_N (Byte.to_N b).

(** The byte whose value is [z mod 256]. *)
Definition byte_of_Z (z : Z) : byte :=
  match Byte.of_N (Z.to_N (z mod 256)) with
  | Some b => b
  | None => x00
  end.

(** [l[i:j]] for indices that are not negative (the code never slices with a
    negative one): out-of-range bounds are clamped, never an error. *)
Definition slice {A : Type} (l : list A) (i j : Z) : list A :=
  firstn (Z.to_nat (j - i)) (skipn (Z.to_nat i) l).

(** [l[i]] for [0 <= i]: [None] stands for IndexError. *)
Definition index {A : Type} (l : list A) (i : Z) : option A :=
  if i <? 0 then None else nth_error l (Z.to_nat i).

(** ** Exceptions *)

Inductive exn : Type :=
| StructError      (* struct.error *)
| IndexError
| AttributeError   (* a method called on None *)
| SerialException  (* anything pyserial raises *)
| FuelExhausted    (* not Python's: a loop bound of the model ran out *).

Inductive outcome (A : Type) : Type :=
| Returns (a : A)
| Raises (e : exn).
Arguments Returns {A} a.
Arguments Raises {A} e.

Definition obind {A B : Type} (m : outcome A) (k : A -> outcome B) : outcome B :=
  match m with
  | Returns a => k a
  | Raises e => Raises e
  end.

Declare Scope outcome_scope.
Delimit Scope outcome_scope with outcome.
Notation "x <- m ;; k" := (obind m (fun x => k))
  (at level 61, m at next level, right associativity) : outcome_scope.

(** ** The [struct] module, for the formats the adapter uses *)

Module PyStruct.

(** [struct.pack('B', v)]. *)
Definition pack_B (v : Z) : outcome byte :=
  if (0 <=? v) && (v <=? 255) then Returns (byte_of_Z v) else Raises StructError.

(** [struct.pack('BB..B', v1, .., vn)]. *)
Fixpoint pack_Bs (vs : list Z) : outcome bytes :=
  match vs with
  | [] => Returns []
  | v :: vs' =>
      (b <- pack_B v ;; bs <- pack_Bs vs' ;; Returns (b :: bs))%outcome
  end.

(** [struct.pack('<H', v)]. *)
Definition pack_H (v : Z) : outcome bytes :=
  if (0 <=? v) && (v <=? 65535)
  then Returns [byte_of_Z (Z.land v 255); byte_of_Z (Z.land (Z.shiftr v 8) 255)]
  else Raises StructError.

(** [struct.pack('<I', v)]. *)
Definition pack_I (v : Z) : outcome bytes :=
  if (0 <=? v) && (v <=? 4294967295)
  then Returns [byte_of_Z (Z.land v 255);
                byte_of_Z (Z.land (Z.shiftr v 8) 255);
                byte_of_Z (Z.land (Z.shiftr v 16) 255);
                byte_of_Z (Z.land (Z.shiftr v 24) 255)]
  else Raises StructError.

(** [struct.pack('<BBHH', a, b, c, d)]. *)
Definition pack_BBHH (a b c d : Z) : outcome bytes :=
  (x <- pack_B a ;; y <- pack_B b ;; z <- pack_H c ;; w <- pack_H d ;;
   Returns (x :: y :: z ++ w))%outcome.

(** [struct.unpack('BBBBBB', bs)]: the buffer must hold exactly six bytes. *)
Definition unpack_BBBBBB (bs : bytes) : outcome (Z * Z * Z * Z * Z * Z) :=
  match bs with
  | [a; b; c; d; e; f] =>
      Returns (byte_val a, byte_val b, byte_val c, byte_val d, byte_val e, byte_val f)
  | _ => Raises StructError
  end.

(** [struct.unpack('<I', bs)[0]]: the buffer must hold exactly four bytes. *)
Definition unpack_I (bs : bytes) : outcome Z :=
  match bs with
  | [a; b; c; d] =>
      Returns (byte_val a + Z.shiftl (byte_val b) 8
               + Z.shiftl (byte_val c) 16 + Z.shiftl (byte_val d) 24)
  | _ => Raises StructError
  end.

End PyStruct.

(** [c = 0; for byte in bs: c ^= byte], started from [init]. *)
Definition xor_bytes (init : Z) (bs : bytes) : Z :=
  fold_left (fun c b => Z.lxor c (byte_val b)) bs init.

(** ** class FT232RL_Frame *)

Module FT232RL_Frame.

Definition FRAME_CONTROL : Z := 0x00.
Definition FRAME_BULK_IN : Z := 0x01.
Definition FRAME_SERIAL : Z := 0x02.
Definition FRAME_BULK_OUT : Z := 0x03.
Definition FRAME_STATUS : Z := 0x04.
Definition FRAME_ERROR : Z := 0x05.
Definition FRAME_CHUNK : Z := 0x06.
Definition FRAME_ACK : Z := 0x07.

Definition FRAME_TYPES : list Z :=
  [FRAME_CONTROL; FRAME_BULK_IN; FRAME_SERIAL; FRAME_BULK_OUT;
   FRAME_STATUS; FRAME_ERROR; FRAME_CHUNK; FRAME_ACK].

Definition CMD_RESET : Z := 0xC0.
Definition CMD_GET_VERSION : Z := 0xD0.
Definition CMD_GET_HEALTH : Z := 0xDE.
Definition CMD_SET_SAFETY_MODE : Z := 0xDC.
Definition CMD_SET_CAN_SPEED : Z := 0xDD.
Definition CMD_HEARTBEAT : Z := 0xF1.

Record t : Type := mk {
  sync : Z;
  frame_type : Z;
  sequence : Z;
  length : Z;
  flags : Z;
  payload : bytes;
  checksum : Z
}.

Definition set_checksum (c : Z) (f : t) : t :=
  mk (sync f) (frame_type f) (sequence f) (length f) (flags f) (payload f) c.

Definition set_sequence (s : Z) (f : t) : t :=
  mk (sync f) (frame_type f) s (length f) (flags f) (payload f) (checksum f).

(** [_calculate_checksum]: the XOR of the five header bytes and the
    payload; [struct.pack] raises when a header field is not a byte. *)
Definition _calculate_checksum (f : t) : outcome t :=
  (header <- PyStruct.pack_Bs [sync f; frame_type f; sequence f; length f; flags f] ;;
   Returns (set_checksum (xor_bytes 0 (header ++ payload f)) f))%outcome.

(** [__init__(frame_type, sequence=0, payload=b'', flags=0)]. *)
Definition __init__ (frame_type sequence : Z) (payload : bytes) (flags : Z) : outcome t :=
  _calculate_checksum (mk 0xAA frame_type sequence (len payload) flags payload 0).

Definition pack (f : t) : outcome bytes :=
  (f' <- _calculate_checksum f ;;
   header <- PyStruct.pack_Bs
               [sync f'; frame_type f'; sequence f'; length f'; flags f'; checksum f'] ;;
   Returns (header ++ payload f'))%outcome.

(** [unpack(data)]: [Returns None] is the method's [return None]. *)
Definition unpack (data : bytes) : outcome (option t) :=
  if len data <? 6 then Returns None
  else
    (hdr <- PyStruct.unpack_BBBBBB (slice data 0 6) ;;
     let '(sync, frame_type, sequence, length, flags, checksum) := hdr in
     if negb (sync =? 0xAA) then Returns None
     else if len data <? 6 + length then Returns None
     else
       let payload := slice data 6 (6 + length) in
       let calc_checksum := xor_bytes 0 (slice data 0 5 ++ payload) in
       if negb (calc_checksum =? checksum) then Returns None
       else
         (frame <- __init__ frame_type sequence payload flags ;;
          Returns (Some frame)))%outcome.

End FT232RL_Frame.

(** ** class CANMessage *)

Module CANMessage.

(** The [timestamp] attribute ([time.time()] at construction) is left
    out: it is wall-clock time and nothing below reads it. *)
Record t : Type := mk {
  addr : Z;
  data : bytes;
  bus : Z;
  extended : bool;
  fd : bool
}.

(** [CANMessage(addr, data, bus, extended=False, fd=False)]. *)
Definition __init__ (addr : Z) (data : bytes) (bus : Z) : t :=
  mk addr data bus false false.

End CANMessage.

(** ** The CAN bulk payload: the two loops of the adapter *)

Module CANCodec.
Import CANMessage.

(** The body of the [for] loop of [can_send_many] (lines 339-356): the
    bytes appended to [packed_data] for one message. *)
Definition pack_message (msg : CANMessage.t) : outcome bytes :=
  let dlc := len (data msg) in
  let dlc := if dlc >? 8 then 15 else dlc in
  let header0 :=
    Z.lor (Z.lor (Z.shiftl dlc 4) (Z.shiftl (bus msg) 1)) (if fd msg then 1 else 0) in
  (addr_bytes <- PyStruct.pack_I
                   (Z.lor (addr msg) (if extended msg then Z.shiftl 1 30 else 0)) ;;
   h <- PyStruct.pack_B header0 ;;
   let msg_data := [h] ++ slice addr_bytes 0 4 ++ slice (data msg) 0 dlc in
   let checksum := xor_bytes 0 msg_data in
   c <- PyStruct.pack_B checksum ;;
   Returns (msg_data ++ [c]))%outcome.

(** The [for] loop of [can_send_many] (lines 335-357), from the values
    [packed_data] and [count] have when it is entered. *)
Fixpoint pack_loop (can_messages : list CANMessage.t) (packed_data : bytes) (count : Z)
  : outcome (bytes * Z) :=
  match can_messages with
  | [] => Returns (packed_data, count)
  | msg :: rest =>
      if len packed_data + 20 >? 250 then Returns (packed_data, count)
      else
        (enc <- pack_message msg ;;
         pack_loop rest (packed_data ++ enc) (count + 1))%outcome
  end.

Definition pack_messages (can_messages : list CANMessage.t) : outcome (bytes * Z) :=
  pack_loop can_messages [] 0.

Definition dlc_to_len : list Z := [0; 1; 2; 3; 4; 5; 6; 7; 8; 12; 16; 20; 24; 32; 48; 64].

(** The [while] loop of [can_recv] (lines 387-418).  [fuel] bounds the
    number of iterations; [Raises FuelExhausted] is not a Python
    exception but the mark of a bound that was too small. *)
Fixpoint parse_loop (fuel : nat) (data : bytes) (offset : Z) (messages : list CANMessage.t)
  : outcome (list CANMessage.t) :=
  match fuel with
  | O => Raises FuelExhausted
  | S fuel' =>
      if offset + 6 <=? len data then
        match index data offset with
        | None => Raises IndexError
        | Some b0 =>
            let header0 := byte_val b0 in
            let dlc := Z.land (Z.shiftr header0 4) 0xF in
            let bus := Z.land (Z.shiftr header0 1) 0x7 in
            let fd := negb (Z.land header0 0x1 =? 0) in
            if offset + 5 >=? len data then Returns messages
            else
              (addr_raw <- PyStruct.unpack_I (slice data (offset + 1) (offset + 5)) ;;
               let extended := negb (Z.land addr_raw (Z.shiftl 1 30) =? 0) in
               let addr := if extended then Z.land addr_raw 0x1FFFFFFF
                           else Z.land (Z.shiftr addr_raw 18) 0x7FF in
               data_len <- (if dlc <? len dlc_to_len
                            then match index dlc_to_len dlc with
                                 | Some n => Returns n
                                 | None => Raises IndexError
                                 end
                            else Returns 8) ;;
               if offset + 6 + data_len >? len data then Returns messages
               else
                 let msg_data := slice data (offset + 6) (offset + 6 + data_len) in
                 let message := CANMessage.mk addr msg_data bus extended fd in
                 parse_loop fuel' data (offset + 6 + data_len) (messages ++ [message])
              )%outcome
        end
      else Returns messages
  end.

(** The loop run from [offset = 0] and [messages = []]; every iteration but
    the last moves [offset] forward by at least six bytes, so
    [length data + 1] iterations are enough. *)
Definition parse_messages (data : bytes) : outcome (list CANMessage.t) :=
  parse_loop (S (List.length data)) data 0 [].

End CANCodec.

(** ** pyserial, as the adapter uses it

    The adapter drives a [serial.Serial] object it does not implement.  [P]
    is the state of that object together with the device behind it; each
    method returns its result, or raises, and the state that follows.
    [ser_write] returns the number of bytes the port accepted. *)

Class Serial (P : Type) : Type := {
  Serial_new : string -> Z -> Q -> outcome P;
  ser_is_open : P -> bool;
  ser_close : P -> outcome unit * P;
  ser_write : bytes -> P -> outcome nat * P;
  ser_flush : P -> outcome unit * P;
  ser_read : Z -> P -> outcome bytes * P;
  ser_timeout : P -> Q;
  ser_set_timeout : Q -> P -> outcome unit * P
}.

(** ** class FT232RL_PandaAdapter *)

Module FT232RL_PandaAdapter.

(** The attributes [__init__] sets, but for [lock]: one thread runs the
    methods below, so the lock is always free when they take it. *)
Record t (P : Type) : Type := mk {
  port : string;
  baudrate : Z;
  timeout : Q;
  serial : option P;
  connected : bool;
  sequence_tx : Z;
  sequence_rx_expected : Z;
  frames_sent : Z;
  frames_received : Z;
  bytes_sent : Z;
  bytes_received : Z;
  errors : Z;
  chunk_buffer : bytes;
  chunk_total_size : Z;
  chunk_received_size : Z;
  chunk_in_progress : bool
}.

Arguments port {P} _.
Arguments baudrate {P} _.
Arguments timeout {P} _.
Arguments serial {P} _.
Arguments connected {P} _.
Arguments sequence_tx {P} _.
Arguments sequence_rx_expected {P} _.
Arguments frames_sent {P} _.
Arguments frames_received {P} _.
Arguments bytes_sent {P} _.
Arguments bytes_received {P} _.
Arguments errors {P} _.
Arguments chunk_buffer {P} _.
Arguments chunk_total_size {P} _.
Arguments chunk_received_size {P} _.
Arguments chunk_in_progress {P} _.
Arguments mk {P}.

Definition set_serial {P : Type} (v : option P) (self : t P) : t P :=
  mk (port self) (baudrate self) (timeout self) v (connected self) (sequence_tx self)
    (sequence_rx_expected self) (frames_sent self) (frames_received self)
    (bytes_sent self) (bytes_received self) (errors self) (chunk_buffer self)
    (chunk_total_size self) (chunk_received_size self) (chunk_in_progress self).

Definition set_connected {P : Type} (v : bool) (self : t P) : t P :=
  mk (port self) (baudrate self) (timeout self) (serial self) v (sequence_tx self)
    (sequence_rx_expected self) (frames_sent self) (frames_received self)
    (bytes_sent self) (bytes_received self) (errors self) (chunk_buffer self)
    (chunk_total_size self) (chunk_received_size self) (chunk_in_progress self).

Definition set_sequence_tx {P : Type} (v : Z) (self : t P) : t P :=
  mk (port self) (baudrate self) (timeout self) (serial self) (connected self) v
    (sequence_rx_expected self) (frames_sent self) (frames_received self)
    (bytes_sent self) (bytes_received self) (errors self) (chunk_buffer self)
    (chunk_total_size self) (chunk_received_size self) (chunk_in_progress self).

Definition set_frames_sent {P : Type} (v : Z) (self : t P) : t P :=
  mk (port self) (baudrate self) (timeout self) (serial self) (connected self)
    (sequence_tx self) (sequence_rx_expected self) v (frames_received self)
    (bytes_sent self) (bytes_received self) (errors self) (chunk_buffer self)
    (chunk_total_size self) (chunk_received_size self) (chunk_in_progress self).

Definition set_frames_received {P : Type} (v : Z) (self : t P) : t P :=
  mk (port self) (baudrate self) (timeout self) (serial self) (connected self)
    (sequence_tx self) (sequence_rx_expected self) (frames_sent self) v
    (bytes_sent self) (bytes_received self) (errors self) (chunk_buffer self)
    (chunk_total_size self) (chunk_received_size self) (chunk_in_progress self).

Definition set_bytes_sent {P : Type} (v : Z) (self : t P) : t P :=
  mk (port self) (baudrate self) (timeout self) (serial self) (connected self)
    (sequence_tx self) (sequence_rx_expected self) (frames_sent self)
    (frames_received self) v (bytes_received self) (errors self) (chunk_buffer self)
    (chunk_total_size self) (chunk_received_size self) (chunk_in_progress self).

Definition set_bytes_received {P : Type} (v : Z) (self : t P) : t P :=
  mk (port self) (baudrate self) (timeout self) (serial self) (connected self)
    (sequence_tx self) (sequence_rx_expected self) (frames_sent self)
    (frames_received self) (bytes_sent self) v (errors self) (chunk_buffer self)
    (chunk_total_size self) (chunk_received_size self) (chunk_in_progress self).

Definition set_errors {P : Type} (v : Z) (self : t P) : t P :=
  mk (port self) (baudrate self) (timeout self) (serial self) (connected self)
    (sequence_tx self) (sequence_rx_expected self) (frames_sent self)
    (frames_received self) (bytes_sent self) (bytes_received self) v (chunk_buffer self)
    (chunk_total_size self) (chunk_received_size self) (chunk_in_progress self).

(** [get_stats]'s dictionary. *)
Record Stats : Type := mkStats {
  stats_frames_sent : Z;
  stats_frames_received : Z;
  stats_bytes_sent : Z;
  stats_bytes_received : Z;
  stats_errors : Z;
  stats_connected : bool
}.

(** [health]'s dictionary. *)
Record Health : Type := mkHealth {
  voltage : Q;
  current : Q;
  uptime : Z
}.

(** [int.from_bytes(bs, 'little')]. *)
Fixpoint int_from_bytes_little (bs : bytes) : Z :=
  match bs with
  | [] => 0
  | b :: bs' => byte_val b + 256 * int_from_bytes_little bs'
  end.

Definition is_nul (c : Ascii.ascii) : bool := Ascii.eqb c Ascii.zero.

Fixpoint lstrip_nul (s : string) : string :=
  match s with
  | EmptyString => EmptyString
  | String c s' => if is_nul c then lstrip_nul s' else s
  end.

Fixpoint rstrip_nul (s : string) : string :=
  match s with
  | EmptyString => EmptyString
  | String c s' =>
      match rstrip_nul s' with
      | EmptyString => if is_nul c then EmptyString else String c EmptyString
      | r => String c r
      end
  end.

(** [s.strip('\x00')]. *)
Definition strip_nul (s : string) : string := rstrip_nul (lstrip_nul s).

(** *** The monad of the methods: the adapter object is the state *)

Definition M (P A : Type) : Type := t P -> outcome A * t P.

Definition ret {P A : Type} (x : A) : M P A := fun self => (Returns x, self).

Definition bind {P A B : Type} (m : M P A) (k : A -> M P B) : M P B :=
  fun self =>
    match m self with
    | (Returns x, self') => k x self'
    | (Raises e, self') => (Raises e, self')
    end.

Definition get {P : Type} : M P (t P) := fun self => (Returns self, self).

Definition modify {P : Type} (f : t P -> t P) : M P unit := fun self => (Returns tt, f self).

Definition lift {P A : Type} (o : outcome A) : M P A := fun self => (o, self).

(** [try: body except Exception: handler]. *)
Definition try_except {P A : Type} (body handler : M P A) : M P A :=
  fun self =>
    match body self with
    | (Returns x, self') => (Returns x, self')
    | (Raises _, self') => handler self'
    end.

(** A method of [self.serial]. *)
Definition on_serial {P A : Type} (op : P -> outcome A * P) : M P A :=
  fun self =>
    match serial self with
    | Some p => let (r, p') := op p in (r, set_serial (Some p') self)
    | None => (Raises AttributeError, self)
    end.

Declare Scope adapter_scope.
Delimit Scope adapter_scope with adapter.
Notation "x <- m ;; k" := (bind m (fun x => k))
  (at level 61, m at next level, right associativity) : adapter_scope.
Notation "m ;;; k" := (bind m (fun _ => k))
  (at level 61, right associativity) : adapter_scope.

Definition is_Some {A : Type} (o : option A) : bool :=
  match o with Some _ => true | None => false end.

Section Methods.
Context {P : Type} {SP : Serial P}.

(** [bytes.decode('utf-8')]; [None] is UnicodeDecodeError. *)
Variable utf8_decode : bytes -> option string.

Local Open Scope adapter_scope.

Definition __init__ (port : string) (baudrate : Z) (timeout : Q) : t P :=
  mk port baudrate timeout None false 0 0 0 0 0 0 0 [] 0 0 false.

Definition _send_frame (frame : FT232RL_Frame.t) : M P bool :=
  self <- get ;;
  if negb (connected self) || negb (is_Some (serial self)) then ret false
  else
    try_except
      ((* with self.lock: *)
       let frame := FT232RL_Frame.set_sequence (sequence_tx self) frame in
       data <- lift (FT232RL_Frame.pack frame) ;;
       written <- on_serial (ser_write data) ;;
       on_serial ser_flush ;;;
       modify (fun self => set_sequence_tx (Z.land (sequence_tx self + 1) 0xFF) self) ;;;
       modify (fun self => set_frames_sent (frames_sent self + 1) self) ;;;
       modify (fun self => set_bytes_sent (bytes_sent self + Z.of_nat written) self) ;;;
       ret (Z.of_nat written =? len data))
      ((* except Exception: *)
       modify (fun self => set_errors (errors self + 1) self) ;;;
       ret false).

Definition _receive_frame (timeout : option Q) : M P (option FT232RL_Frame.t) :=
  self <- get ;;
  if negb (connected self) || negb (is_Some (serial self)) then ret None
  else
    let timeout := match timeout with
                   | None => FT232RL_PandaAdapter.timeout self
                   | Some v => v
                   end in
    try_except
      (old_timeout <- on_serial (fun p => (Returns (ser_timeout p), p)) ;;
       on_serial (ser_set_timeout timeout) ;;;
       header <- on_serial (ser_read 6) ;;
       if len header <? 6 then ret None
       else
         hdr <- lift (PyStruct.unpack_BBBBBB header) ;;
         let '(sync, frame_type, sequence, length, flags, checksum) := hdr in
         if negb (sync =? 0xAA) then ret None
         else
           payload <- (if length >? 0 then on_serial (ser_read length) else ret []) ;;
           if (length >? 0) && (len payload <? length) then ret None
           else
             let frame_data := header ++ payload in
             frame <- lift (FT232RL_Frame.unpack frame_data) ;;
             match frame with
             | Some _ =>
                 modify (fun self => set_frames_received (frames_received self + 1) self) ;;;
                 modify (fun self =>
                           set_bytes_received (bytes_received self + len frame_data) self)
             | None => modify (fun self => set_errors (errors self + 1) self)
             end ;;;
             on_serial (ser_set_timeout old_timeout) ;;;
             ret frame)
      ((* except Exception: *)
       modify (fun self => set_errors (errors self + 1) self) ;;;
       ret None).

Definition _control_transfer (request_type request value index : Z) (data : bytes)
  : M P bytes :=
  control_data <- lift (PyStruct.pack_BBHH request_type request value index) ;;
  tail <- lift (match data with
                | [] => PyStruct.pack_H 0
                | _ => obind (PyStruct.pack_H (len data)) (fun l => Returns (l ++ data))
                end) ;;
  let control_data := control_data ++ tail in
  frame <- lift (FT232RL_Frame.__init__ FT232RL_Frame.FRAME_CONTROL 0 control_data 0) ;;
  sent <- _send_frame frame ;;
  if negb sent then ret []
  else
    response_frame <- _receive_frame (Some 5%Q) ;;
    match response_frame with
    | None => ret []
    | Some f =>
        if negb (FT232RL_Frame.frame_type f =? FT232RL_Frame.FRAME_CONTROL) then ret []
        else ret (FT232RL_Frame.payload f)
    end.

Definition reset : M P bool :=
  response <- _control_transfer 0x40 FT232RL_Frame.CMD_RESET 0 0 [] ;;
  ret (len response >=? 0).

Definition get_version : M P string :=
  response <- _control_transfer 0xC0 FT232RL_Frame.CMD_GET_VERSION 0 0 [] ;;
  match response with
  | [] => ret "Error"%string
  | _ => match utf8_decode response with
         | Some s => ret (strip_nul s)
         | None => ret "Unknown"%string
         end
  end.

Definition health : M P Health :=
  response <- _control_transfer 0xC0 FT232RL_Frame.CMD_GET_HEALTH 0 0 [] ;;
  if len response >=? 12
  then ret (mkHealth 12%Q (1 # 2)%Q
              (if len response >=? 4 then int_from_bytes_little (slice response 0 4) else 0))
  else ret (mkHealth 0%Q 0%Q 0).

Definition set_safety_mode (mode param : Z) : M P bool :=
  response <- _control_transfer 0x40 FT232RL_Frame.CMD_SET_SAFETY_MODE mode param [] ;;
  ret (len response >=? 0).

Definition set_can_speed_kbps (bus speed : Z) : M P bool :=
  response <- _control_transfer 0x40 FT232RL_Frame.CMD_SET_CAN_SPEED bus speed [] ;;
  ret (len response >=? 0).

Definition send_heartbeat : M P bool :=
  response <- _control_transfer 0x40 FT232RL_Frame.CMD_HEARTBEAT 0 0 [] ;;
  ret (len response >=? 0).

Definition connect : M P bool :=
  self <- get ;;
  try_except
    (s <- lift (Serial_new (port self) (baudrate self) (timeout self)) ;;
     modify (set_serial (Some s)) ;;;
     modify (set_connected true) ;;;
     reset ;;;
     ret true)
    ((* except Exception: *)
     ret false).

Definition disconnect : M P unit :=
  self <- get ;;
  match serial self with
  | Some p => if ser_is_open p then on_serial ser_close else ret tt
  | None => ret tt
  end ;;;
  modify (set_connected false).

(** [timeout] is the unused parameter of the method. *)
Definition can_send_many (can_messages : list CANMessage.t) (timeout : Z) : M P Z :=
  packed <- lift (CANCodec.pack_messages can_messages) ;;
  let '(packed_data, count) := packed in
  match packed_data with
  | [] => ret 0
  | _ =>
      frame <- lift (FT232RL_Frame.__init__ FT232RL_Frame.FRAME_BULK_OUT 0 packed_data 0) ;;
      sent <- _send_frame frame ;;
      if sent then ret count else ret 0
  end.

Definition can_recv : M P (list CANMessage.t) :=
  frame <- lift (FT232RL_Frame.__init__ FT232RL_Frame.FRAME_BULK_IN 0 [] 0) ;;
  sent <- _send_frame frame ;;
  if negb sent then ret []
  else
    response_frame <- _receive_frame (Some 2%Q) ;;
    match response_frame with
    | None => ret []
    | Some f =>
        if negb (FT232RL_Frame.frame_type f =? FT232RL_Frame.FRAME_BULK_IN) then ret []
        else lift (CANCodec.parse_messages (FT232RL_Frame.payload f))
    end.

Definition can_send (addr : Z) (data : bytes) (bus : Z) (timeout : Z) : M P bool :=
  let message := CANMessage.__init__ addr data bus in
  n <- can_send_many [message] timeout ;;
  ret (n >? 0).

Definition get_stats : M P Stats :=
  self <- get ;;
  ret (mkStats (frames_sent self) (frames_received self) (bytes_sent self)
         (bytes_received self) (errors self) (connected self)).

Definition close : M P unit := disconnect.

(** A call of the public interface, and the adapter object it leaves. *)
Inductive call : Type :=
| Connect
| Disconnect
| Reset
| GetVersion
| GetHealth
| SetSafetyMode (mode param : Z)
| SetCanSpeedKbps (bus speed : Z)
| SendHeartbeat
| CanSendMany (can_messages : list CANMessage.t) (timeout : Z)
| CanRecv
| CanSend (addr : Z) (data : bytes) (bus : Z) (timeout : Z)
| GetStats
| Close.

Definition run (c : call) (self : t P) : t P :=
  match c with
  | Connect => snd (connect self)
  | Disconnect => snd (disconnect self)
  | Reset => snd (reset self)
  | GetVersion => snd (get_version self)
  | GetHealth => snd (health self)
  | SetSafetyMode mode param => snd (set_safety_mode mode param self)
  | SetCanSpeedKbps bus speed => snd (set_can_speed_kbps bus speed self)
  | SendHeartbeat => snd (send_heartbeat self)
  | CanSendMany can_messages timeout => snd (can_send_many can_messages timeout self)
  | CanRecv => snd (can_recv self)
  | CanSend addr data bus timeout => snd (can_send addr data bus timeout self)
  | GetStats => snd (get_stats self)
  | Close => snd (close self)
  end.

(** A session: calls made one after the other on the same object. *)
Definition run_all (cs : list call) (self : t P) : t P :=
  fold_left (fun s c => run c s) cs self.

End Methods.

End FT232RL_PandaAdapter.

(** ** A scripted port, to run the adapter on

    [rx] holds the bytes that arrive before a read times out, [room] is the
    number of bytes one [write] accepts at most, and a [faulty] port raises
    on every write. *)

Module ScriptedPort.

Record t : Type := mk {
  rx : bytes;
  tx : bytes;
  room : nat;
  faulty : bool;
  timeout : Q;
  opened : bool
}.

Definition write (data : bytes) (p : t) : outcome nat * t :=
  if faulty p then (Raises SerialException, p)
  else
    let n := Nat.min (List.length data) (room p) in
    (Returns n, mk (rx p) (tx p ++ firstn n data) (room p) (faulty p) (timeout p) (opened p)).

Definition read (n : Z) (p : t) : outcome bytes * t :=
  (Returns (firstn (Z.to_nat n) (rx p)),
   mk (skipn (Z.to_nat n) (rx p)) (tx p) (room p) (faulty p) (timeout p) (opened p)).

Definition set_timeout (v : Q) (p : t) : outcome unit * t :=
  (Returns tt, mk (rx p) (tx p) (room p) (faulty p) v (opened p)).

Definition close (p : t) : outcome unit * t :=
  (Returns tt, mk (rx p) (tx p) (room p) (faulty p) (timeout p) false).

(** The port [serial.Serial(...)] gives is [fresh], or the call raises. *)
Definition api (fresh : outcome t) : Serial t := {|
  Serial_new := fun _ _ _ => fresh;
  ser_is_open := opened;
  ser_close := close;
  ser_write := write;
  ser_flush := fun p => (Returns tt, p);
  ser_read := read;
  ser_timeout := timeout;
  ser_set_timeout := set_timeout
|}.

(** An open port with nothing to read that accepts [room] bytes a write. *)
Definition quiet (room : nat) : t := mk [] [] room false 1%Q true.

End ScriptedPort.

(** ** Vocabulary of the properties *)

(** Bit [k] of a byte inverted. *)
Definition flip_bit (k : Z) (b : byte) : byte :=
  byte_of_Z (Z.lxor (byte_val b) (2 ^ k)).

(** Bit [k] of the byte at position [i] inverted; the other bytes, and the
    whole buffer when it has no position [i], are left as they are. *)
Fixpoint flip_at (i : nat) (k : Z) (data : bytes) : bytes :=
  match data, i with
  | [], _ => []
  | b :: rest, O => flip_bit k b :: rest
  | b :: rest, S i' => b :: flip_at i' k rest
  end.

(** What holds of a message the parsing loop of [can_recv] returns. *)
Definition parsed_ok (m : CANMessage.t) : Prop :=
  0 <= CANMessage.bus m <= 7 /\
  0 <= CANMessage.addr m <= 0x1FFFFFFF /\
  (CANMessage.extended m = false -> CANMessage.addr m <= 0x7FF) /\
  In (len (CANMessage.data m)) CANCodec.dlc_to_len /\
  len (CANMessage.data m) <= 64.

(** None of the five statistics counters is smaller in [b] than in [a]. *)
Definition stats_le {P : Type} (a b : FT232RL_PandaAdapter.t P) : Prop :=
  FT232RL_PandaAdapter.frames_sent a <= FT232RL_PandaAdapter.frames_sent b /\
  FT232RL_PandaAdapter.frames_received a <= FT232RL_PandaAdapter.frames_received b /\
  FT232RL_PandaAdapter.bytes_sent a <= FT232RL_PandaAdapter.bytes_sent b /\
  FT232RL_PandaAdapter.bytes_received a <= FT232RL_PandaAdapter.bytes_received b /\
  FT232RL_PandaAdapter.errors a <= FT232RL_PandaAdapter.errors b.

(** A method that, from any adapter object, leaves one whose counters have
    not gone down, whether it returns or raises. *)
Definition grows {P A : Type} (m : FT232RL_PandaAdapter.M P A) : Prop :=
  forall self, stats_le self (snd (m self)).

(** The checksum [_calculate_checksum] stores. *)
Definition derived_checksum (f : FT232RL_Frame.t) : Z :=
  xor_bytes 0
    (map byte_of_Z
       [FT232RL_Frame.sync f; FT232RL_Frame.frame_type f; FT232RL_Frame.sequence f;
        FT232RL_Frame.length f; FT232RL_Frame.flags f]
     ++ FT232RL_Frame.payload f).

(** The five header fields are bytes, so that [struct.pack] takes them. *)
Definition header_in_range (f : FT232RL_Frame.t) : Prop :=
  Forall (fun v => 0 <= v <= 255)
    [FT232RL_Frame.sync f; FT232RL_Frame.frame_type f; FT232RL_Frame.sequence f;
     FT232RL_Frame.length f; FT232RL_Frame.flags f].

(** A method that returns from every adapter object: it never raises. *)
Definition always_returns {P A : Type} (m : FT232RL_PandaAdapter.M P A) : Prop :=
  forall self, exists x self', m self = (Returns x, self').

(** The encodings of the messages a payload is made of. *)
Inductive packed_from : list CANMessage.t -> bytes -> Prop :=
| packed_nil : packed_from [] []
| packed_cons (msg : CANMessage.t) (msgs : list CANMessage.t) (enc rest : bytes) :
    CANCodec.pack_message msg = Returns enc ->
    packed_from msgs rest ->
    packed_from (msg :: msgs) (enc ++ rest).

(** ** Inputs the properties are run on *)

Module Examples.

(** [CANMessage(0x123, b'\x01\x02\x03\x04', 0)], the message the module's
    own example run sends. *)
Definition msg_0x123 : CANMessage.t :=
  CANMessage.__init__ 0x123 [x01; x02; x03; x04] 0.

(** The batch [send_test_messages] of Examples/simple_can_test.py sends. *)
Definition test_messages : list CANMessage.t :=
  [ CANMessage.__init__ 0x123 [x01; x02; x03; x04] 0;
    CANMessage.__init__ 0x456 [x05; x06; x07; x08] 1;
    CANMessage.__init__ 0x789 [x09; x0a; x0b; x0c] 2;
    CANMessage.mk 0x7FF [xaa; xbb; xcc; xdd; xee; xff] 0 false false;
    CANMessage.mk 0x1FFFFFFF [x11; x22; x33; x44] 1 true false ].

(** A CAN-FD message on bus 0 with [n] zero bytes of data. *)
Definition fd_message (n : nat) : CANMessage.t :=
  CANMessage.mk 0x100 (repeat x00 n) 0 false true.

(** Ten FD messages of 15 bytes, one of 14 bytes, one more of 15 bytes. *)
Definition overflow_batch : list CANMessage.t :=
  repeat (fd_message 15) 10 ++ [fd_message 14; fd_message 15].

(** An adapter that was connected to the scripted port [p]. *)
Definition adapter_on (p : ScriptedPort.t) : FT232RL_PandaAdapter.t ScriptedPort.t :=
  FT232RL_PandaAdapter.set_connected true
    (FT232RL_PandaAdapter.set_serial (Some p)
       (FT232RL_PandaAdapter.__init__ "COM3" 3000000 1%Q)).

(** The scripted ports give this port to [serial.Serial(...)]. *)
Definition api : Serial ScriptedPort.t :=
  ScriptedPort.api (Returns (ScriptedPort.quiet 4096)).

(** An open port whose writes raise. *)
Definition faulty_port : ScriptedPort.t := ScriptedPort.mk [] [] 0 true 1%Q true.

(** An empty BULK_IN frame, as [can_recv] builds it. *)
Definition empty_bulk_in : FT232RL_Frame.t :=
  FT232RL_Frame.mk 0xAA FT232RL_Frame.FRAME_BULK_IN 0 0 0 [] 0xAB.

End Examples.

(** ** More vocabulary: states and what calls keep *)

(** The timeout [_receive_frame] sets on the port: its argument, or that of
    the adapter when the argument is [None]. *)
Definition receive_timeout {P : Type} (timeout : option Q) (self : FT232RL_PandaAdapter.t P)
  : Q :=
  match timeout with
  | None => FT232RL_PandaAdapter.timeout self
  | Some v => v
  end.

(** The sequence number is the number of frames sent modulo 256; a connected
    adapter holds a serial object; every frame received brought at least
    its six header bytes; no counter is negative. *)
Definition session_ok {P : Type} (self : FT232RL_PandaAdapter.t P) : Prop :=
  FT232RL_PandaAdapter.sequence_tx self = FT232RL_PandaAdapter.frames_sent self mod 256 /\
  (FT232RL_PandaAdapter.connected self = true ->
   FT232RL_PandaAdapter.serial self <> None) /\
  6 * FT232RL_PandaAdapter.frames_received self <= FT232RL_PandaAdapter.bytes_received self /\
  0 <= FT232RL_PandaAdapter.frames_sent self /\
  0 <= FT232RL_PandaAdapter.frames_received self /\
  0 <= FT232RL_PandaAdapter.bytes_sent self /\
  0 <= FT232RL_PandaAdapter.errors self.

(** A method that keeps [session_ok], whether it returns or raises. *)
Definition keeps_session {P A : Type} (m : FT232RL_PandaAdapter.M P A) : Prop :=
  forall self, session_ok self -> session_ok (snd (m self)).

(** The attributes no method assigns after [__init__]. *)
Definition same_settings {P : Type} (a b : FT232RL_PandaAdapter.t P) : Prop :=
  FT232RL_PandaAdapter.port a = FT232RL_PandaAdapter.port b /\
  FT232RL_PandaAdapter.baudrate a = FT232RL_PandaAdapter.baudrate b /\
  FT232RL_PandaAdapter.timeout a = FT232RL_PandaAdapter.timeout b /\
  FT232RL_PandaAdapter.sequence_rx_expected a
  = FT232RL_PandaAdapter.sequence_rx_expected b /\
  FT232RL_PandaAdapter.chunk_buffer a = FT232RL_PandaAdapter.chunk_buffer b /\
  FT232RL_PandaAdapter.chunk_total_size a = FT232RL_PandaAdapter.chunk_total_size b /\
  FT232RL_PandaAdapter.chunk_received_size a
  = FT232RL_PandaAdapter.chunk_received_size b /\
  FT232RL_PandaAdapter.chunk_in_progress a = FT232RL_PandaAdapter.chunk_in_progress b.

(** Those, the [connected] flag, which [connect] and [disconnect] assign, and
    whether there is a serial object, which [connect] creates. *)
Definition same_config {P : Type} (a b : FT232RL_PandaAdapter.t P) : Prop :=
  same_settings a b /\
  FT232RL_PandaAdapter.connected a = FT232RL_PandaAdapter.connected b /\
  FT232RL_PandaAdapter.is_Some (FT232RL_PandaAdapter.serial a)
  = FT232RL_PandaAdapter.is_Some (FT232RL_PandaAdapter.serial b).

(** A method that leaves those attributes as they were. *)
Definition keeps_config {P A : Type} (m : FT232RL_PandaAdapter.M P A) : Prop :=
  forall self, same_config self (snd (m self)).

(** The exception a call of a method ends with, if it raises. *)
Definition raised {A S : Type} (r : outcome A * S) : option exn :=
  match fst r with
  | Returns _ => None
  | Raises e => Some e
  end.

(** The exception a call of the public interface lets escape, if any. *)
Definition escapes {P : Type} {SP : Serial P} (utf8_decode : bytes -> option string)
  (c : FT232RL_PandaAdapter.call) (self : FT232RL_PandaAdapter.t P) : option exn :=
  match c with
  | FT232RL_PandaAdapter.Connect => raised (FT232RL_PandaAdapter.connect self)
  | FT232RL_PandaAdapter.Disconnect => raised (FT232RL_PandaAdapter.disconnect self)
  | FT232RL_PandaAdapter.Reset => raised (FT232RL_PandaAdapter.reset self)
  | FT232RL_PandaAdapter.GetVersion =>
      raised (FT232RL_PandaAdapter.get_version utf8_decode self)
  | FT232RL_PandaAdapter.GetHealth => raised (FT232RL_PandaAdapter.health self)
  | FT232RL_PandaAdapter.SetSafetyMode mode param =>
      raised (FT232RL_PandaAdapter.set_safety_mode mode param self)
  | FT232RL_PandaAdapter.SetCanSpeedKbps bus speed =>
      raised (FT232RL_PandaAdapter.set_can_speed_kbps bus speed self)
  | FT232RL_PandaAdapter.SendHeartbeat => raised (FT232RL_PandaAdapter.send_heartbeat self)
  | FT232RL_PandaAdapter.CanSendMany can_messages timeout =>
      raised (FT232RL_PandaAdapter.can_send_many can_messages timeout self)
  | FT232RL_PandaAdapter.CanRecv => raised (FT232RL_PandaAdapter.can_recv self)
  | FT232RL_PandaAdapter.CanSend addr data bus timeout =>
      raised (FT232RL_PandaAdapter.can_send addr data bus timeout self)
  | FT232RL_PandaAdapter.GetStats => raised (FT232RL_PandaAdapter.get_stats self)
  | FT232RL_PandaAdapter.Close => raised (FT232RL_PandaAdapter.close self)
  end.

(** A scripted port that went away: [serial.Serial(...)], [flush] and
    [close] raise, while [write] still takes the bytes. *)
Definition unplugged_api : Serial ScriptedPort.t := {|
  Serial_new := fun _ _ _ => Raises SerialException;
  ser_is_open := ScriptedPort.opened;
  ser_close := fun p => (Raises SerialException, p);
  ser_write := ScriptedPort.write;
  ser_flush := fun p => (Raises SerialException, p);
  ser_read := ScriptedPort.read;
  ser_timeout := ScriptedPort.timeout;
  ser_set_timeout := ScriptedPort.set_timeout
|}.

(** What the parsing loop of [can_recv] makes of a record the packing loop
    of [can_send_many] wrote for [m]: the bus and the two flags of [m], an
    address that went through the decoder's mask and shift, and the data of
    [m] without its first byte, followed by one byte more (the checksum of
    the record). *)
Definition echoes (m m' : CANMessage.t) : Prop :=
  CANMessage.bus m' = CANMessage.bus m /\
  CANMessage.extended m' = CANMessage.extended m /\
  CANMessage.fd m' = CANMessage.fd m /\
  CANMessage.addr m'
  = (if CANMessage.extended m
     then Z.land (CANMessage.addr m) 0x1FFFFFFF
     else Z.land (Z.shiftr (CANMessage.addr m) 18) 0x7FF) /\
  exists ck : byte, CANMessage.data m' = skipn 1 (CANMessage.data m ++ [ck]).

(** A classic CAN message: at most 8 data bytes, a bus number that fits
    three bits and an address below 2^30. *)
Definition classic (m : CANMessage.t) : Prop :=
  len (CANMessage.data m) <= 8 /\
  0 <= CANMessage.bus m <= 7 /\
  0 <= CANMessage.addr m < 2 ^ 30.

(** The adapter object after a frame of [n] bytes went out whole and the
    flush left the port as [p2]. *)
Definition sent_state {P : Type} (self : FT232RL_PandaAdapter.t P) (p2 : P) (n : Z)
  : FT232RL_PandaAdapter.t P :=
  FT232RL_PandaAdapter.set_bytes_sent (FT232RL_PandaAdapter.bytes_sent self + n)
    (FT232RL_PandaAdapter.set_frames_sent (FT232RL_PandaAdapter.frames_sent self + 1)
       (FT232RL_PandaAdapter.set_sequence_tx
          (Z.land (FT232RL_PandaAdapter.sequence_tx self + 1) 0xFF)
          (FT232RL_PandaAdapter.set_serial (Some p2) self))).

(** And after a response of [n'] bytes came in and left the port as [p6]. *)
Definition received_state {P : Type} (self : FT232RL_PandaAdapter.t P) (p2 p6 : P) (n n' : Z)
  : FT232RL_PandaAdapter.t P :=
  FT232RL_PandaAdapter.set_bytes_received (FT232RL_PandaAdapter.bytes_received self + n')
    (FT232RL_PandaAdapter.set_frames_received (FT232RL_PandaAdapter.frames_received self + 1)
       (FT232RL_PandaAdapter.set_serial (Some p6) (sent_state self p2 n))).

(** ** class Panda *)

From Stdlib Require Import DecimalString.

Module Panda.

(** What [_find_ft232rl_device] asks the host: the [(device, description)]
    pairs of [serial.tools.list_ports.comports()], [platform.system()],
    [glob.glob(pattern)], and [serial.Serial(port, timeout=0.1)], the
    port a candidate name is tried with. *)
Record Host (P : Type) : Type := mkHost {
  comports : list (string * string);
  system : string;
  glob : string -> list string;
  probe : string -> outcome P
}.

Arguments mkHost {P}.
Arguments comports {P} _.
Arguments system {P} _.
Arguments glob {P} _.
Arguments probe {P} _.

(** The two exceptions the class raises itself; [Escaped] is an exception
    of the adapter that passes through. *)
Inductive error : Type :=
| NoDeviceFound                        (* Exception("No FT232RL device found") *)
| FailedToConnect (serial_port : string)
| Escaped (e : exn).

Inductive result (A : Type) : Type :=
| Ok (a : A)
| Fails (e : error).
Arguments Ok {A} a.
Arguments Fails {A} e.

(** [sub in s], on strings. *)
Fixpoint contains (sub s : string) : bool :=
  String.prefix sub s
  || match s with
     | EmptyString => false
     | String _ s' => contains sub s'
     end.

(** ['FTDI' in description or 'FT232' in description]. *)
Definition names_ftdi (description : string) : bool :=
  contains "FTDI" description || contains "FT232" description.

(** The loop over [comports()]: the device of the first port whose
    description names the chip. *)
Fixpoint first_ftdi (ports : list (string * string)) : option string :=
  match ports with
  | [] => None
  | (device, description) :: rest =>
      if names_ftdi description then Some device else first_ftdi rest
  end.

(** [f'COM{i}']. *)
Definition com (i : nat) : string :=
  ("COM" ++ NilEmpty.string_of_uint (Nat.to_uint i))%string.

Section Detect.
Context {P : Type} {SP : Serial P}.

(** The body of the [try] of the two fallback loops: the port is opened and
    closed; an exception of either means [continue]. *)
Definition opens (host : Host P) (port : string) : bool :=
  match probe host port with
  | Returns test_serial =>
      match fst (ser_close test_serial) with
      | Returns _ => true
      | Raises _ => false
      end
  | Raises _ => false
  end.

Fixpoint first_open (host : Host P) (candidates : list string) : option string :=
  match candidates with
  | [] => None
  | port :: rest => if opens host port then Some port else first_open host rest
  end.

(** The names the fallback tries: COM1 to COM19 on Windows, what the two
    patterns match elsewhere. *)
Definition candidates (host : Host P) : list string :=
  if String.eqb (system host) "Windows"
  then map com (seq 1 19)
  else glob host "/dev/ttyUSB*" ++ glob host "/dev/ttyACM*".

Definition _find_ft232rl_device (host : Host P) : result string :=
  match first_ftdi (comports host) with
  | Some device => Ok device
  | None =>
      match first_open host (candidates host) with
      | Some port => Ok port
      | None => Fails NoDeviceFound
      end
  end.

(** [Panda(serial_port, baudrate)]: the adapter object, connected, or the
    exception raised.  [super().__init__(serial_port, baudrate)] leaves the
    timeout at its default, 1.0. *)
Definition __init__ (host : Host P) (serial_port : option string) (baudrate : Z)
  : result (FT232RL_PandaAdapter.t P) :=
  match (match serial_port with
         | None => _find_ft232rl_device host
         | Some name => Ok name
         end) with
  | Fails e => Fails e
  | Ok serial_port =>
      match FT232RL_PandaAdapter.connect
              (FT232RL_PandaAdapter.__init__ serial_port baudrate 1%Q) with
      | (Returns true, self) => Ok self
      | (Returns false, _) => Fails (FailedToConnect serial_port)
      | (Raises e, _) => Fails (Escaped e)
      end
  end.

End Detect.

End Panda.

(** A Linux host that lists one port, a built-in one, and has one USB
    serial device that opens. *)
Definition linux_host : Panda.Host ScriptedPort.t :=
  Panda.mkHost
    [("/dev/ttyS0", "n/a")]%string
    "Linux"%string
    (fun pattern => if String.eqb pattern "/dev/ttyUSB*" then ["/dev/ttyUSB0"%string] else [])
    (fun port => if String.eqb port "/dev/ttyUSB0" then Returns (ScriptedPort.quiet 64)
                 else Raises SerialException).

(** A host that lists an FTDI adapter after a built-in port. *)
Definition ftdi_host : Panda.Host ScriptedPort.t :=
  Panda.mkHost
    [("/dev/ttyS0", "n/a"); ("/dev/ttyUSB1", "FT232R USB UART")]%string
    "Linux"%string
    (fun _ => [])
    (fun _ => Raises SerialException).

(** ** class SafetyMode *)

Module SafetyMode.
Definition NONE : Z := 0x00.
Definition NO_OUTPUT : Z := 0x01.
Definition HONDA : Z := 0x02.
Definition TOYOTA : Z := 0x03.
Definition GM : Z := 0x04.
Definition TESLA : Z := 0x05.
End SafetyMode.

(** ** Examples/simple_can_test.py: class CANTester *)

Module CANTester.

(** The attributes of a tester, but for [start_time]: wall-clock time that
    only [print_statistics] reads.  What the methods print is left out: no
    result and no attribute depends on it. *)
Record t (P : Type) : Type := mk {
  panda : option (FT232RL_PandaAdapter.t P);
  running : bool;
  port : option string;
  messages_sent : Z;
  messages_received : Z
}.

Arguments mk {P}.
Arguments panda {P} _.
Arguments running {P} _.
Arguments port {P} _.
Arguments messages_sent {P} _.
Arguments messages_received {P} _.

Definition set_panda {P : Type} (v : option (FT232RL_PandaAdapter.t P)) (self : t P) : t P :=
  mk v (running self) (port self) (messages_sent self) (messages_received self).

Definition set_messages_sent {P : Type} (v : Z) (self : t P) : t P :=
  mk (panda self) (running self) (port self) v (messages_received self).

Definition set_messages_received {P : Type} (v : Z) (self : t P) : t P :=
  mk (panda self) (running self) (port self) (messages_sent self) v.

Section Methods.
Context {P : Type} {SP : Serial P}.
Variable utf8_decode : bytes -> option string.
Variable host : Panda.Host P.

Local Notation "m ;;; k" := (FT232RL_PandaAdapter.bind m (fun _ => k))
  (at level 61, right associativity).

Definition __init__ (port : option string) : t P := mk None false port 0 0.

(** [if self.port:] is false for [None] and for the empty string. *)
Definition connect (self : t P) : bool * t P :=
  let made :=
    match port self with
    | Some name =>
        if String.eqb name "" then Panda.__init__ host None 3000000
        else Panda.__init__ host (Some name) 3000000
    | None => Panda.__init__ host None 3000000
    end in
  match made with
  | Panda.Ok p => (true, set_panda (Some p) self)
  | Panda.Fails _ => (false, self)
  end.

(** [for bus in buses: body(bus)]. *)
Fixpoint for_each (buses : list Z) (body : Z -> FT232RL_PandaAdapter.M P bool)
  : FT232RL_PandaAdapter.M P unit :=
  match buses with
  | [] => FT232RL_PandaAdapter.ret tt
  | bus :: rest => body bus ;;; for_each rest body
  end.

(** The [try] block of [setup], run on the adapter the tester holds. *)
Definition setup_body : FT232RL_PandaAdapter.M P bool :=
  FT232RL_PandaAdapter.get_version utf8_decode ;;;
  FT232RL_PandaAdapter.health ;;;
  FT232RL_PandaAdapter.set_safety_mode SafetyMode.NO_OUTPUT 0 ;;;
  for_each [0; 1; 2] (fun bus => FT232RL_PandaAdapter.set_can_speed_kbps bus 500) ;;;
  FT232RL_PandaAdapter.send_heartbeat ;;;
  FT232RL_PandaAdapter.ret true.

Definition setup (self : t P) : bool * t P :=
  match panda self with
  | None => (false, self)
  | Some p =>
      match setup_body p with
      | (Returns r, p') => (r, set_panda (Some p') self)
      | (Raises _, p') => (false, set_panda (Some p') self)
      end
  end.

Definition send_test_messages (self : t P) : t P :=
  match panda self with
  | None => self
  | Some p =>
      match FT232RL_PandaAdapter.can_send_many Examples.test_messages 1000 p with
      | (Returns sent_count, p') =>
          set_messages_sent (messages_sent self + sent_count) (set_panda (Some p') self)
      | (Raises _, p') => set_panda (Some p') self
      end
  end.

Definition receive_messages (self : t P) : t P :=
  match panda self with
  | None => self
  | Some p =>
      match FT232RL_PandaAdapter.can_recv p with
      | (Returns [], p') => set_panda (Some p') self
      | (Returns messages, p') =>
          set_messages_received (messages_received self + len messages)
            (set_panda (Some p') self)
      | (Raises _, p') => set_panda (Some p') self
      end
  end.

(** [print_statistics] only reads; an exception of [close] is swallowed. *)
Definition cleanup (self : t P) : t P :=
  match panda self with
  | None => self
  | Some p => set_panda (Some (snd (FT232RL_PandaAdapter.close p))) self
  end.

End Methods.

End CANTester.

(** A method that sends at most [n] frames, whether it returns or raises. *)
Definition sends_at_most {P A : Type} (n : Z) (m : FT232RL_PandaAdapter.M P A) : Prop :=
  forall self,
    FT232RL_PandaAdapter.frames_sent self
    <= FT232RL_PandaAdapter.frames_sent (snd (m self))
    <= FT232RL_PandaAdapter.frames_sent self + n.

(** ** Facts about bytes *)

Lemma byte_val_range (b : byte) : 0 <= byte_val b <= 255.
Proof.
  unfold byte_val. pose proof (Byte.to_N_bounded b). lia.
Qed.

Lemma byte_of_Z_val (b : byte) : byte_of_Z (byte_val b) = b.
Proof.
  unfold byte_of_Z. pose proof (byte_val_range b) as H.
  rewrite Z.mod_small by lia. unfold byte_val.
  rewrite N2Z.id, Byte.of_to_N. reflexivity.
Qed.

Lemma byte_val_of_Z (z : Z) : byte_val (byte_of_Z z) = z mod 256.
Proof.
  unfold byte_of_Z, byte_val.
  pose proof (Z.mod_pos_bound z 256 ltac:(lia)) as H.
  destruct (Byte.of_N (Z.to_N (z mod 256))) as [b|] eqn:E.
  - apply Byte.to_of_N in E. rewrite E. lia.
  - apply Byte.of_N_None_iff in E. lia.
Qed.

Lemma byte_val_of_Z_small (z : Z) : 0 <= z <= 255 -> byte_val (byte_of_Z z) = z.
Proof.
  intros H. rewrite byte_val_of_Z. apply Z.mod_small. lia.
Qed.

Lemma byte_val_inj (a b : byte) : byte_val a = byte_val b -> a = b.
Proof.
  intros H. rewrite <- (byte_of_Z_val a), <- (byte_of_Z_val b), H. reflexivity.
Qed.

Lemma Returns_inj {A : Type} (x y : A) : Returns x = Returns y -> x = y.
Proof. intros H. injection H as H. exact H. Qed.

Lemma pack_B_ok (v : Z) : 0 <= v <= 255 -> PyStruct.pack_B v = Returns (byte_of_Z v).
Proof.
  intros H. unfold PyStruct.pack_B.
  replace ((0 <=? v) && (v <=? 255)) with true; [reflexivity|].
  symmetry. apply andb_true_iff. split; apply Z.leb_le; lia.
Qed.

Lemma pack_Bs_ok (vs : list Z) :
  Forall (fun v => 0 <= v <= 255) vs -> PyStruct.pack_Bs vs = Returns (map byte_of_Z vs).
Proof.
  induction 1 as [|v vs Hv _ IH]; simpl; [reflexivity|].
  rewrite pack_B_ok by exact Hv. simpl. rewrite IH. reflexivity.
Qed.

(** ** Facts about XOR *)

Lemma lxor_cancel_l (a b c : Z) : Z.lxor a b = Z.lxor a c -> b = c.
Proof.
  intros H. apply (f_equal (Z.lxor a)) in H.
  rewrite <- !Z.lxor_assoc, Z.lxor_nilpotent, !Z.lxor_0_l in H. exact H.
Qed.

Lemma lxor_byte_range (a b : Z) : 0 <= a <= 255 -> 0 <= b <= 255 -> 0 <= Z.lxor a b <= 255.
Proof.
  intros Ha Hb.
  assert (H0 : 0 <= Z.lxor a b) by (apply Z.lxor_nonneg; lia).
  split; [exact H0|].
  destruct (Z.eq_dec (Z.lxor a b) 0) as [E|E]; [lia|].
  assert (Hlt : Z.lxor a b < 2 ^ 8); [|lia].
  apply Z.log2_lt_pow2; [lia|].
  pose proof (Z.log2_lxor a b ltac:(lia) ltac:(lia)) as Hl.
  assert (La : Z.log2 a < 8).
  { destruct (Z.eq_dec a 0) as [->|]; [simpl; lia|]. apply Z.log2_lt_pow2; lia. }
  assert (Lb : Z.log2 b < 8).
  { destruct (Z.eq_dec b 0) as [->|]; [simpl; lia|]. apply Z.log2_lt_pow2; lia. }
  lia.
Qed.

Lemma xor_bytes_init (init : Z) (bs : bytes) :
  xor_bytes init bs = Z.lxor init (xor_bytes 0 bs).
Proof.
  unfold xor_bytes. revert init.
  induction bs as [|b bs IH]; intros init; simpl.
  - rewrite Z.lxor_0_r. reflexivity.
  - rewrite IH, (IH (byte_val b)), Z.lxor_assoc. reflexivity.
Qed.

Lemma xor_bytes_cons (b : byte) (bs : bytes) :
  xor_bytes 0 (b :: bs) = Z.lxor (byte_val b) (xor_bytes 0 bs).
Proof.
  unfold xor_bytes at 1. simpl. apply xor_bytes_init.
Qed.

Lemma xor_bytes_app (xs ys : bytes) :
  xor_bytes 0 (xs ++ ys) = Z.lxor (xor_bytes 0 xs) (xor_bytes 0 ys).
Proof.
  unfold xor_bytes at 1. rewrite fold_left_app. apply xor_bytes_init.
Qed.

Lemma xor_bytes_range (bs : bytes) : 0 <= xor_bytes 0 bs <= 255.
Proof.
  induction bs as [|b bs IH].
  - unfold xor_bytes. simpl. lia.
  - rewrite xor_bytes_cons. apply lxor_byte_range; [apply byte_val_range | exact IH].
Qed.

(** ** Facts about slices *)

Lemma len_nonneg {A : Type} (l : list A) : 0 <= len l.
Proof. unfold len. lia. Qed.

Lemma len_cons {A : Type} (x : A) (l : list A) : len (x :: l) = 1 + len l.
Proof. unfold len. simpl List.length. lia. Qed.

Lemma len_app {A : Type} (l1 l2 : list A) : len (l1 ++ l2) = len l1 + len l2.
Proof. unfold len. rewrite length_app. lia. Qed.

Lemma slice_from_0 {A : Type} (l : list A) (j : Z) : slice l 0 j = firstn (Z.to_nat j) l.
Proof. unfold slice. rewrite Z.sub_0_r. reflexivity. Qed.

Lemma firstn_len {A : Type} (l : list A) : firstn (Z.to_nat (len l)) l = l.
Proof. unfold len. rewrite Nat2Z.id. apply firstn_all. Qed.

(** ** The frame codec *)

Module FrameFacts.
Import FT232RL_Frame.

Arguments byte_of_Z : simpl never.
Arguments byte_val : simpl never.

Lemma calculate_checksum_ok (f : t) :
  header_in_range f ->
  _calculate_checksum f = Returns (set_checksum (derived_checksum f) f).
Proof.
  intros H. unfold _calculate_checksum. rewrite pack_Bs_ok by exact H. reflexivity.
Qed.

Lemma pack_ok (f : t) :
  header_in_range f ->
  pack f = Returns (byte_of_Z (sync f) :: byte_of_Z (frame_type f)
                    :: byte_of_Z (sequence f) :: byte_of_Z (length f)
                    :: byte_of_Z (flags f) :: byte_of_Z (derived_checksum f)
                    :: payload f).
Proof.
  intros H. unfold pack. rewrite calculate_checksum_ok by exact H.
  cbn [obind set_checksum sync frame_type sequence length flags checksum payload].
  rewrite pack_Bs_ok.
  - reflexivity.
  - unfold header_in_range in H. rewrite !Forall_cons_iff in H.
    destruct H as (H0 & H1 & H2 & H3 & H4 & _).
    repeat apply Forall_cons; try apply Forall_nil; try assumption.
    apply xor_bytes_range.
Qed.

(** The caller's [checksum] attribute does not reach the wire. *)
Lemma pack_ignores_checksum (c : Z) (f : t) : pack (set_checksum c f) = pack f.
Proof. reflexivity. Qed.

Lemma init_ok (ft seq : Z) (pl : bytes) (fl : Z) :
  0 <= ft <= 255 -> 0 <= seq <= 255 -> len pl <= 255 -> 0 <= fl <= 255 ->
  __init__ ft seq pl fl
  = Returns (mk 0xAA ft seq (len pl) fl pl
               (derived_checksum (mk 0xAA ft seq (len pl) fl pl 0))).
Proof.
  intros Hft Hseq Hpl Hfl. unfold __init__.
  rewrite calculate_checksum_ok; [reflexivity|].
  unfold header_in_range. cbn [sync frame_type sequence length flags].
  pose proof (len_nonneg pl).
  repeat apply Forall_cons; try apply Forall_nil; lia.
Qed.

(** [unpack] on a buffer of six bytes or more. *)
Lemma unpack_cons6 (b0 b1 b2 b3 b4 b5 : byte) (rest : bytes) :
  unpack (b0 :: b1 :: b2 :: b3 :: b4 :: b5 :: rest)
  = if negb (byte_val b0 =? 0xAA) then Returns None
    else if len rest <? byte_val b3 then Returns None
    else
      let payload := firstn (Z.to_nat (byte_val b3)) rest in
      if negb (xor_bytes 0 ([b0; b1; b2; b3; b4] ++ payload) =? byte_val b5)
      then Returns None
      else obind (__init__ (byte_val b1) (byte_val b2) payload (byte_val b4))
                 (fun frame => Returns (Some frame)).
Proof.
  unfold unpack.
  assert (Hlen : len (b0 :: b1 :: b2 :: b3 :: b4 :: b5 :: rest) = 6 + len rest).
  { rewrite !len_cons. lia. }
  rewrite Hlen.
  pose proof (len_nonneg rest) as Hr.
  replace (6 + len rest <? 6) with false by (symmetry; apply Z.ltb_ge; lia).
  change (slice (b0 :: b1 :: b2 :: b3 :: b4 :: b5 :: rest) 0 6)
    with [b0; b1; b2; b3; b4; b5].
  change (slice (b0 :: b1 :: b2 :: b3 :: b4 :: b5 :: rest) 0 5)
    with [b0; b1; b2; b3; b4].
  cbn [PyStruct.unpack_BBBBBB obind].
  replace (6 + len rest <? 6 + byte_val b3) with (len rest <? byte_val b3).
  2:{ destruct (Z.ltb_spec (len rest) (byte_val b3));
      [symmetry; apply Z.ltb_lt|symmetry; apply Z.ltb_ge]; lia. }
  unfold slice.
  replace (6 + byte_val b3 - 6) with (byte_val b3) by lia.
  reflexivity.
Qed.

End FrameFacts.

Lemma frame_type_range (ft : Z) :
  In ft FT232RL_Frame.FRAME_TYPES -> 0 <= ft <= 7.
Proof.
  unfold FT232RL_Frame.FRAME_TYPES. simpl.
  intros H. repeat (destruct H as [<-|H]; [vm_compute; split; discriminate|]).
  contradiction.
Qed.

(** C3.  A frame built with any of the eight frame types, a sequence number
    and flags in 0..255 and a payload of at most 249 bytes is packed
    successfully, whatever value its [checksum] attribute was given by the
    caller, and [unpack] of the packed bytes returns a frame equal to the
    original one: same type, sequence number, length, flags and payload,
    with the checksum that was derived when the frame was packed. *)
Theorem frame_roundtrip (ft seq fl : Z) (pl : bytes) (c : Z) :
  In ft FT232RL_Frame.FRAME_TYPES ->
  0 <= seq <= 255 ->
  0 <= fl <= 255 ->
  len pl <= 249 ->
  exists f data,
    FT232RL_Frame.__init__ ft seq pl fl = Returns f /\
    FT232RL_Frame.pack (FT232RL_Frame.set_checksum c f) = Returns data /\
    FT232RL_Frame.unpack data = Returns (Some f) /\
    FT232RL_Frame.frame_type f = ft /\
    FT232RL_Frame.sequence f = seq /\
    FT232RL_Frame.length f = len pl /\
    FT232RL_Frame.flags f = fl /\
    FT232RL_Frame.payload f = pl.
Proof.
  intros Hft Hseq Hfl Hpl.
  apply frame_type_range in Hft.
  pose proof (len_nonneg pl) as Hl.
  pose proof (FrameFacts.init_ok ft seq pl fl ltac:(lia) Hseq ltac:(lia) Hfl) as Hinit.
  eexists. eexists.
  split; [exact Hinit|].
  rewrite FrameFacts.pack_ignores_checksum.
  split.
  - apply FrameFacts.pack_ok. unfold header_in_range.
    cbn [FT232RL_Frame.sync FT232RL_Frame.frame_type FT232RL_Frame.sequence
         FT232RL_Frame.length FT232RL_Frame.flags].
    repeat apply Forall_cons; try apply Forall_nil; lia.
  - cbn [FT232RL_Frame.sync FT232RL_Frame.frame_type FT232RL_Frame.sequence
         FT232RL_Frame.length FT232RL_Frame.flags FT232RL_Frame.payload].
    repeat split.
    rewrite FrameFacts.unpack_cons6.
    rewrite !byte_val_of_Z_small by (try apply xor_bytes_range; lia).
    rewrite Z.eqb_refl, Z.ltb_irrefl. cbn [negb].
    rewrite firstn_len.
    unfold derived_checksum at 1.
    cbn [FT232RL_Frame.sync FT232RL_Frame.frame_type FT232RL_Frame.sequence
         FT232RL_Frame.length FT232RL_Frame.flags FT232RL_Frame.payload map].
    rewrite Z.eqb_refl. cbn [negb].
    rewrite Hinit. reflexivity.
Qed.

(** A BULK_OUT frame with sequence number 7, flags 1 and a three-byte
    payload, packed with a stale checksum attribute. *)
Lemma frame_roundtrip_witness :
  exists f data,
    FT232RL_Frame.__init__ 3 7 [x01; x02; x03] 1 = Returns f /\
    FT232RL_Frame.pack (FT232RL_Frame.set_checksum 99 f) = Returns data /\
    FT232RL_Frame.unpack data = Returns (Some f) /\
    FT232RL_Frame.frame_type f = 3 /\
    FT232RL_Frame.sequence f = 7 /\
    FT232RL_Frame.length f = len [x01; x02; x03] /\
    FT232RL_Frame.flags f = 1 /\
    FT232RL_Frame.payload f = [x01; x02; x03].
Proof.
  apply (frame_roundtrip 3 7 1 [x01; x02; x03] 99).
  - simpl. tauto.
  - lia.
  - lia.
  - vm_compute. discriminate.
Defined.

(** X3.  A buffer whose first byte is not 0xAA is never unpacked, whatever
    follows: [unpack] returns [None], as it does for every failure. *)
Lemma unpack_bad_sync (b : byte) (rest : bytes) :
  byte_val b <> 0xAA -> FT232RL_Frame.unpack (b :: rest) = Returns None.
Proof.
  intros Hb.
  destruct rest as [|b1 [|b2 [|b3 [|b4 [|b5 rest]]]]]; try reflexivity.
  rewrite FrameFacts.unpack_cons6.
  destruct (Z.eqb_spec (byte_val b) 170) as [E|_]; [contradiction | reflexivity].
Qed.

Lemma unpack_bad_sync_witness :
  FT232RL_Frame.unpack (x55 :: [x00; x00; x01; x00; xaa; x01]) = Returns None.
Proof.
  apply (unpack_bad_sync x55 [x00; x00; x01; x00; xaa; x01]).
  vm_compute. discriminate.
Defined.

(** ** Single-bit corruption *)

Lemma pow2_byte_range (k : Z) : 0 <= k < 8 -> 1 <= 2 ^ k <= 128.
Proof.
  intros H.
  assert (C : k = 0 \/ k = 1 \/ k = 2 \/ k = 3 \/ k = 4 \/ k = 5 \/ k = 6 \/ k = 7) by lia.
  repeat (destruct C as [->|C]; [vm_compute; split; discriminate|]).
  subst k. vm_compute. split; discriminate.
Qed.

Lemma byte_val_flip_bit (k : Z) (b : byte) :
  0 <= k < 8 -> byte_val (flip_bit k b) = Z.lxor (byte_val b) (2 ^ k).
Proof.
  intros H. unfold flip_bit. apply byte_val_of_Z_small.
  apply lxor_byte_range; [apply byte_val_range|].
  pose proof (pow2_byte_range k H). lia.
Qed.

Lemma lxor_pow2_neq (a k : Z) : 0 <= k -> Z.lxor a (2 ^ k) <> a.
Proof.
  intros Hk E. rewrite <- (Z.lxor_0_r a) in E at 2.
  apply lxor_cancel_l in E.
  pose proof (Z.pow_pos_nonneg 2 k ltac:(lia) Hk). lia.
Qed.

(** Inverting a clear bit adds its weight, inverting a set bit removes it. *)
Lemma lxor_pow2_clear (a k : Z) :
  0 <= k -> Z.testbit a k = false -> Z.lxor a (2 ^ k) = a + 2 ^ k.
Proof.
  intros Hk Hb. symmetry. apply Z.add_nocarry_lxor.
  apply Z.bits_inj'. intros n Hn.
  rewrite Z.land_spec, Z.bits_0, Z.pow2_bits_eqb by exact Hk.
  destruct (Z.eqb_spec k n) as [->|_].
  - rewrite Hb. reflexivity.
  - apply andb_false_r.
Qed.

Lemma lxor_pow2_set (a k : Z) :
  0 <= k -> Z.testbit a k = true -> Z.lxor a (2 ^ k) = a - 2 ^ k.
Proof.
  intros Hk Hb.
  assert (Hc : Z.testbit (Z.lxor a (2 ^ k)) k = false).
  { rewrite Z.lxor_spec, Hb, Z.pow2_bits_true by exact Hk. reflexivity. }
  apply (lxor_pow2_clear _ k Hk) in Hc.
  rewrite Z.lxor_assoc, Z.lxor_nilpotent, Z.lxor_0_r in Hc. lia.
Qed.

Lemma length_flip_at (i : nat) (k : Z) (data : bytes) :
  List.length (flip_at i k data) = List.length data.
Proof.
  revert i. induction data as [|b rest IH]; intros [|i]; simpl; auto.
Qed.

Lemma xor_bytes_flip_at (i : nat) (k : Z) (data : bytes) :
  0 <= k < 8 -> (i < List.length data)%nat ->
  xor_bytes 0 (flip_at i k data) = Z.lxor (xor_bytes 0 data) (2 ^ k).
Proof.
  intros Hk. revert i. induction data as [|b rest IH]; intros i Hi.
  - simpl in Hi. lia.
  - destruct i as [|i]; simpl flip_at; rewrite !xor_bytes_cons.
    + rewrite byte_val_flip_bit by exact Hk.
      rewrite !Z.lxor_assoc. f_equal. apply Z.lxor_comm.
    + simpl in Hi. rewrite IH by lia. rewrite Z.lxor_assoc. reflexivity.
Qed.

(** Two XOR chains that are equal have the same bit [n]. *)
Ltac bit_of E n :=
  apply (f_equal (fun z => Z.testbit z n)) in E; cbv beta in E;
  rewrite ?Z.lxor_spec, ?Z.bits_0 in E.

(** Closes a goal from an equation between XOR chains that differ by [2 ^ k]. *)
Ltac xor_parity E k :=
  bit_of E k; rewrite ?Z.pow2_bits_true in E by lia;
  repeat match type of E with
         | context [Z.testbit ?a k] => destruct (Z.testbit a k)
         end;
  simpl in E; discriminate E.

Lemma xor_bytes_nil : xor_bytes 0 [] = 0.
Proof. reflexivity. Qed.

(** Proves an equation between XOR chains from another one, bit by bit. *)
Ltac xor_solve E :=
  apply Z.bits_inj'; intros ?n ?Hn;
  match goal with
  | |- Z.testbit _ ?n = _ =>
      bit_of E n; rewrite ?Z.lxor_spec, ?Z.bits_0;
      repeat match type of E with
             | context [Z.testbit ?a n] => destruct (Z.testbit a n)
             end;
      repeat match goal with
             | |- context [Z.testbit ?a n] => destruct (Z.testbit a n)
             end;
      simpl in E |- *; congruence
  end.

(** The bytes [pack] puts on the wire for a frame with header fields
    [ft], [seq], [len pl], [fl] and payload [pl]. *)
Lemma unpack_flip_wire (ft seq fl : Z) (pl : bytes) (i : nat) (k : Z) :
  0 <= ft <= 255 -> 0 <= seq <= 255 -> 0 <= fl <= 255 -> len pl <= 255 ->
  0 <= k < 8 ->
  (i < 6 + List.length pl)%nat ->
  ~ (i = 3%nat /\ Z.testbit (len pl) k = true /\
     xor_bytes 0 (skipn (Z.to_nat (len pl - 2 ^ k)) pl) = 2 ^ k) ->
  FT232RL_Frame.unpack
    (flip_at i k
       (byte_of_Z 0xAA :: byte_of_Z ft :: byte_of_Z seq :: byte_of_Z (len pl)
        :: byte_of_Z fl
        :: byte_of_Z (xor_bytes 0 (map byte_of_Z [0xAA; ft; seq; len pl; fl] ++ pl))
        :: pl))
  = Returns None.
Proof.
  intros Hft Hseq Hfl Hpl Hk Hi Hnot.
  pose proof (len_nonneg pl) as Hl.
  pose proof (pow2_byte_range k Hk) as Hp.
  set (ck := xor_bytes 0 (map byte_of_Z [0xAA; ft; seq; len pl; fl] ++ pl)).
  assert (Hck : 0 <= ck <= 255) by apply xor_bytes_range.
  assert (Eck : ck = xor_bytes 0 (map byte_of_Z [0xAA; ft; seq; len pl; fl] ++ pl))
    by reflexivity.
  cbn [map] in Eck.
  rewrite xor_bytes_app, !xor_bytes_cons, xor_bytes_nil in Eck.
  rewrite !byte_val_of_Z_small in Eck by lia.
  destruct i as [|[|[|[|[|[|j]]]]]]; cbn [flip_at]; rewrite FrameFacts.unpack_cons6;
    rewrite ?byte_val_flip_bit by exact Hk;
    rewrite ?byte_val_of_Z_small by lia.
  - (* the sync byte *)
    destruct (Z.eqb_spec (Z.lxor 170 (2 ^ k)) 170) as [E|_]; [|reflexivity].
    exfalso. revert E. apply lxor_pow2_neq. lia.
  - (* the frame type *)
    cbn [Z.eqb Pos.eqb negb]. rewrite Z.ltb_irrefl, firstn_len.
    destruct (Z.eqb_spec (xor_bytes 0 ([byte_of_Z 170; flip_bit k (byte_of_Z ft);
                                         byte_of_Z seq; byte_of_Z (len pl); byte_of_Z fl]
                                        ++ pl)) ck) as [E|_]; [|reflexivity].
    exfalso. rewrite Eck in E.
    rewrite xor_bytes_app, !xor_bytes_cons, xor_bytes_nil in E.
    rewrite byte_val_flip_bit in E by exact Hk.
    rewrite !byte_val_of_Z_small in E by lia.
    xor_parity E k.
  - (* the sequence number *)
    cbn [Z.eqb Pos.eqb negb]. rewrite Z.ltb_irrefl, firstn_len.
    destruct (Z.eqb_spec (xor_bytes 0 ([byte_of_Z 170; byte_of_Z ft;
                                         flip_bit k (byte_of_Z seq); byte_of_Z (len pl);
                                         byte_of_Z fl] ++ pl)) ck) as [E|_]; [|reflexivity].
    exfalso. rewrite Eck in E.
    rewrite xor_bytes_app, !xor_bytes_cons, xor_bytes_nil in E.
    rewrite byte_val_flip_bit in E by exact Hk.
    rewrite !byte_val_of_Z_small in E by lia.
    xor_parity E k.
  - (* the length *)
    cbn [Z.eqb Pos.eqb negb].
    destruct (Z.testbit (len pl) k) eqn:Hb.
    + rewrite (lxor_pow2_set _ _ (proj1 Hk) Hb).
      assert (Hge : 0 <= len pl - 2 ^ k).
      { rewrite <- (lxor_pow2_set _ _ (proj1 Hk) Hb). apply Z.lxor_nonneg. lia. }
      replace (len pl <? len pl - 2 ^ k) with false by (symmetry; apply Z.ltb_ge; lia).
      destruct (Z.eqb_spec
                  (xor_bytes 0 ([byte_of_Z 170; byte_of_Z ft; byte_of_Z seq;
                                 flip_bit k (byte_of_Z (len pl)); byte_of_Z fl]
                                ++ firstn (Z.to_nat (len pl - 2 ^ k)) pl)) ck)
        as [E|_]; [|reflexivity].
      exfalso. apply Hnot. split; [reflexivity|]. split; [reflexivity|].
      assert (Hcut : xor_bytes 0 pl
                     = Z.lxor (xor_bytes 0 (firstn (Z.to_nat (len pl - 2 ^ k)) pl))
                         (xor_bytes 0 (skipn (Z.to_nat (len pl - 2 ^ k)) pl))).
      { rewrite <- xor_bytes_app, firstn_skipn. reflexivity. }
      rewrite Eck in E.
      rewrite xor_bytes_app, !xor_bytes_cons, xor_bytes_nil in E.
      rewrite byte_val_flip_bit in E by exact Hk.
      rewrite !byte_val_of_Z_small in E by lia.
      rewrite Hcut in E.
      xor_solve E.
    + rewrite (lxor_pow2_clear _ _ (proj1 Hk) Hb).
      replace (len pl <? len pl + 2 ^ k) with true by (symmetry; apply Z.ltb_lt; lia).
      reflexivity.
  - (* the flags *)
    cbn [Z.eqb Pos.eqb negb]. rewrite Z.ltb_irrefl, firstn_len.
    destruct (Z.eqb_spec (xor_bytes 0 ([byte_of_Z 170; byte_of_Z ft; byte_of_Z seq;
                                         byte_of_Z (len pl); flip_bit k (byte_of_Z fl)]
                                        ++ pl)) ck) as [E|_]; [|reflexivity].
    exfalso. rewrite Eck in E.
    rewrite xor_bytes_app, !xor_bytes_cons, xor_bytes_nil in E.
    rewrite byte_val_flip_bit in E by exact Hk.
    rewrite !byte_val_of_Z_small in E by lia.
    xor_parity E k.
  - (* the checksum *)
    cbn [Z.eqb Pos.eqb negb]. rewrite Z.ltb_irrefl, firstn_len.
    destruct (Z.eqb_spec (xor_bytes 0 ([byte_of_Z 170; byte_of_Z ft; byte_of_Z seq;
                                         byte_of_Z (len pl); byte_of_Z fl] ++ pl))
                (Z.lxor ck (2 ^ k))) as [E|_]; [|reflexivity].
    exfalso.
    rewrite xor_bytes_app, !xor_bytes_cons, xor_bytes_nil in E.
    rewrite !byte_val_of_Z_small in E by lia.
    rewrite <- Eck in E. symmetry in E. revert E. apply lxor_pow2_neq. lia.
  - (* a payload byte *)
    cbn [Z.eqb Pos.eqb negb].
    assert (Hj : (j < List.length pl)%nat) by lia.
    assert (Hlen : len (flip_at j k pl) = len pl).
    { unfold len. rewrite length_flip_at. reflexivity. }
    rewrite Hlen, Z.ltb_irrefl.
    replace (firstn (Z.to_nat (len pl)) (flip_at j k pl)) with (flip_at j k pl)
      by (rewrite <- Hlen; symmetry; apply firstn_len).
    destruct (Z.eqb_spec (xor_bytes 0 ([byte_of_Z 170; byte_of_Z ft; byte_of_Z seq;
                                         byte_of_Z (len pl); byte_of_Z fl]
                                        ++ flip_at j k pl)) ck) as [E|_]; [|reflexivity].
    exfalso. rewrite Eck in E.
    rewrite xor_bytes_app, !xor_bytes_cons, xor_bytes_nil in E.
    rewrite xor_bytes_flip_at in E by assumption.
    rewrite !byte_val_of_Z_small in E by lia.
    xor_parity E k.
Qed.

(** The flips [unpack_flip_wire] leaves out are accepted: the frame comes
    back with its payload cut to the shortened length. *)
Lemma unpack_flip_wire_accepted (ft seq fl : Z) (pl : bytes) (k : Z) :
  0 <= ft <= 255 -> 0 <= seq <= 255 -> 0 <= fl <= 255 -> len pl <= 255 ->
  0 <= k < 8 ->
  Z.testbit (len pl) k = true ->
  xor_bytes 0 (skipn (Z.to_nat (len pl - 2 ^ k)) pl) = 2 ^ k ->
  exists f',
    FT232RL_Frame.unpack
      (flip_at 3 k
         (byte_of_Z 0xAA :: byte_of_Z ft :: byte_of_Z seq :: byte_of_Z (len pl)
          :: byte_of_Z fl
          :: byte_of_Z (xor_bytes 0 (map byte_of_Z [0xAA; ft; seq; len pl; fl] ++ pl))
          :: pl))
    = Returns (Some f') /\
    FT232RL_Frame.payload f' = firstn (Z.to_nat (len pl - 2 ^ k)) pl.
Proof.
  intros Hft Hseq Hfl Hpl Hk Hb Hx.
  pose proof (len_nonneg pl) as Hl.
  pose proof (pow2_byte_range k Hk) as Hp.
  set (ck := xor_bytes 0 (map byte_of_Z [0xAA; ft; seq; len pl; fl] ++ pl)).
  assert (Hck : 0 <= ck <= 255) by apply xor_bytes_range.
  assert (Eck : ck = xor_bytes 0 (map byte_of_Z [0xAA; ft; seq; len pl; fl] ++ pl))
    by reflexivity.
  cbn [map] in Eck.
  rewrite xor_bytes_app, !xor_bytes_cons, xor_bytes_nil in Eck.
  rewrite !byte_val_of_Z_small in Eck by lia.
  assert (Hge : 0 <= len pl - 2 ^ k).
  { rewrite <- (lxor_pow2_set _ _ (proj1 Hk) Hb). apply Z.lxor_nonneg. lia. }
  set (cut := firstn (Z.to_nat (len pl - 2 ^ k)) pl).
  assert (Hcutlen : len cut = len pl - 2 ^ k).
  { unfold cut, len. rewrite length_firstn. unfold len in *. lia. }
  assert (Hcut : xor_bytes 0 pl
                 = Z.lxor (xor_bytes 0 cut)
                     (xor_bytes 0 (skipn (Z.to_nat (len pl - 2 ^ k)) pl))).
  { unfold cut. rewrite <- xor_bytes_app, firstn_skipn. reflexivity. }
  cbn [flip_at]. rewrite FrameFacts.unpack_cons6.
  rewrite byte_val_flip_bit by exact Hk.
  rewrite !byte_val_of_Z_small by lia.
  cbn [Z.eqb Pos.eqb negb].
  assert (Esum : xor_bytes 0 ([byte_of_Z 170; byte_of_Z ft; byte_of_Z seq;
                               flip_bit k (byte_of_Z (len pl)); byte_of_Z fl] ++ cut)
                 = ck).
  { rewrite xor_bytes_app, !xor_bytes_cons, xor_bytes_nil.
    rewrite byte_val_flip_bit by exact Hk.
    rewrite !byte_val_of_Z_small by lia.
    rewrite Eck, Hcut.
    xor_solve Hx. }
  rewrite (lxor_pow2_set _ _ (proj1 Hk) Hb).
  replace (len pl <? len pl - 2 ^ k) with false by (symmetry; apply Z.ltb_ge; lia).
  fold cut. rewrite Esum, Z.eqb_refl. cbn [negb].
  rewrite FrameFacts.init_ok by lia.
  cbn [obind]. eexists. split; reflexivity.
Qed.

(** C6, as the code has it.  [unpack] has one failure value, [None], for a
    short buffer, a wrong sync byte and a wrong checksum alike.  It returns
    [None] for the packed bytes of a frame with one bit inverted, wherever
    the bit is, unless the inverted bit is a set bit [2 ^ k] of the length
    byte and the payload bytes that the shorter length cuts off have
    [2 ^ k] as their XOR; in that one case it returns a frame, whose payload
    is the original one cut to the shorter length. *)
Theorem unpack_rejects_bit_flip
  (ft seq fl : Z) (pl : bytes) (f : FT232RL_Frame.t) (data : bytes) (i : nat) (k : Z) :
  In ft FT232RL_Frame.FRAME_TYPES ->
  0 <= seq <= 255 ->
  0 <= fl <= 255 ->
  len pl <= 249 ->
  FT232RL_Frame.__init__ ft seq pl fl = Returns f ->
  FT232RL_Frame.pack f = Returns data ->
  (i < List.length data)%nat ->
  0 <= k < 8 ->
  (~ (i = 3%nat /\ Z.testbit (len pl) k = true /\
      xor_bytes 0 (skipn (Z.to_nat (len pl - 2 ^ k)) pl) = 2 ^ k) ->
   FT232RL_Frame.unpack (flip_at i k data) = Returns None) /\
  (i = 3%nat /\ Z.testbit (len pl) k = true /\
   xor_bytes 0 (skipn (Z.to_nat (len pl - 2 ^ k)) pl) = 2 ^ k ->
   exists f',
     FT232RL_Frame.unpack (flip_at i k data) = Returns (Some f') /\
     FT232RL_Frame.payload f' = firstn (Z.to_nat (len pl - 2 ^ k)) pl).
Proof.
  intros Hft Hseq Hfl Hpl Hinit Hpack Hi Hk.
  apply frame_type_range in Hft.
  pose proof (len_nonneg pl) as Hl.
  rewrite FrameFacts.init_ok in Hinit by lia.
  injection Hinit as <-.
  rewrite FrameFacts.pack_ok in Hpack.
  2:{ unfold header_in_range.
      cbn [FT232RL_Frame.sync FT232RL_Frame.frame_type FT232RL_Frame.sequence
           FT232RL_Frame.length FT232RL_Frame.flags].
      repeat apply Forall_cons; try apply Forall_nil; lia. }
  injection Hpack as <-.
  cbn [FT232RL_Frame.sync FT232RL_Frame.frame_type FT232RL_Frame.sequence
       FT232RL_Frame.length FT232RL_Frame.flags FT232RL_Frame.payload] in Hi |- *.
  cbn [List.length] in Hi.
  split.
  - intros Hnot. apply unpack_flip_wire; try assumption; lia.
  - intros (-> & Hb & Hx). apply unpack_flip_wire_accepted; try assumption; lia.
Qed.

(** A CONTROL frame with the one-byte payload 01: bit 1 of its length byte
    inverted, which makes the length 3. *)
Lemma unpack_rejects_bit_flip_witness :
  FT232RL_Frame.unpack (flip_at 3 1 [xaa; x00; x00; x01; x00; xaa; x01]) = Returns None.
Proof.
  apply (unpack_rejects_bit_flip 0 0 0 [x01]
           (FT232RL_Frame.mk 170 0 0 1 0 [x01] 170)
           [xaa; x00; x00; x01; x00; xaa; x01] 3 1).
  - simpl. tauto.
  - lia.
  - lia.
  - vm_compute. discriminate.
  - reflexivity.
  - reflexivity.
  - simpl. lia.
  - lia.
  - intros (_ & H & _). vm_compute in H. discriminate H.
Defined.

(** The same frame with bit 0 of its length byte inverted: the length
    becomes 0, the byte cut off is 01, and [unpack] returns a frame, with an
    empty payload, where C6 as stated has it fail. *)
Lemma unpack_accepts_bit_flip_counterexample :
  FT232RL_Frame.__init__ 0 0 [x01] 0 = Returns (FT232RL_Frame.mk 170 0 0 1 0 [x01] 170) /\
  FT232RL_Frame.pack (FT232RL_Frame.mk 170 0 0 1 0 [x01] 170)
  = Returns [xaa; x00; x00; x01; x00; xaa; x01] /\
  flip_at 3 0 [xaa; x00; x00; x01; x00; xaa; x01] = [xaa; x00; x00; x00; x00; xaa; x01] /\
  FT232RL_Frame.unpack (flip_at 3 0 [xaa; x00; x00; x01; x00; xaa; x01])
  = Returns (Some (FT232RL_Frame.mk 170 0 0 0 0 [] 170)).
Proof.
  repeat split; reflexivity.
Qed.

(** ** The parsing loop of [can_recv] *)

Lemma land_ones_range (a n : Z) : 0 <= n -> 0 <= Z.land a (Z.ones n) < 2 ^ n.
Proof.
  intros Hn. rewrite Z.land_ones by exact Hn.
  apply Z.mod_pos_bound. apply Z.pow_pos_nonneg; lia.
Qed.

Lemma dlc_to_len_lookup (dlc : Z) :
  0 <= dlc < 16 ->
  exists n, index CANCodec.dlc_to_len dlc = Some n /\
            In n CANCodec.dlc_to_len /\ 0 <= n <= 64.
Proof.
  intros H.
  assert (C : dlc = 0 \/ dlc = 1 \/ dlc = 2 \/ dlc = 3 \/ dlc = 4 \/ dlc = 5
              \/ dlc = 6 \/ dlc = 7 \/ dlc = 8 \/ dlc = 9 \/ dlc = 10 \/ dlc = 11
              \/ dlc = 12 \/ dlc = 13 \/ dlc = 14 \/ dlc = 15) by lia.
  repeat (destruct C as [->|C];
          [eexists; split; [reflexivity|]; split; [simpl; tauto | lia]|]).
  subst dlc. eexists; split; [reflexivity|]; split; [simpl; tauto | lia].
Qed.

Lemma list_of_length_4 {A : Type} (l : list A) :
  List.length l = 4%nat -> exists a b c d, l = [a; b; c; d].
Proof.
  destruct l as [|a [|b [|c [|d [|e l]]]]]; simpl; intros H; try discriminate H.
  exists a, b, c, d. reflexivity.
Qed.

Lemma length_slice {A : Type} (l : list A) (i j : Z) :
  0 <= i -> i <= j -> j <= len l -> len (slice l i j) = j - i.
Proof.
  intros Hi Hij Hj. unfold slice, len in *.
  rewrite length_firstn, length_skipn. lia.
Qed.

Lemma index_in_range {A : Type} (l : list A) (i : Z) :
  0 <= i < len l -> exists x, index l i = Some x.
Proof.
  intros H. unfold index, len in *.
  replace (i <? 0) with false by (symmetry; apply Z.ltb_ge; lia).
  destruct (nth_error l (Z.to_nat i)) as [x|] eqn:E; [eauto|].
  apply nth_error_None in E. lia.
Qed.

(** One iteration of the loop, unfolded. *)
Lemma parse_loop_S (fuel : nat) (data : bytes) (offset : Z) (messages : list CANMessage.t) :
  CANCodec.parse_loop (S fuel) data offset messages
  = if offset + 6 <=? len data then
      match index data offset with
      | None => Raises IndexError
      | Some b0 =>
          let header0 := byte_val b0 in
          let dlc := Z.land (Z.shiftr header0 4) 0xF in
          let bus := Z.land (Z.shiftr header0 1) 0x7 in
          let fd := negb (Z.land header0 0x1 =? 0) in
          if offset + 5 >=? len data then Returns messages
          else
            obind (PyStruct.unpack_I (slice data (offset + 1) (offset + 5)))
              (fun addr_raw =>
                 let extended := negb (Z.land addr_raw (Z.shiftl 1 30) =? 0) in
                 let addr := if extended then Z.land addr_raw 0x1FFFFFFF
                             else Z.land (Z.shiftr addr_raw 18) 0x7FF in
                 obind (if dlc <? len CANCodec.dlc_to_len
                        then match index CANCodec.dlc_to_len dlc with
                             | Some n => Returns n
                             | None => Raises IndexError
                             end
                        else Returns 8)
                   (fun data_len =>
                      if offset + 6 + data_len >? len data then Returns messages
                      else
                        CANCodec.parse_loop fuel data (offset + 6 + data_len)
                          (messages
                           ++ [CANMessage.mk addr
                                 (slice data (offset + 6) (offset + 6 + data_len))
                                 bus extended fd])))
      end
    else Returns messages.
Proof. reflexivity. Qed.

Lemma parse_loop_ok (fuel : nat) :
  forall (data : bytes) (offset : Z) (messages : list CANMessage.t),
    0 <= offset <= len data ->
    len data - offset < Z.of_nat fuel ->
    Forall parsed_ok messages ->
    exists out,
      CANCodec.parse_loop fuel data offset messages = Returns out /\
      Forall parsed_ok out.
Proof.
  induction fuel as [|fuel IH]; intros data offset messages Hoff Hfuel Hmsgs.
  - lia.
  - rewrite parse_loop_S.
    destruct (Z.leb_spec (offset + 6) (len data)) as [Hroom|_]; [|eauto].
    destruct (index_in_range data offset ltac:(lia)) as [b0 ->].
    cbv zeta.
    destruct (Z.geb_spec (offset + 5) (len data)) as [Hbad|_]; [lia|].
    destruct (list_of_length_4 (slice data (offset + 1) (offset + 5))) as (a & b & c & d & ->).
    { apply Nat2Z.inj. change (len (slice data (offset + 1) (offset + 5)) = 4).
      rewrite length_slice; lia. }
    cbn [PyStruct.unpack_I obind].
    set (addr_raw := byte_val a + Z.shiftl (byte_val b) 8 + Z.shiftl (byte_val c) 16
                     + Z.shiftl (byte_val d) 24).
    set (dlc := Z.land (Z.shiftr (byte_val b0) 4) 15).
    assert (Hdlc : 0 <= dlc < 16).
    { unfold dlc. change 15 with (Z.ones 4). apply (land_ones_range _ 4). lia. }
    change (len CANCodec.dlc_to_len) with 16.
    replace (dlc <? 16) with true by (symmetry; apply Z.ltb_lt; lia).
    destruct (dlc_to_len_lookup dlc Hdlc) as (n & -> & Hin & Hn).
    cbn [obind].
    destruct (Z.gtb_spec (offset + 6 + n) (len data)) as [_|Hfit]; [eauto|].
    apply IH; [lia | lia |].
    apply Forall_app. split; [exact Hmsgs|].
    apply Forall_cons; [|apply Forall_nil].
    assert (Hlen : len (slice data (offset + 6) (offset + 6 + n)) = n).
    { rewrite length_slice; lia. }
    unfold parsed_ok.
    cbn [CANMessage.bus CANMessage.addr CANMessage.extended CANMessage.data].
    rewrite Hlen.
    pose proof (land_ones_range (Z.shiftr (byte_val b0) 1) 3 ltac:(lia)) as Hbus.
    pose proof (land_ones_range addr_raw 29 ltac:(lia)) as Hext.
    pose proof (land_ones_range (Z.shiftr addr_raw 18) 11 ltac:(lia)) as Hstd.
    change (Z.ones 3) with 7 in Hbus. change (Z.ones 29) with 536870911 in Hext.
    change (Z.ones 11) with 2047 in Hstd.
    change (2 ^ 3) with 8 in Hbus. change (2 ^ 29) with 536870912 in Hext.
    change (2 ^ 11) with 2048 in Hstd.
    split; [lia|].
    split; [destruct (negb (Z.land addr_raw (Z.shiftl 1 30) =? 0)); lia|].
    split; [intros ->; lia|].
    split; [exact Hin | lia].
Qed.

(** C9.  On every byte string the parsing loop of [can_recv] ends and
    returns a list of messages: it raises nothing, so no read falls outside
    the buffer.  Every message returned has its bus in 0..7, its address at
    most 0x1FFFFFFF, and at most 0x7FF when the extended flag is off, and a
    data length that is an entry of the table
    [0,1,2,3,4,5,6,7,8,12,16,20,24,32,48,64], so at most 64. *)
Theorem parse_messages_total (data : bytes) :
  exists messages,
    CANCodec.parse_messages data = Returns messages /\
    Forall parsed_ok messages.
Proof.
  unfold CANCodec.parse_messages.
  apply parse_loop_ok.
  - pose proof (len_nonneg data). lia.
  - unfold len. lia.
  - apply Forall_nil.
Qed.

(** ** The statistics counters *)

Section Counters.
Import FT232RL_PandaAdapter.
Context {P : Type} {SP : Serial P}.
Variable utf8_decode : bytes -> option string.

Lemma stats_le_refl (a : t P) : stats_le a a.
Proof. unfold stats_le. lia. Qed.

Lemma stats_le_trans (a b c : t P) : stats_le a b -> stats_le b c -> stats_le a c.
Proof. unfold stats_le. lia. Qed.

Lemma grows_ret {A : Type} (x : A) : grows (P := P) (ret x).
Proof. intros self. apply stats_le_refl. Qed.

Lemma grows_get : grows (P := P) get.
Proof. intros self. apply stats_le_refl. Qed.

Lemma grows_lift {A : Type} (o : outcome A) : grows (P := P) (lift o).
Proof. intros self. apply stats_le_refl. Qed.

Lemma grows_modify (f : t P -> t P) :
  (forall self, stats_le self (f self)) -> grows (modify f).
Proof. intros H self. apply H. Qed.

Lemma grows_on_serial {A : Type} (op : P -> outcome A * P) : grows (on_serial op).
Proof.
  intros self. unfold on_serial.
  destruct (serial self) as [p|]; [|apply stats_le_refl].
  destruct (op p) as [r p']. destruct self. unfold stats_le. cbn. lia.
Qed.

Lemma grows_bind {A B : Type} (m : M P A) (k : A -> M P B) :
  grows m -> (forall x, grows (k x)) -> grows (bind m k).
Proof.
  intros Hm Hk self. unfold bind.
  specialize (Hm self). destruct (m self) as [[x|e] self']; cbn [snd] in *.
  - eapply stats_le_trans; [exact Hm | apply Hk].
  - exact Hm.
Qed.

Lemma grows_try_except {A : Type} (body handler : M P A) :
  grows body -> grows handler -> grows (try_except body handler).
Proof.
  intros Hb Hh self. unfold try_except.
  specialize (Hb self). destruct (body self) as [[x|e] self']; cbn [snd] in *.
  - exact Hb.
  - eapply stats_le_trans; [exact Hb | apply Hh].
Qed.

(** An assignment to one attribute that does not lower a counter. *)
Ltac grows_assign :=
  apply grows_modify; intros []; unfold stats_le, len; cbn; lia.

Ltac grows_step :=
  first
    [ apply grows_ret
    | apply grows_get
    | apply grows_lift
    | apply grows_on_serial
    | grows_assign
    | apply grows_try_except
    | apply grows_bind; [|intros ?]
    | match goal with
      | |- grows (if ?c then _ else _) => destruct c
      | |- grows (match ?x with _ => _ end) => destruct x
      end ].

Lemma grows_send_frame (frame : FT232RL_Frame.t) : grows (_send_frame frame).
Proof. unfold _send_frame. repeat grows_step. Qed.

Lemma grows_receive_frame (timeout : option Q) : grows (_receive_frame timeout).
Proof. unfold _receive_frame. repeat grows_step. Qed.

Lemma grows_control_transfer (request_type request value index : Z) (data : bytes) :
  grows (_control_transfer request_type request value index data).
Proof.
  unfold _control_transfer.
  repeat first [ apply grows_send_frame | apply grows_receive_frame | grows_step ].
Qed.

Lemma grows_reset : grows reset.
Proof. unfold reset. repeat first [ apply grows_control_transfer | grows_step ]. Qed.

Lemma grows_can_send_many (can_messages : list CANMessage.t) (timeout : Z) :
  grows (can_send_many can_messages timeout).
Proof.
  unfold can_send_many. repeat first [ apply grows_send_frame | grows_step ].
Qed.

Lemma grows_disconnect : grows disconnect.
Proof. unfold disconnect. repeat grows_step. Qed.

Lemma grows_run (c : call) (self : t P) : stats_le self (run utf8_decode c self).
Proof.
  destruct c as [ | | | | | mode param | bus speed | | msgs tmo | | addr data bus tmo | | ];
    cbn [run].
  - revert self. change (grows (P := P) connect).
    unfold connect. repeat first [ apply grows_reset | grows_step ].
  - apply grows_disconnect.
  - apply grows_reset.
  - revert self. change (grows (get_version utf8_decode)).
    unfold get_version. repeat first [ apply grows_control_transfer | grows_step ].
  - revert self. change (grows (P := P) health).
    unfold health. repeat first [ apply grows_control_transfer | grows_step ].
  - revert self. change (grows (P := P) (set_safety_mode mode param)).
    unfold set_safety_mode. repeat first [ apply grows_control_transfer | grows_step ].
  - revert self. change (grows (P := P) (set_can_speed_kbps bus speed)).
    unfold set_can_speed_kbps. repeat first [ apply grows_control_transfer | grows_step ].
  - revert self. change (grows (P := P) send_heartbeat).
    unfold send_heartbeat. repeat first [ apply grows_control_transfer | grows_step ].
  - apply grows_can_send_many.
  - revert self. change (grows (P := P) can_recv).
    unfold can_recv.
    repeat first [ apply grows_send_frame | apply grows_receive_frame | grows_step ].
  - revert self. change (grows (P := P) (can_send addr data bus tmo)).
    unfold can_send. repeat first [ apply grows_can_send_many | grows_step ].
  - revert self. change (grows (P := P) get_stats).
    unfold get_stats. repeat grows_step.
  - apply grows_disconnect.
Qed.

Lemma grows_run_all (cs : list call) (self : t P) :
  stats_le self (run_all utf8_decode cs self).
Proof.
  unfold run_all. revert self.
  induction cs as [|c cs IH]; intros self; cbn [fold_left].
  - apply stats_le_refl.
  - eapply stats_le_trans; [apply grows_run | apply IH].
Qed.

End Counters.

(** C8.  Whatever the serial port does, each call of the public interface
    (connect, disconnect, the control-transfer commands, can_send_many,
    can_send, can_recv, get_stats, close) leaves frames_sent,
    frames_received, bytes_sent, bytes_received and errors at least as large
    as they were, also when the call raises; so does every sequence of such
    calls on the same adapter object. *)
Theorem counters_never_decrease
  {P : Type} {SP : Serial P} (utf8_decode : bytes -> option string) :
  (forall (c : FT232RL_PandaAdapter.call) (self : FT232RL_PandaAdapter.t P),
      stats_le self (FT232RL_PandaAdapter.run utf8_decode c self)) /\
  (forall (cs : list FT232RL_PandaAdapter.call) (self : FT232RL_PandaAdapter.t P),
      stats_le self (FT232RL_PandaAdapter.run_all utf8_decode cs self)).
Proof.
  split.
  - apply grows_run.
  - apply grows_run_all.
Qed.

(** ** [_send_frame] *)

Section SendFrame.
Import FT232RL_PandaAdapter.
Context {P : Type} {SP : Serial P}.

(** What [_send_frame] does once the write and the flush have returned,
    whether the port accepted the whole frame or not. *)
Lemma send_frame_written
  (frame : FT232RL_Frame.t) (self : t P) (p p1 p2 : P) (data : bytes) (n : nat) :
  connected self = true ->
  serial self = Some p ->
  FT232RL_Frame.pack (FT232RL_Frame.set_sequence (sequence_tx self) frame) = Returns data ->
  ser_write data p = (Returns n, p1) ->
  ser_flush p1 = (Returns tt, p2) ->
  _send_frame frame self
  = (Returns (Z.of_nat n =? len data),
     set_bytes_sent (bytes_sent self + Z.of_nat n)
       (set_frames_sent (frames_sent self + 1)
          (set_sequence_tx (Z.land (sequence_tx self + 1) 0xFF)
             (set_serial (Some p2) self)))).
Proof.
  intros Hconn Hser Hpack Hwrite Hflush.
  unfold _send_frame, bind, get, try_except, lift, on_serial, modify, ret.
  rewrite Hconn, Hser. cbn [negb orb is_Some].
  rewrite Hpack, Hser, Hwrite.
  destruct self; cbn in *. rewrite Hflush. reflexivity.
Qed.

(** X5.  When the write raises, [_send_frame] returns false and the error
    counter is the only one that moves. *)
Lemma send_frame_write_raises
  (frame : FT232RL_Frame.t) (self : t P) (p p1 : P) (data : bytes) (e : exn) :
  connected self = true ->
  serial self = Some p ->
  FT232RL_Frame.pack (FT232RL_Frame.set_sequence (sequence_tx self) frame) = Returns data ->
  ser_write data p = (Raises e, p1) ->
  _send_frame frame self
  = (Returns false, set_errors (errors self + 1) (set_serial (Some p1) self)).
Proof.
  intros Hconn Hser Hpack Hwrite.
  unfold _send_frame, bind, get, try_except, lift, on_serial, modify, ret.
  rewrite Hconn, Hser. cbn [negb orb is_Some].
  rewrite Hpack, Hser, Hwrite. reflexivity.
Qed.

End SendFrame.

Lemma send_frame_write_raises_witness :
  FT232RL_PandaAdapter._send_frame (SP := Examples.api) Examples.empty_bulk_in
    (Examples.adapter_on Examples.faulty_port)
  = (Returns false,
     FT232RL_PandaAdapter.set_errors
       (FT232RL_PandaAdapter.errors (Examples.adapter_on Examples.faulty_port) + 1)
       (FT232RL_PandaAdapter.set_serial (Some Examples.faulty_port)
          (Examples.adapter_on Examples.faulty_port))).
Proof.
  apply (send_frame_write_raises (SP := Examples.api) Examples.empty_bulk_in
           (Examples.adapter_on Examples.faulty_port)
           Examples.faulty_port Examples.faulty_port
           [xaa; x01; x00; x00; x00; xab] SerialException).
  - reflexivity.
  - reflexivity.
  - reflexivity.
  - reflexivity.
Defined.

(** C7, as the code has it.  When the serial write accepts fewer bytes than
    the packed frame has and the flush returns, [_send_frame] returns false;
    it has by then advanced the sequence counter, added one to frames_sent
    and the number of bytes accepted to bytes_sent, and it leaves the error
    counter as it was. *)
Theorem send_frame_partial_write
  {P : Type} {SP : Serial P}
  (frame : FT232RL_Frame.t) (self : FT232RL_PandaAdapter.t P)
  (p p1 p2 : P) (data : bytes) (n : nat) :
  FT232RL_PandaAdapter.connected self = true ->
  FT232RL_PandaAdapter.serial self = Some p ->
  FT232RL_Frame.pack
    (FT232RL_Frame.set_sequence (FT232RL_PandaAdapter.sequence_tx self) frame)
  = Returns data ->
  ser_write data p = (Returns n, p1) ->
  ser_flush p1 = (Returns tt, p2) ->
  Z.of_nat n < len data ->
  exists self',
    FT232RL_PandaAdapter._send_frame frame self = (Returns false, self') /\
    FT232RL_PandaAdapter.sequence_tx self'
    = Z.land (FT232RL_PandaAdapter.sequence_tx self + 1) 0xFF /\
    FT232RL_PandaAdapter.frames_sent self' = FT232RL_PandaAdapter.frames_sent self + 1 /\
    FT232RL_PandaAdapter.bytes_sent self'
    = FT232RL_PandaAdapter.bytes_sent self + Z.of_nat n /\
    FT232RL_PandaAdapter.errors self' = FT232RL_PandaAdapter.errors self.
Proof.
  intros Hconn Hser Hpack Hwrite Hflush Hpartial.
  eexists. split.
  - rewrite (send_frame_written frame self p p1 p2 data n) by assumption.
    replace (Z.of_nat n =? len data) with false by (symmetry; apply Z.eqb_neq; lia).
    reflexivity.
  - destruct self; cbn. repeat split; reflexivity.
Qed.

(** An empty BULK_IN frame, six bytes on the wire, sent through a port that
    accepts three bytes a write. *)
Lemma send_frame_partial_write_witness :
  exists self',
    FT232RL_PandaAdapter._send_frame (SP := Examples.api) Examples.empty_bulk_in
      (Examples.adapter_on (ScriptedPort.quiet 3))
    = (Returns false, self') /\
    FT232RL_PandaAdapter.sequence_tx self'
    = Z.land (FT232RL_PandaAdapter.sequence_tx (Examples.adapter_on (ScriptedPort.quiet 3)) + 1)
        0xFF /\
    FT232RL_PandaAdapter.frames_sent self'
    = FT232RL_PandaAdapter.frames_sent (Examples.adapter_on (ScriptedPort.quiet 3)) + 1 /\
    FT232RL_PandaAdapter.bytes_sent self'
    = FT232RL_PandaAdapter.bytes_sent (Examples.adapter_on (ScriptedPort.quiet 3))
      + Z.of_nat 3 /\
    FT232RL_PandaAdapter.errors self'
    = FT232RL_PandaAdapter.errors (Examples.adapter_on (ScriptedPort.quiet 3)).
Proof.
  apply (send_frame_partial_write (SP := Examples.api) Examples.empty_bulk_in
           (Examples.adapter_on (ScriptedPort.quiet 3))
           (ScriptedPort.quiet 3)
           (ScriptedPort.mk [] [xaa; x01; x00] 3 false 1%Q true)
           (ScriptedPort.mk [] [xaa; x01; x00] 3 false 1%Q true)
           [xaa; x01; x00; x00; x00; xab] 3).
  - reflexivity.
  - reflexivity.
  - reflexivity.
  - reflexivity.
  - reflexivity.
  - vm_compute. reflexivity.
Defined.

(** The same send, against C7 as stated: the write is partial (three of six
    bytes), [_send_frame] returns false, and yet the error counter has not
    moved while frames_sent and bytes_sent have. *)
Lemma send_frame_partial_write_counterexample :
  ScriptedPort.write [xaa; x01; x00; x00; x00; xab] (ScriptedPort.quiet 3)
  = (Returns 3%nat, ScriptedPort.mk [] [xaa; x01; x00] 3 false 1%Q true) /\
  exists self',
    FT232RL_PandaAdapter._send_frame (SP := Examples.api) Examples.empty_bulk_in
      (Examples.adapter_on (ScriptedPort.quiet 3))
    = (Returns false, self') /\
    FT232RL_PandaAdapter.errors self' = 0 /\
    FT232RL_PandaAdapter.errors (Examples.adapter_on (ScriptedPort.quiet 3)) = 0 /\
    FT232RL_PandaAdapter.frames_sent self' = 1 /\
    FT232RL_PandaAdapter.frames_sent (Examples.adapter_on (ScriptedPort.quiet 3)) = 0 /\
    FT232RL_PandaAdapter.bytes_sent self' = 3 /\
    FT232RL_PandaAdapter.bytes_sent (Examples.adapter_on (ScriptedPort.quiet 3)) = 0.
Proof.
  split; [reflexivity|].
  eexists. split; [reflexivity|].
  repeat split; reflexivity.
Qed.

(** ** [can_send_many] *)

(** C10.  [can_send_many] on an empty list returns 0 and leaves the adapter
    object, the serial port in it included, exactly as it was: no frame is
    written, and the sequence counter, frames_sent, bytes_sent and errors
    keep their values. *)
Theorem can_send_many_empty
  {P : Type} {SP : Serial P} (timeout : Z) (self : FT232RL_PandaAdapter.t P) :
  FT232RL_PandaAdapter.can_send_many [] timeout self = (Returns 0, self).
Proof.
  unfold FT232RL_PandaAdapter.can_send_many, CANCodec.pack_messages.
  (* the loop body never runs and [packed_data] stays empty *)
  cbn [CANCodec.pack_loop].
  (* [if not packed_data: return 0] *)
  reflexivity.
Qed.

(** ** The control-transfer commands *)

Section Commands.
Import FT232RL_PandaAdapter.
Context {P : Type} {SP : Serial P}.

Lemma returns_ret {A : Type} (x : A) : always_returns (P := P) (ret x).
Proof. intros self. unfold ret. eauto. Qed.

Lemma returns_bind {A B : Type} (m : M P A) (k : A -> M P B) :
  always_returns m -> (forall x, always_returns (k x)) -> always_returns (bind m k).
Proof.
  intros Hm Hk self. unfold bind.
  destruct (Hm self) as (x & self' & ->). apply Hk.
Qed.

Lemma returns_try_except {A : Type} (body handler : M P A) :
  always_returns handler -> always_returns (try_except body handler).
Proof.
  intros Hh self. unfold try_except.
  destruct (body self) as [[x|e] self']; [eauto | apply Hh].
Qed.

Lemma returns_modify (f : t P -> t P) : always_returns (modify f).
Proof. intros self. unfold modify. eauto. Qed.

Lemma send_frame_returns (frame : FT232RL_Frame.t) : always_returns (_send_frame frame).
Proof.
  unfold _send_frame. apply returns_bind; [intros self; unfold get; eauto|].
  intros self. destruct (negb (connected self) || negb (is_Some (serial self))).
  - apply returns_ret.
  - apply returns_try_except.
    apply returns_bind; [apply returns_modify | intros _; apply returns_ret].
Qed.

Lemma receive_frame_returns (timeout : option Q) : always_returns (_receive_frame timeout).
Proof.
  unfold _receive_frame. apply returns_bind; [intros self; unfold get; eauto|].
  intros self. destruct (negb (connected self) || negb (is_Some (serial self))).
  - apply returns_ret.
  - apply returns_try_except.
    apply returns_bind; [apply returns_modify | intros _; apply returns_ret].
Qed.

(** [_control_transfer] without data returns whenever its four numbers fit
    their fields. *)
Lemma control_transfer_returns (request_type request value index : Z) :
  0 <= request_type <= 255 -> 0 <= request <= 255 ->
  0 <= value <= 65535 -> 0 <= index <= 65535 ->
  always_returns (_control_transfer request_type request value index []).
Proof.
  intros Hrt Hrq Hv Hi self.
  unfold _control_transfer, PyStruct.pack_BBHH, PyStruct.pack_H.
  rewrite !pack_B_ok by lia.
  replace ((0 <=? value) && (value <=? 65535)) with true
    by (symmetry; apply andb_true_iff; split; apply Z.leb_le; lia).
  replace ((0 <=? index) && (index <=? 65535)) with true
    by (symmetry; apply andb_true_iff; split; apply Z.leb_le; lia).
  cbn [obind].
  change ((0 <=? 0) && (0 <=? 65535)) with true. cbv iota.
  unfold bind at 1. unfold lift at 1. cbv beta iota.
  unfold bind at 1. unfold lift at 1. cbv beta iota.
  match goal with
  | |- context [FT232RL_Frame.__init__ ?a ?b ?c ?d] =>
      rewrite (FrameFacts.init_ok a b c d)
        by first [ unfold FT232RL_Frame.FRAME_CONTROL; lia
                 | unfold len; simpl List.length; lia ]
  end.
  unfold bind at 1. unfold lift at 1. cbv beta iota.
  unfold bind at 1.
  match goal with
  | |- context [_send_frame ?f self] =>
      destruct (send_frame_returns f self) as (sent & self1 & ->)
  end.
  destruct sent; cbn [negb]; [|unfold ret; eauto].
  unfold bind.
  destruct (receive_frame_returns (Some 5%Q) self1) as (resp & self2 & ->).
  destruct resp as [f|]; [|unfold ret; eauto].
  destruct (negb (FT232RL_Frame.frame_type f =? FT232RL_Frame.FRAME_CONTROL));
    unfold ret; eauto.
Qed.

(** [len(response) >= 0] holds of every byte string. *)
Lemma command_result (m : M P bytes) :
  always_returns m ->
  forall self, fst (bind m (fun response => ret (len response >=? 0)) self) = Returns true.
Proof.
  intros Hm self. unfold bind. destruct (Hm self) as (r & self' & ->).
  unfold ret. cbn [fst]. f_equal.
  pose proof (len_nonneg r). apply Z.geb_le. lia.
Qed.

(** X4.  The four commands return true from every state of the adapter and of
    the port: connected or not, answered or not. *)
Lemma commands_always_true (self : t P) :
  fst (reset self) = Returns true /\
  fst (send_heartbeat self) = Returns true /\
  (forall mode param, 0 <= mode <= 65535 -> 0 <= param <= 65535 ->
                      fst (set_safety_mode mode param self) = Returns true) /\
  (forall bus speed, 0 <= bus <= 65535 -> 0 <= speed <= 65535 ->
                     fst (set_can_speed_kbps bus speed self) = Returns true).
Proof.
  split; [|split; [|split]].
  - apply command_result. apply control_transfer_returns; vm_compute; split; discriminate.
  - apply command_result. apply control_transfer_returns; vm_compute; split; discriminate.
  - intros mode param Hm Hp. apply command_result.
    apply control_transfer_returns; try assumption; vm_compute; split; discriminate.
  - intros bus speed Hb Hs. apply command_result.
    apply control_transfer_returns; try assumption; vm_compute; split; discriminate.
Qed.

End Commands.

(** C4, on the code.  The adapter is connected to a port on which nothing
    arrives: the control transfer of [reset] gets no response frame and
    yields the empty byte string, no frame is counted as received, and
    [reset], [set_safety_mode], [set_can_speed_kbps] and [send_heartbeat]
    all return true, where C4 has them return false. *)
Theorem commands_true_without_response :
  fst (FT232RL_PandaAdapter._control_transfer (SP := Examples.api)
         0x40 FT232RL_Frame.CMD_RESET 0 0 []
         (Examples.adapter_on (ScriptedPort.quiet 4096)))
  = Returns [] /\
  FT232RL_PandaAdapter.frames_received
    (snd (FT232RL_PandaAdapter.reset (SP := Examples.api)
            (Examples.adapter_on (ScriptedPort.quiet 4096))))
  = 0 /\
  fst (FT232RL_PandaAdapter.reset (SP := Examples.api)
         (Examples.adapter_on (ScriptedPort.quiet 4096)))
  = Returns true /\
  fst (FT232RL_PandaAdapter.set_safety_mode (SP := Examples.api) 1 0
         (Examples.adapter_on (ScriptedPort.quiet 4096)))
  = Returns true /\
  fst (FT232RL_PandaAdapter.set_can_speed_kbps (SP := Examples.api) 0 500
         (Examples.adapter_on (ScriptedPort.quiet 4096)))
  = Returns true /\
  fst (FT232RL_PandaAdapter.send_heartbeat (SP := Examples.api)
         (Examples.adapter_on (ScriptedPort.quiet 4096)))
  = Returns true.
Proof.
  repeat split; vm_compute; reflexivity.
Qed.

(** ** The CAN bulk payload *)

(** C5, on the code.  The batch of ten 15-byte FD messages, one 14-byte one
    and one more 15-byte one is packed whole: the loop lets the twelfth
    message in at 230 bytes, since 230 + 20 is not above 250, and its 21
    bytes bring the payload to 251 bytes, one more than the frame
    capacity. *)
Theorem pack_messages_overflow :
  exists packed_data,
    CANCodec.pack_messages Examples.overflow_batch = Returns (packed_data, 12) /\
    len packed_data = 251 /\
    len (firstn 230 packed_data) + 20 = 250.
Proof.
  eexists. split; [vm_compute; reflexivity|].
  split; reflexivity.
Qed.

(** C1, on the code.  The message (0x123, 01 02 03 04, bus 0), whose payload
    length, bus and extended flag are among those of C1, is packed as header,
    address, data, checksum; the parsing loop reads the address shifted
    right by 18 bits and the data one byte further on, so what comes back is
    one message with address 0 and data 02 03 04 66. *)
Theorem can_roundtrip_0x123 :
  CANCodec.pack_messages [Examples.msg_0x123]
  = Returns ([x40; x23; x01; x00; x00; x01; x02; x03; x04; x66], 1) /\
  CANCodec.parse_messages [x40; x23; x01; x00; x00; x01; x02; x03; x04; x66]
  = Returns [CANMessage.mk 0 [x02; x03; x04; x66] 0 false false].
Proof.
  split; vm_compute; reflexivity.
Qed.

(** C2, on the code.  The five test messages are all packed (count 5, 52
    bytes) and the parsing loop finds five messages in the payload, with the
    buses, flags and data lengths of the originals in the same order; but
    the four standard addresses come back as 0 and every data field is the
    original one moved by a byte, ending in the record's checksum. *)
Theorem test_batch_packed_and_parsed :
  exists packed_data,
    CANCodec.pack_messages Examples.test_messages = Returns (packed_data, 5) /\
    len packed_data = 52 /\
    CANCodec.parse_messages packed_data
    = Returns
        [ CANMessage.mk 0 [x02; x03; x04; x66] 0 false false;
          CANMessage.mk 0 [x06; x07; x08; x1c] 1 false false;
          CANMessage.mk 0 [x0a; x0b; x0c; xce] 2 false false;
          CANMessage.mk 0 [xbb; xcc; xdd; xee; xff; x89] 0 false false;
          CANMessage.mk 0x1FFFFFFF [x22; x33; x44; xa6] 1 true false ].
Proof.
  eexists. split; [vm_compute; reflexivity|].
  split; vm_compute; reflexivity.
Qed.

(** *** What the packing loop does guarantee *)

(** The number of bytes one message takes in the payload. *)
Lemma pack_message_len (msg : CANMessage.t) (enc : bytes) :
  CANCodec.pack_message msg = Returns enc ->
  len enc = 6 + (if len (CANMessage.data msg) >? 8
                 then Z.min 15 (len (CANMessage.data msg))
                 else len (CANMessage.data msg)).
Proof.
  unfold CANCodec.pack_message, PyStruct.pack_I.
  destruct ((0 <=? _) && (_ <=? 4294967295)); cbn [obind]; [|discriminate].
  destruct (PyStruct.pack_B _) as [h|]; cbn [obind]; [|discriminate].
  rewrite pack_B_ok by apply xor_bytes_range. cbn [obind].
  intros H. apply Returns_inj in H. subst enc.
  pose proof (len_nonneg (CANMessage.data msg)) as Hl.
  rewrite !len_app, !len_cons, !slice_from_0.
  unfold len in *. rewrite !length_firstn. cbn [List.length].
  destruct (Z.gtb_spec (Z.of_nat (List.length (CANMessage.data msg))) 8); lia.
Qed.

Lemma pack_message_len_bounds (msg : CANMessage.t) (enc : bytes) :
  CANCodec.pack_message msg = Returns enc ->
  6 <= len enc <= 21 /\ (len (CANMessage.data msg) <= 8 -> len enc <= 14).
Proof.
  intros H. apply pack_message_len in H.
  pose proof (len_nonneg (CANMessage.data msg)) as Hl.
  destruct (Z.gtb_spec (len (CANMessage.data msg)) 8); lia.
Qed.

Lemma pack_loop_spec (can_messages : list CANMessage.t) :
  forall (packed_data : bytes) (count : Z) (out : bytes) (n : Z),
    CANCodec.pack_loop can_messages packed_data count = Returns (out, n) ->
    exists (k : nat) (added : bytes),
      (k <= List.length can_messages)%nat /\
      n = count + Z.of_nat k /\
      out = packed_data ++ added /\
      packed_from (firstn k can_messages) added /\
      (len packed_data <= 251 -> len out <= 251) /\
      (len packed_data <= 250 ->
       Forall (fun m => len (CANMessage.data m) <= 8) can_messages ->
       len out <= 250).
Proof.
  induction can_messages as [|msg rest IH]; intros packed_data count out n H.
  - cbn [CANCodec.pack_loop] in H. injection H as <- <-.
    exists 0%nat, []. rewrite app_nil_r.
    repeat split; try constructor; try lia; auto.
  - cbn [CANCodec.pack_loop] in H.
    destruct (Z.gtb_spec (len packed_data + 20) 250) as [Hfull|Hroom].
    + injection H as <- <-.
      exists 0%nat, []. rewrite app_nil_r.
      repeat split; try constructor; try lia; auto.
    + destruct (CANCodec.pack_message msg) as [enc|e] eqn:Henc; cbn [obind] in H;
        [|discriminate].
      destruct (pack_message_len_bounds msg enc Henc) as [Hb Hclassic].
      apply IH in H. destruct H as (k & added & Hk & -> & -> & Hfrom & Hany & Hcl).
      exists (S k), (enc ++ added).
      rewrite len_app in Hany, Hcl.
      split; [cbn [List.length]; lia|].
      split; [lia|].
      split; [rewrite app_assoc; reflexivity|].
      split; [cbn [firstn]; constructor; assumption|].
      split; [intros _; apply Hany; lia|].
      intros _ Hall. apply Forall_cons_iff in Hall. destruct Hall as [Hm Hall].
      apply Hcl; [specialize (Hclassic Hm); lia | exact Hall].
Qed.

(** X1.  What [pack_messages] guarantees of its payload and count: the payload
    is the concatenation of the encodings of the first [count] messages, it
    has at most 251 bytes, and at most 250 when no message carries more than
    8 data bytes. *)
Lemma pack_messages_spec (can_messages : list CANMessage.t) (packed_data : bytes) (count : Z) :
  CANCodec.pack_messages can_messages = Returns (packed_data, count) ->
  len packed_data <= 251 /\
  (Forall (fun m => len (CANMessage.data m) <= 8) can_messages -> len packed_data <= 250) /\
  exists k : nat,
    count = Z.of_nat k /\ (k <= List.length can_messages)%nat /\
    packed_from (firstn k can_messages) packed_data.
Proof.
  unfold CANCodec.pack_messages. intros H.
  apply pack_loop_spec in H.
  destruct H as (k & added & Hk & -> & -> & Hfrom & Hany & Hcl).
  cbn [app] in *. change (len (@nil byte)) with 0 in *.
  split; [apply Hany; lia|].
  split; [apply Hcl; lia|].
  exists k. repeat split; assumption.
Qed.

Lemma pack_messages_spec_witness :
  len [x40; x23; x01; x00; x00; x01; x02; x03; x04; x66] <= 251 /\
  (Forall (fun m => len (CANMessage.data m) <= 8) [Examples.msg_0x123] ->
   len [x40; x23; x01; x00; x00; x01; x02; x03; x04; x66] <= 250) /\
  exists k : nat,
    1 = Z.of_nat k /\ (k <= List.length [Examples.msg_0x123])%nat /\
    packed_from (firstn k [Examples.msg_0x123])
      [x40; x23; x01; x00; x00; x01; x02; x03; x04; x66].
Proof.
  apply (pack_messages_spec [Examples.msg_0x123]
           [x40; x23; x01; x00; x00; x01; x02; x03; x04; x66] 1).
  vm_compute. reflexivity.
Defined.

(** *** What the two loops agree on *)

Lemma unpack_pack_I (v : Z) (bs : bytes) :
  PyStruct.pack_I v = Returns bs -> PyStruct.unpack_I bs = Returns v.
Proof.
  unfold PyStruct.pack_I.
  destruct ((0 <=? v) && (v <=? 4294967295)) eqn:Hr; [|discriminate].
  apply andb_true_iff in Hr. destruct Hr as [H0 H1].
  apply Z.leb_le in H0. apply Z.leb_le in H1.
  intros H. apply Returns_inj in H. subst bs. cbn [PyStruct.unpack_I].
  change 255 with (Z.ones 8).
  rewrite !byte_val_of_Z_small
    by (pose proof (land_ones_range v 8 ltac:(lia));
        pose proof (land_ones_range (Z.shiftr v 8) 8 ltac:(lia));
        pose proof (land_ones_range (Z.shiftr v 16) 8 ltac:(lia));
        pose proof (land_ones_range (Z.shiftr v 24) 8 ltac:(lia));
        change (2 ^ 8) with 256 in *; lia).
  rewrite !Z.land_ones, !Z.shiftr_div_pow2, !Z.shiftl_mul_pow2 by lia.
  change (2 ^ 8) with 256. change (2 ^ 16) with 65536. change (2 ^ 24) with 16777216.
  f_equal. Z.div_mod_to_equations. lia.
Qed.

Lemma land_pow2_small (a n : Z) : 0 <= n -> 0 <= a < 2 ^ n -> Z.land a (2 ^ n) = 0.
Proof.
  intros Hn Ha. apply Z.bits_inj'. intros m Hm.
  rewrite Z.land_spec, Z.bits_0, Z.pow2_bits_eqb by exact Hn.
  destruct (Z.eqb_spec n m) as [<-|_]; [|apply andb_false_r].
  rewrite andb_true_r. apply Z.testbit_false; [exact Hn|].
  rewrite Z.div_small by exact Ha. reflexivity.
Qed.

(** The address word of the encoder, read back by the decoder. *)
Lemma tagged_address (a : Z) (ext : bool) :
  0 <= a < 2 ^ 30 ->
  let v := Z.lor a (if ext then Z.shiftl 1 30 else 0) in
  0 <= v <= 4294967295 /\
  negb (Z.land v (Z.shiftl 1 30) =? 0) = ext /\
  Z.land v 0x1FFFFFFF = Z.land a 0x1FFFFFFF /\
  (ext = false -> v = a).
Proof.
  intros Ha. change (Z.shiftl 1 30) with (2 ^ 30).
  pose proof (land_pow2_small a 30 ltac:(lia) Ha) as Hland.
  destruct ext; cbv zeta.
  - assert (Hv : Z.lor a (2 ^ 30) = a + 2 ^ 30).
    { pose proof (Z.add_lor_land a (2 ^ 30)) as H. rewrite Hland in H. lia. }
    split; [rewrite Hv; change (2 ^ 30) with 1073741824 in *; lia|].
    split.
    + rewrite Z.land_lor_distr_l, Hland, Z.lor_0_l, Z.land_diag. reflexivity.
    + split; [|discriminate].
      rewrite Z.land_lor_distr_l.
      change (Z.land (2 ^ 30) 536870911) with 0. apply Z.lor_0_r.
  - rewrite Z.lor_0_r.
    split; [change (2 ^ 30) with 1073741824 in *; lia|].
    split; [rewrite Hland; reflexivity|].
    split; reflexivity.
Qed.

(** The header byte of the encoder, read back by the decoder. *)
Lemma header_fields (dlc bus : Z) (fd : bool) :
  0 <= dlc <= 8 -> 0 <= bus <= 7 ->
  let header0 := Z.lor (Z.lor (Z.shiftl dlc 4) (Z.shiftl bus 1)) (if fd then 1 else 0) in
  0 <= header0 <= 255 /\
  Z.land (Z.shiftr header0 4) 0xF = dlc /\
  Z.land (Z.shiftr header0 1) 0x7 = bus /\
  negb (Z.land header0 0x1 =? 0) = fd /\
  index CANCodec.dlc_to_len dlc = Some dlc.
Proof.
  intros Hd Hb.
  assert (Cd : dlc = 0 \/ dlc = 1 \/ dlc = 2 \/ dlc = 3 \/ dlc = 4 \/ dlc = 5
               \/ dlc = 6 \/ dlc = 7 \/ dlc = 8) by lia.
  assert (Cb : bus = 0 \/ bus = 1 \/ bus = 2 \/ bus = 3 \/ bus = 4 \/ bus = 5
               \/ bus = 6 \/ bus = 7) by lia.
  clear Hd Hb.
  repeat (destruct Cd as [->|Cd]); try subst dlc;
    repeat (destruct Cb as [->|Cb]); try subst bus;
    destruct fd; vm_compute; repeat split; congruence.
Qed.

Lemma gtb_false (a b : Z) : a <= b -> (a >? b) = false.
Proof. intros H. destruct (Z.gtb_spec a b); [lia | reflexivity]. Qed.

Lemma geb_false (a b : Z) : a < b -> (a >=? b) = false.
Proof. intros H. destruct (Z.geb_spec a b); [lia | reflexivity]. Qed.



(** ** More of [unpack] *)

(** [unpack] on the packed bytes of a frame, followed by anything. *)
Lemma unpack_wire_app (ft seq fl : Z) (pl extra : bytes) :
  0 <= ft <= 255 -> 0 <= seq <= 255 -> 0 <= fl <= 255 -> len pl <= 255 ->
  FT232RL_Frame.unpack
    (byte_of_Z 0xAA :: byte_of_Z ft :: byte_of_Z seq :: byte_of_Z (len pl)
     :: byte_of_Z fl
     :: byte_of_Z (xor_bytes 0 (map byte_of_Z [0xAA; ft; seq; len pl; fl] ++ pl))
     :: pl ++ extra)
  = obind (FT232RL_Frame.__init__ ft seq pl fl) (fun frame => Returns (Some frame)).
Proof.
  intros Hft Hseq Hfl Hpl.
  pose proof (len_nonneg pl) as Hl. pose proof (len_nonneg extra) as He.
  rewrite FrameFacts.unpack_cons6.
  rewrite !byte_val_of_Z_small by (try apply xor_bytes_range; lia).
  rewrite Z.eqb_refl. cbn [negb].
  replace (len (pl ++ extra) <? len pl) with false
    by (symmetry; apply Z.ltb_ge; rewrite len_app; lia).
  replace (firstn (Z.to_nat (len pl)) (pl ++ extra)) with pl.
  2:{ unfold len. rewrite Nat2Z.id, firstn_app, Nat.sub_diag, firstn_all.
      cbn [firstn]. rewrite app_nil_r. reflexivity. }
  cbn [map]. rewrite Z.eqb_refl. cbn [negb]. reflexivity.
Qed.

(** X6.  Bytes that follow a packed frame in the buffer are ignored: for a
    frame with header fields that are bytes and a payload of at most 255
    bytes, [unpack] of the packed bytes followed by any other bytes returns
    the frame. *)
Theorem unpack_ignores_trailing (ft seq fl : Z) (pl : bytes) (f : FT232RL_Frame.t)
  (wire extra : bytes) :
  0 <= ft <= 255 -> 0 <= seq <= 255 -> 0 <= fl <= 255 -> len pl <= 255 ->
  FT232RL_Frame.__init__ ft seq pl fl = Returns f ->
  FT232RL_Frame.pack f = Returns wire ->
  FT232RL_Frame.unpack (wire ++ extra) = Returns (Some f).
Proof.
  intros Hft Hseq Hfl Hpl Hinit Hpack.
  pose proof (len_nonneg pl) as Hl.
  pose proof Hinit as Hf. rewrite FrameFacts.init_ok in Hf by lia.
  apply Returns_inj in Hf. subst f.
  rewrite FrameFacts.pack_ok in Hpack.
  2:{ unfold header_in_range.
      cbn [FT232RL_Frame.sync FT232RL_Frame.frame_type FT232RL_Frame.sequence
           FT232RL_Frame.length FT232RL_Frame.flags].
      repeat apply Forall_cons; try apply Forall_nil; lia. }
  apply Returns_inj in Hpack. subst wire.
  cbn [FT232RL_Frame.sync FT232RL_Frame.frame_type FT232RL_Frame.sequence
       FT232RL_Frame.length FT232RL_Frame.flags FT232RL_Frame.payload app].
  unfold derived_checksum.
  cbn [FT232RL_Frame.sync FT232RL_Frame.frame_type FT232RL_Frame.sequence
       FT232RL_Frame.length FT232RL_Frame.flags FT232RL_Frame.payload].
  rewrite unpack_wire_app by lia.
  rewrite FrameFacts.init_ok by lia. reflexivity.
Qed.

Lemma unpack_ignores_trailing_witness :
  FT232RL_Frame.unpack ([xaa; x00; x00; x01; x00; xaa; x01] ++ [xff; xff])
  = Returns (Some (FT232RL_Frame.mk 170 0 0 1 0 [x01] 170)).
Proof.
  apply (unpack_ignores_trailing 0 0 0 [x01]); try lia; try reflexivity.
  vm_compute. discriminate.
Defined.

(** X7.  No truncated frame is accepted: [unpack] returns [None] for every
    proper prefix of the packed bytes of a frame. *)
Theorem unpack_rejects_truncated (ft seq fl : Z) (pl : bytes) (f : FT232RL_Frame.t)
  (wire : bytes) (n : nat) :
  0 <= ft <= 255 -> 0 <= seq <= 255 -> 0 <= fl <= 255 -> len pl <= 255 ->
  FT232RL_Frame.__init__ ft seq pl fl = Returns f ->
  FT232RL_Frame.pack f = Returns wire ->
  (n < List.length wire)%nat ->
  FT232RL_Frame.unpack (firstn n wire) = Returns None.
Proof.
  intros Hft Hseq Hfl Hpl Hinit Hpack Hn.
  pose proof (len_nonneg pl) as Hl.
  rewrite FrameFacts.init_ok in Hinit by lia.
  apply Returns_inj in Hinit. subst f.
  rewrite FrameFacts.pack_ok in Hpack.
  2:{ unfold header_in_range.
      cbn [FT232RL_Frame.sync FT232RL_Frame.frame_type FT232RL_Frame.sequence
           FT232RL_Frame.length FT232RL_Frame.flags].
      repeat apply Forall_cons; try apply Forall_nil; lia. }
  apply Returns_inj in Hpack. subst wire.
  cbn [FT232RL_Frame.sync FT232RL_Frame.frame_type FT232RL_Frame.sequence
       FT232RL_Frame.length FT232RL_Frame.flags FT232RL_Frame.payload] in *.
  cbn [List.length] in Hn.
  destruct n as [|[|[|[|[|[|m]]]]]]; try reflexivity.
  cbn [firstn]. rewrite FrameFacts.unpack_cons6.
  rewrite !byte_val_of_Z_small by (try apply xor_bytes_range; lia).
  rewrite Z.eqb_refl. cbn [negb].
  replace (len (firstn m pl) <? len pl) with true; [reflexivity|].
  symmetry. apply Z.ltb_lt. unfold len. rewrite length_firstn. lia.
Qed.

Lemma unpack_rejects_truncated_witness :
  FT232RL_Frame.unpack (firstn 6 [xaa; x00; x00; x01; x00; xaa; x01]) = Returns None.
Proof.
  apply (unpack_rejects_truncated 0 0 0 [x01] (FT232RL_Frame.mk 170 0 0 1 0 [x01] 170));
    try lia; try reflexivity.
  - vm_compute. discriminate.
  - simpl. lia.
Defined.

(** X8.  What [unpack] returns was on the wire: when [unpack] returns a frame,
    the buffer starts with the packed bytes of that frame, the frame has
    sync 0xAA, its length is the length of its payload, at most 255, and its
    checksum is the XOR of its header and payload. *)
Theorem unpack_sound (data : bytes) (f : FT232RL_Frame.t) :
  FT232RL_Frame.unpack data = Returns (Some f) ->
  exists wire rest,
    FT232RL_Frame.pack f = Returns wire /\
    data = wire ++ rest /\
    FT232RL_Frame.sync f = 0xAA /\
    FT232RL_Frame.length f = len (FT232RL_Frame.payload f) /\
    len (FT232RL_Frame.payload f) <= 255 /\
    FT232RL_Frame.checksum f = derived_checksum f.
Proof.
  intros H.
  destruct data as [|b0 [|b1 [|b2 [|b3 [|b4 [|b5 rest]]]]]]; try discriminate H.
  rewrite FrameFacts.unpack_cons6 in H.
  destruct (Z.eqb_spec (byte_val b0) 170) as [E0|_]; cbn [negb] in H; [|discriminate H].
  destruct (Z.ltb_spec (len rest) (byte_val b3)) as [_|Hlen]; [discriminate H|].
  cbv zeta in H.
  set (pl := firstn (Z.to_nat (byte_val b3)) rest) in *.
  destruct (Z.eqb_spec (xor_bytes 0 ([b0; b1; b2; b3; b4] ++ pl)) (byte_val b5))
    as [Eck|_]; cbn [negb] in H; [|discriminate H].
  pose proof (byte_val_range b1) as R1. pose proof (byte_val_range b2) as R2.
  pose proof (byte_val_range b3) as R3. pose proof (byte_val_range b4) as R4.
  assert (Hpl : len pl = byte_val b3).
  { unfold pl, len in *. rewrite length_firstn. lia. }
  rewrite FrameFacts.init_ok in H by lia. cbn [obind] in H.
  apply Returns_inj in H. injection H as <-.
  set (f0 := FT232RL_Frame.mk 170 (byte_val b1) (byte_val b2) (len pl) (byte_val b4) pl _).
  assert (Hd : derived_checksum f0 = byte_val b5).
  { rewrite <- Eck. unfold derived_checksum, f0.
    cbn [FT232RL_Frame.sync FT232RL_Frame.frame_type FT232RL_Frame.sequence
         FT232RL_Frame.length FT232RL_Frame.flags FT232RL_Frame.payload map].
    rewrite Hpl, <- E0, !byte_of_Z_val. reflexivity. }
  exists (b0 :: b1 :: b2 :: b3 :: b4 :: b5 :: pl), (skipn (Z.to_nat (byte_val b3)) rest).
  split.
  { rewrite FrameFacts.pack_ok.
    - rewrite Hd. unfold f0.
      cbn [FT232RL_Frame.sync FT232RL_Frame.frame_type FT232RL_Frame.sequence
           FT232RL_Frame.length FT232RL_Frame.flags FT232RL_Frame.payload].
      rewrite Hpl, <- E0, !byte_of_Z_val. reflexivity.
    - unfold header_in_range, f0.
      cbn [FT232RL_Frame.sync FT232RL_Frame.frame_type FT232RL_Frame.sequence
           FT232RL_Frame.length FT232RL_Frame.flags].
      repeat apply Forall_cons; try apply Forall_nil; lia. }
  split; [cbn [app]; unfold pl; rewrite firstn_skipn; reflexivity|].
  unfold f0.
  cbn [FT232RL_Frame.sync FT232RL_Frame.frame_type FT232RL_Frame.sequence
       FT232RL_Frame.length FT232RL_Frame.flags FT232RL_Frame.payload
       FT232RL_Frame.checksum].
  split; [reflexivity|]. split; [reflexivity|]. split; [lia|].
  reflexivity.
Qed.

Lemma unpack_sound_witness :
  exists wire rest,
    FT232RL_Frame.pack (FT232RL_Frame.mk 170 0 0 1 0 [x01] 170) = Returns wire /\
    [xaa; x00; x00; x01; x00; xaa; x01; xff] = wire ++ rest /\
    FT232RL_Frame.sync (FT232RL_Frame.mk 170 0 0 1 0 [x01] 170) = 0xAA /\
    FT232RL_Frame.length (FT232RL_Frame.mk 170 0 0 1 0 [x01] 170)
    = len (FT232RL_Frame.payload (FT232RL_Frame.mk 170 0 0 1 0 [x01] 170)) /\
    len (FT232RL_Frame.payload (FT232RL_Frame.mk 170 0 0 1 0 [x01] 170)) <= 255 /\
    FT232RL_Frame.checksum (FT232RL_Frame.mk 170 0 0 1 0 [x01] 170)
    = derived_checksum (FT232RL_Frame.mk 170 0 0 1 0 [x01] 170).
Proof.
  apply (unpack_sound [xaa; x00; x00; x01; x00; xaa; x01; xff]).
  reflexivity.
Defined.

(** ** [_receive_frame] *)

Section ReceiveFrame.
Import FT232RL_PandaAdapter.
Context {P : Type} {SP : Serial P}.

(** The header read is short, or does not start with 0xAA. *)
Lemma receive_frame_no_header
  (timeout : option Q) (self : t P) (p p1 p2 : P) (header : bytes) :
  connected self = true ->
  serial self = Some p ->
  ser_set_timeout (receive_timeout timeout self) p = (Returns tt, p1) ->
  ser_read 6 p1 = (Returns header, p2) ->
  len header < 6 \/
  (exists b0 b1 b2 b3 b4 b5, header = [b0; b1; b2; b3; b4; b5] /\ byte_val b0 <> 0xAA) ->
  _receive_frame timeout self = (Returns None, set_serial (Some p2) self).
Proof.
  intros Hconn Hser Hset Hread Hhdr.
  unfold _receive_frame, bind, get, try_except, lift, on_serial, modify, ret.
  rewrite Hconn, Hser. cbn [negb orb is_Some].
  fold (receive_timeout timeout self).
  destruct self; cbn [serial set_serial] in *. subst.
  cbn [serial set_serial]. rewrite Hset. cbn [serial set_serial].
  rewrite Hread. cbn [serial set_serial].
  destruct Hhdr as [Hshort | (b0 & b1 & b2 & b3 & b4 & b5 & -> & Hsync)].
  - replace (len header <? 6) with true by (symmetry; apply Z.ltb_lt; lia).
    reflexivity.
  - change (len [b0; b1; b2; b3; b4; b5] <? 6) with false.
    cbn [PyStruct.unpack_BBBBBB].
    destruct (Z.eqb_spec (byte_val b0) 170) as [E|_]; [contradiction|].
    reflexivity.
Qed.

(** A header with sync 0xAA and a payload of the announced length or more
    were read: the result is the one of [unpack]. *)
Lemma receive_frame_read
  (timeout : option Q) (self : t P) (p p1 p2 p3 p4 : P)
  (b1 b2 b3 b4 b5 : byte) (payload : bytes) :
  connected self = true ->
  serial self = Some p ->
  ser_set_timeout (receive_timeout timeout self) p = (Returns tt, p1) ->
  ser_read 6 p1 = (Returns [xaa; b1; b2; b3; b4; b5], p2) ->
  (if byte_val b3 >? 0 then ser_read (byte_val b3) p2 else (Returns [], p2))
  = (Returns payload, p3) ->
  byte_val b3 <= len payload ->
  ser_set_timeout (ser_timeout p) p3 = (Returns tt, p4) ->
  _receive_frame timeout self
  = match FT232RL_Frame.unpack ([xaa; b1; b2; b3; b4; b5] ++ payload) with
    | Returns (Some f) =>
        (Returns (Some f),
         set_bytes_received (bytes_received self + (6 + len payload))
           (set_frames_received (frames_received self + 1) (set_serial (Some p4) self)))
    | Returns None =>
        (Returns None, set_errors (errors self + 1) (set_serial (Some p4) self))
    | Raises _ =>
        (Returns None, set_errors (errors self + 1) (set_serial (Some p3) self))
    end.
Proof.
  intros Hconn Hser Hset Hread Hpay Hlen Hrestore.
  unfold _receive_frame, bind, get, try_except, lift, on_serial, modify, ret.
  rewrite Hconn, Hser. cbn [negb orb is_Some].
  fold (receive_timeout timeout self).
  destruct self; cbn [serial set_serial] in *. subst.
  cbn [serial set_serial]. rewrite Hset. cbn [serial set_serial].
  rewrite Hread. cbn [serial set_serial].
  change (len [xaa; b1; b2; b3; b4; b5] <? 6) with false.
  cbn [PyStruct.unpack_BBBBBB].
  change (byte_val xaa =? 170) with true. cbn [negb].
  assert (Hlp : len ([xaa; b1; b2; b3; b4; b5] ++ payload) = 6 + len payload).
  { rewrite len_app. reflexivity. }
  destruct (Z.gtb_spec (byte_val b3) 0) as [Hpos|Hzero].
  - cbv beta iota. cbn [serial set_serial]. rewrite Hpay. cbn [serial set_serial andb].
    replace (len payload <? byte_val b3) with false by (symmetry; apply Z.ltb_ge; lia).
    destruct (FT232RL_Frame.unpack ([xaa; b1; b2; b3; b4; b5] ++ payload)) as [[f|]|e];
      cbn [serial set_serial frames_received bytes_received errors
           set_frames_received set_bytes_received set_errors];
      try rewrite Hrestore; try rewrite Hlp; reflexivity.
  - injection Hpay as <- <-. cbv beta iota. cbn [andb serial set_serial].
    destruct (FT232RL_Frame.unpack ([xaa; b1; b2; b3; b4; b5] ++ [])) as [[f|]|e];
      cbn [serial set_serial frames_received bytes_received errors
           set_frames_received set_bytes_received set_errors];
      try rewrite Hrestore; try rewrite Hlp; reflexivity.
Qed.

End ReceiveFrame.

(** ** What a session keeps true *)

Section Session.
Import FT232RL_PandaAdapter.
Context {P : Type} {SP : Serial P}.
Variable utf8_decode : bytes -> option string.

Lemma sequence_step (s n : Z) : s = n mod 256 -> Z.land (s + 1) 255 = (n + 1) mod 256.
Proof.
  intros ->. change 255 with (Z.ones 8). rewrite Z.land_ones by lia.
  change (2 ^ 8) with 256. apply Z.add_mod_idemp_l. lia.
Qed.

Lemma keeps_ret {A : Type} (x : A) : keeps_session (P := P) (ret x).
Proof. intros self H. exact H. Qed.

Lemma keeps_lift {A : Type} (o : outcome A) : keeps_session (P := P) (lift o).
Proof. intros self H. exact H. Qed.

Lemma keeps_get : keeps_session (P := P) get.
Proof. intros self H. exact H. Qed.

Lemma keeps_bind {A B : Type} (m : M P A) (k : A -> M P B) :
  keeps_session m -> (forall x, keeps_session (k x)) -> keeps_session (bind m k).
Proof.
  intros Hm Hk self H. unfold bind.
  specialize (Hm self H). destruct (m self) as [[x|e] self']; cbn [snd] in *.
  - apply Hk. exact Hm.
  - exact Hm.
Qed.

Lemma keeps_send_frame (frame : FT232RL_Frame.t) : keeps_session (_send_frame frame).
Proof.
  intros self H.
  unfold _send_frame, bind, get, try_except, lift, on_serial, modify, ret.
  destruct (connected self) eqn:Hc; cbn [negb orb]; [|exact H].
  destruct (serial self) as [p|] eqn:Hs; cbn [is_Some negb]; [|exact H].
  destruct (FT232RL_Frame.pack _) as [data|e].
  - rewrite Hs. destruct (ser_write data p) as [[n|e] p1].
    + destruct self; cbn [serial set_serial] in *.
      destruct (ser_flush p1) as [[[]|e] p2];
        unfold session_ok in *; cbn in *;
        destruct H as (Hseq & Hser & Hrx & H1 & H2 & H3 & H4);
        repeat split; try lia; try discriminate.
      apply sequence_step. exact Hseq.
    + destruct self; unfold session_ok in *; cbn in *.
      destruct H as (Hseq & Hser & Hrx & H1 & H2 & H3 & H4).
      repeat split; try lia; try discriminate.
  - destruct self; unfold session_ok in *; cbn in *.
    destruct H as (Hseq & Hser & Hrx & H1 & H2 & H3 & H4).
    repeat split; try lia; try assumption.
Qed.

Ltac session_leaf :=
  match goal with
  | H : session_ok _ |- _ =>
      solve [ unfold session_ok in H |- *;
              cbn [snd sequence_tx frames_sent connected serial frames_received
                   bytes_received bytes_sent errors set_serial set_connected
                   set_sequence_tx set_frames_sent set_frames_received set_bytes_sent
                   set_bytes_received set_errors] in H |- *;
              destruct H as (? & ? & ? & ? & ? & ? & ?);
              repeat split; try lia; try discriminate; try assumption ]
  end.

Lemma keeps_receive_frame (timeout : option Q) : keeps_session (_receive_frame timeout).
Proof.
  intros self H.
  unfold _receive_frame, bind, get, try_except, lift, on_serial, modify, ret.
  destruct (connected self) eqn:Hc; cbn [negb orb]; [|exact H].
  destruct (serial self) as [p|] eqn:Hs; cbn [is_Some negb]; [|exact H].
  rewrite Hs. destruct self; cbn [serial set_serial] in *.
  destruct (ser_set_timeout _ p) as [[[]|e] p1]; cbn [serial set_serial];
    [|session_leaf].
  destruct (ser_read 6 p1) as [[header|e] p2]; cbn [serial set_serial];
    [|session_leaf].
  destruct (Z.ltb_spec (len header) 6) as [_|Hlen]; [session_leaf|].
  destruct header as [|b0 [|b1 [|b2 [|b3 [|b4 [|b5 [|b6 more]]]]]]];
    cbn [PyStruct.unpack_BBBBBB]; try (session_leaf).
  destruct (negb (byte_val b0 =? 170)); [session_leaf|].
  assert (Hfd : forall payload : bytes, 6 <= len ([b0; b1; b2; b3; b4; b5] ++ payload)).
  { intros payload. rewrite len_app. pose proof (len_nonneg payload).
    change (len [b0; b1; b2; b3; b4; b5]) with 6. lia. }
  destruct (byte_val b3 >? 0); cbv beta iota; cbn [serial set_serial andb].
  - destruct (ser_read (byte_val b3) p2) as [[payload|e] p3]; cbn [serial set_serial];
      [|session_leaf].
    destruct (len payload <? byte_val b3); [session_leaf|].
    specialize (Hfd payload).
    set (n := len ([b0; b1; b2; b3; b4; b5] ++ payload)) in *. clearbody n.
    destruct (FT232RL_Frame.unpack _) as [[f|]|e];
      cbn [serial set_serial set_frames_received set_bytes_received set_errors
           frames_received bytes_received errors];
      try (destruct (ser_set_timeout _ p3) as [[[]|e'] p4]);
      session_leaf.
  - specialize (Hfd []).
    set (n := len ([b0; b1; b2; b3; b4; b5] ++ [])) in *. clearbody n.
    destruct (FT232RL_Frame.unpack _) as [[f|]|e];
      cbn [serial set_serial set_frames_received set_bytes_received set_errors
           frames_received bytes_received errors];
      try (destruct (ser_set_timeout _ p2) as [[[]|e'] p4]);
      session_leaf.
Qed.

Ltac keeps_step :=
  first
    [ apply keeps_ret
    | apply keeps_get
    | apply keeps_lift
    | apply keeps_send_frame
    | apply keeps_receive_frame
    | apply keeps_bind; [|intros ?]
    | match goal with
      | |- keeps_session (if ?c then _ else _) => destruct c
      | |- keeps_session (match ?x with _ => _ end) => destruct x
      end ].

Lemma keeps_control_transfer (request_type request value index : Z) (data : bytes) :
  keeps_session (_control_transfer request_type request value index data).
Proof. unfold _control_transfer. repeat keeps_step. Qed.

Lemma keeps_reset : keeps_session reset.
Proof. unfold reset. repeat first [ apply keeps_control_transfer | keeps_step ]. Qed.

Lemma keeps_can_send_many (can_messages : list CANMessage.t) (tmo : Z) :
  keeps_session (can_send_many can_messages tmo).
Proof. unfold can_send_many. repeat keeps_step. Qed.

Lemma keeps_connect : keeps_session connect.
Proof.
  intros self H. unfold connect, bind, get, try_except, lift, modify.
  destruct (Serial_new _ _ _) as [s|e]; [|exact H].
  pose proof (keeps_reset (set_connected true (set_serial (Some s) self))) as Hr.
  destruct (reset _) as [[b|e] self']; cbn [snd] in *; apply Hr;
    destruct self; session_leaf.
Qed.

Lemma keeps_disconnect : keeps_session disconnect.
Proof.
  intros self H. unfold disconnect, bind, get, on_serial, modify, ret.
  destruct (serial self) as [p|] eqn:Hs.
  - destruct (ser_is_open p).
    + rewrite Hs. destruct (ser_close p) as [[[]|e] p']; destruct self; session_leaf.
    + destruct self; session_leaf.
  - destruct self; session_leaf.
Qed.

Lemma keeps_run (c : call) (self : t P) :
  session_ok self -> session_ok (run utf8_decode c self).
Proof.
  revert self.
  destruct c as [ | | | | | mode param | bus speed | | msgs tmo | | addr data bus tmo | | ];
    cbn [run].
  - apply keeps_connect.
  - apply keeps_disconnect.
  - apply keeps_reset.
  - change (keeps_session (get_version utf8_decode)).
    unfold get_version. repeat first [ apply keeps_control_transfer | keeps_step ].
  - change (keeps_session (P := P) health).
    unfold health. repeat first [ apply keeps_control_transfer | keeps_step ].
  - change (keeps_session (P := P) (set_safety_mode mode param)).
    unfold set_safety_mode. repeat first [ apply keeps_control_transfer | keeps_step ].
  - change (keeps_session (P := P) (set_can_speed_kbps bus speed)).
    unfold set_can_speed_kbps. repeat first [ apply keeps_control_transfer | keeps_step ].
  - change (keeps_session (P := P) send_heartbeat).
    unfold send_heartbeat. repeat first [ apply keeps_control_transfer | keeps_step ].
  - apply keeps_can_send_many.
  - change (keeps_session (P := P) can_recv).
    unfold can_recv. repeat keeps_step.
  - change (keeps_session (P := P) (can_send addr data bus tmo)).
    unfold can_send. repeat first [ apply keeps_can_send_many | keeps_step ].
  - change (keeps_session (P := P) get_stats).
    unfold get_stats. repeat keeps_step.
  - apply keeps_disconnect.
Qed.

Lemma keeps_run_all (cs : list call) (self : t P) :
  session_ok self -> session_ok (run_all utf8_decode cs self).
Proof.
  unfold run_all. revert self.
  induction cs as [|c cs IH]; intros self H; cbn [fold_left].
  - exact H.
  - apply IH. apply keeps_run. exact H.
Qed.

End Session.

(** X9.  In a session that starts from a new adapter object, whatever calls
    are made and whatever the port does: the sequence number of the next
    frame is the number of frames sent so far modulo 256, so it stays in
    0..255; a connected adapter holds a serial object; bytes_received is at
    least six times frames_received; and no counter is negative. *)
Theorem session_invariants
  {P : Type} {SP : Serial P} (utf8_decode : bytes -> option string)
  (port : string) (baudrate : Z) (timeout : Q) (cs : list FT232RL_PandaAdapter.call) :
  session_ok
    (FT232RL_PandaAdapter.run_all utf8_decode cs
       (FT232RL_PandaAdapter.__init__ port baudrate timeout)) /\
  (0 <= FT232RL_PandaAdapter.sequence_tx
          (FT232RL_PandaAdapter.run_all utf8_decode cs
             (FT232RL_PandaAdapter.__init__ port baudrate timeout))) /\
  (FT232RL_PandaAdapter.sequence_tx
     (FT232RL_PandaAdapter.run_all utf8_decode cs
        (FT232RL_PandaAdapter.__init__ port baudrate timeout)) <= 255).
Proof.
  assert (H : session_ok
                (FT232RL_PandaAdapter.run_all utf8_decode cs
                   (FT232RL_PandaAdapter.__init__ (P := P) port baudrate timeout))).
  { apply keeps_run_all. unfold session_ok. cbn.
    repeat split; try lia; discriminate. }
  split; [exact H|].
  destruct H as (Hseq & _). rewrite Hseq.
  pose proof (Z.mod_pos_bound
                (FT232RL_PandaAdapter.frames_sent
                   (FT232RL_PandaAdapter.run_all utf8_decode cs
                      (FT232RL_PandaAdapter.__init__ port baudrate timeout)))
                256 ltac:(lia)).
  lia.
Qed.

(** ** Frames that arrive *)

(** A packed frame read whole from the port. *)
Lemma receive_frame_intact
  {P : Type} {SP : Serial P} (timeout : option Q) (self : FT232RL_PandaAdapter.t P)
  (p p1 p2 p3 p4 : P) (ft seq fl : Z) (pl : bytes) (f : FT232RL_Frame.t) (wire : bytes) :
  FT232RL_PandaAdapter.connected self = true ->
  FT232RL_PandaAdapter.serial self = Some p ->
  0 <= ft <= 255 -> 0 <= seq <= 255 -> 0 <= fl <= 255 -> len pl <= 255 ->
  FT232RL_Frame.__init__ ft seq pl fl = Returns f ->
  FT232RL_Frame.pack f = Returns wire ->
  ser_set_timeout (receive_timeout timeout self) p = (Returns tt, p1) ->
  ser_read 6 p1 = (Returns (firstn 6 wire), p2) ->
  (if len pl >? 0 then ser_read (len pl) p2 else (Returns [], p2)) = (Returns pl, p3) ->
  ser_set_timeout (ser_timeout p) p3 = (Returns tt, p4) ->
  FT232RL_PandaAdapter._receive_frame timeout self
  = (Returns (Some f),
     FT232RL_PandaAdapter.set_bytes_received
       (FT232RL_PandaAdapter.bytes_received self + len wire)
       (FT232RL_PandaAdapter.set_frames_received
          (FT232RL_PandaAdapter.frames_received self + 1)
          (FT232RL_PandaAdapter.set_serial (Some p4) self))).
Proof.
  intros Hconn Hser Hft Hseq Hfl Hpl Hinit Hpack Hset Hread Hpay Hrestore.
  pose proof (len_nonneg pl) as Hl.
  pose proof Hinit as Hf. rewrite FrameFacts.init_ok in Hf by lia.
  apply Returns_inj in Hf.
  rewrite FrameFacts.pack_ok in Hpack.
  2:{ subst f. unfold header_in_range.
      cbn [FT232RL_Frame.sync FT232RL_Frame.frame_type FT232RL_Frame.sequence
           FT232RL_Frame.length FT232RL_Frame.flags].
      repeat apply Forall_cons; try apply Forall_nil; lia. }
  apply Returns_inj in Hpack.
  assert (Hwire : wire = [xaa; byte_of_Z ft; byte_of_Z seq; byte_of_Z (len pl); byte_of_Z fl;
                          byte_of_Z (xor_bytes 0 (map byte_of_Z [0xAA; ft; seq; len pl; fl]
                                                  ++ pl))] ++ pl).
  { subst wire f. reflexivity. }
  clear Hpack.
  assert (Hlw : len wire = 6 + len pl).
  { rewrite Hwire, len_app. reflexivity. }
  rewrite Hwire in Hread. cbn [firstn app] in Hread.
  rewrite (receive_frame_read timeout self p p1 p2 p3 p4 _ _ _ _ _ pl Hconn Hser Hset Hread).
  - rewrite <- Hwire.
    replace (FT232RL_Frame.unpack wire) with (Returns (Some f)).
    + rewrite Hlw. reflexivity.
    + pose proof (unpack_wire_app ft seq fl pl [] Hft Hseq Hfl Hpl) as Hu.
      rewrite app_nil_r, Hinit in Hu. cbn [obind] in Hu.
      rewrite Hwire. symmetry. exact Hu.
  - rewrite byte_val_of_Z_small by lia. exact Hpay.
  - rewrite byte_val_of_Z_small by lia. lia.
  - exact Hrestore.
Qed.

(** X10.  A frame that the port delivers is received intact, whatever its
    sequence number: when the header read returns the six header bytes of a
    packed frame and the payload read its payload, [_receive_frame] returns
    that frame, adds one to frames_received and the length of the packed
    frame to bytes_received, restores the timeout of the port and touches no
    other counter. *)
Theorem receive_frame_delivers
  {P : Type} {SP : Serial P} (timeout : option Q) (self : FT232RL_PandaAdapter.t P)
  (p p1 p2 p3 p4 : P) (ft seq fl : Z) (pl : bytes) (f : FT232RL_Frame.t) (wire : bytes) :
  FT232RL_PandaAdapter.connected self = true ->
  FT232RL_PandaAdapter.serial self = Some p ->
  0 <= ft <= 255 -> 0 <= seq <= 255 -> 0 <= fl <= 255 -> len pl <= 255 ->
  FT232RL_Frame.__init__ ft seq pl fl = Returns f ->
  FT232RL_Frame.pack f = Returns wire ->
  ser_set_timeout (receive_timeout timeout self) p = (Returns tt, p1) ->
  ser_read 6 p1 = (Returns (firstn 6 wire), p2) ->
  (if len pl >? 0 then ser_read (len pl) p2 else (Returns [], p2)) = (Returns pl, p3) ->
  ser_set_timeout (ser_timeout p) p3 = (Returns tt, p4) ->
  FT232RL_PandaAdapter._receive_frame timeout self
  = (Returns (Some f),
     FT232RL_PandaAdapter.set_bytes_received
       (FT232RL_PandaAdapter.bytes_received self + len wire)
       (FT232RL_PandaAdapter.set_frames_received
          (FT232RL_PandaAdapter.frames_received self + 1)
          (FT232RL_PandaAdapter.set_serial (Some p4) self))).
Proof. apply receive_frame_intact. Qed.

(** A CONTROL frame with sequence number 200 and payload 01 02, read from a
    scripted port by an adapter whose own sequence counter is 0. *)
Lemma receive_frame_delivers_witness :
  FT232RL_PandaAdapter._receive_frame (SP := Examples.api) (Some 5%Q)
    (Examples.adapter_on
       (ScriptedPort.mk [xaa; x00; xc8; x02; x00; x63; x01; x02] [] 64 false 1%Q true))
  = (Returns (Some (FT232RL_Frame.mk 170 0 200 2 0 [x01; x02] 0x63)),
     FT232RL_PandaAdapter.set_bytes_received
       (FT232RL_PandaAdapter.bytes_received
          (Examples.adapter_on
             (ScriptedPort.mk [xaa; x00; xc8; x02; x00; x63; x01; x02] [] 64 false 1%Q true))
        + len [xaa; x00; xc8; x02; x00; x63; x01; x02])
       (FT232RL_PandaAdapter.set_frames_received
          (FT232RL_PandaAdapter.frames_received
             (Examples.adapter_on
                (ScriptedPort.mk [xaa; x00; xc8; x02; x00; x63; x01; x02] [] 64 false 1%Q
                   true))
           + 1)
          (FT232RL_PandaAdapter.set_serial
             (Some (ScriptedPort.mk [] [] 64 false 1%Q true))
             (Examples.adapter_on
                (ScriptedPort.mk [xaa; x00; xc8; x02; x00; x63; x01; x02] [] 64 false 1%Q
                   true))))).
Proof.
  apply (receive_frame_delivers (SP := Examples.api) (Some 5%Q) _
           (ScriptedPort.mk [xaa; x00; xc8; x02; x00; x63; x01; x02] [] 64 false 1%Q true)
           (ScriptedPort.mk [xaa; x00; xc8; x02; x00; x63; x01; x02] [] 64 false 5%Q true)
           (ScriptedPort.mk [x01; x02] [] 64 false 5%Q true)
           (ScriptedPort.mk [] [] 64 false 5%Q true)
           (ScriptedPort.mk [] [] 64 false 1%Q true)
           0 200 0 [x01; x02]);
    try reflexivity; try lia.
  vm_compute. discriminate.
Defined.

(** X11.  A receive that times out, or meets a byte other than 0xAA where a
    frame should start, returns [None] and counts nothing, not even an error;
    it reads no payload and does not put the timeout of the port back (the
    port is left as the header read left it). *)
Theorem receive_frame_without_header
  {P : Type} {SP : Serial P} (timeout : option Q) (self : FT232RL_PandaAdapter.t P)
  (p p1 p2 : P) (header : bytes) :
  FT232RL_PandaAdapter.connected self = true ->
  FT232RL_PandaAdapter.serial self = Some p ->
  ser_set_timeout (receive_timeout timeout self) p = (Returns tt, p1) ->
  ser_read 6 p1 = (Returns header, p2) ->
  len header < 6 \/
  (exists b0 b1 b2 b3 b4 b5, header = [b0; b1; b2; b3; b4; b5] /\ byte_val b0 <> 0xAA) ->
  FT232RL_PandaAdapter._receive_frame timeout self
  = (Returns None, FT232RL_PandaAdapter.set_serial (Some p2) self).
Proof. apply receive_frame_no_header. Qed.

(** A read that times out after 2.0 s on a port whose timeout was 1.0 s. *)
Lemma receive_frame_without_header_witness :
  FT232RL_PandaAdapter._receive_frame (SP := Examples.api) (Some 2%Q)
    (Examples.adapter_on (ScriptedPort.quiet 64))
  = (Returns None,
     FT232RL_PandaAdapter.set_serial (Some (ScriptedPort.mk [] [] 64 false 2%Q true))
       (Examples.adapter_on (ScriptedPort.quiet 64))).
Proof.
  apply (receive_frame_without_header (SP := Examples.api) (Some 2%Q) _
           (ScriptedPort.quiet 64)
           (ScriptedPort.mk [] [] 64 false 2%Q true)
           (ScriptedPort.mk [] [] 64 false 2%Q true) []);
    try reflexivity.
  left. vm_compute. reflexivity.
Defined.

(** X12.  A frame that arrives whole but does not unpack (its checksum is
    wrong, say) is counted as one error: [_receive_frame] returns [None],
    adds one to errors, leaves frames_received and bytes_received as they
    were, and restores the timeout of the port. *)
Theorem receive_frame_corrupt
  {P : Type} {SP : Serial P} (timeout : option Q) (self : FT232RL_PandaAdapter.t P)
  (p p1 p2 p3 p4 : P) (b1 b2 b3 b4 b5 : byte) (payload : bytes) :
  FT232RL_PandaAdapter.connected self = true ->
  FT232RL_PandaAdapter.serial self = Some p ->
  ser_set_timeout (receive_timeout timeout self) p = (Returns tt, p1) ->
  ser_read 6 p1 = (Returns [xaa; b1; b2; b3; b4; b5], p2) ->
  (if byte_val b3 >? 0 then ser_read (byte_val b3) p2 else (Returns [], p2))
  = (Returns payload, p3) ->
  byte_val b3 <= len payload ->
  ser_set_timeout (ser_timeout p) p3 = (Returns tt, p4) ->
  FT232RL_Frame.unpack ([xaa; b1; b2; b3; b4; b5] ++ payload) = Returns None ->
  FT232RL_PandaAdapter._receive_frame timeout self
  = (Returns None,
     FT232RL_PandaAdapter.set_errors (FT232RL_PandaAdapter.errors self + 1)
       (FT232RL_PandaAdapter.set_serial (Some p4) self)).
Proof.
  intros Hconn Hser Hset Hread Hpay Hlen Hrestore Hbad.
  rewrite (receive_frame_read timeout self p p1 p2 p3 p4 b1 b2 b3 b4 b5 payload) by assumption.
  rewrite Hbad. reflexivity.
Qed.

(** The frame of the other witness with its checksum byte changed to 64. *)
Lemma receive_frame_corrupt_witness :
  FT232RL_PandaAdapter._receive_frame (SP := Examples.api) (Some 5%Q)
    (Examples.adapter_on
       (ScriptedPort.mk [xaa; x00; xc8; x02; x00; x64; x01; x02] [] 64 false 1%Q true))
  = (Returns None,
     FT232RL_PandaAdapter.set_errors
       (FT232RL_PandaAdapter.errors
          (Examples.adapter_on
             (ScriptedPort.mk [xaa; x00; xc8; x02; x00; x64; x01; x02] [] 64 false 1%Q true))
        + 1)
       (FT232RL_PandaAdapter.set_serial
          (Some (ScriptedPort.mk [] [] 64 false 1%Q true))
          (Examples.adapter_on
             (ScriptedPort.mk [xaa; x00; xc8; x02; x00; x64; x01; x02] [] 64 false 1%Q
                true)))).
Proof.
  apply (receive_frame_corrupt (SP := Examples.api) (Some 5%Q) _
           (ScriptedPort.mk [xaa; x00; xc8; x02; x00; x64; x01; x02] [] 64 false 1%Q true)
           (ScriptedPort.mk [xaa; x00; xc8; x02; x00; x64; x01; x02] [] 64 false 5%Q true)
           (ScriptedPort.mk [x01; x02] [] 64 false 5%Q true)
           (ScriptedPort.mk [] [] 64 false 5%Q true)
           (ScriptedPort.mk [] [] 64 false 1%Q true)
           x00 xc8 x02 x00 x64 [x01; x02]);
    try reflexivity; vm_compute; discriminate.
Defined.

(** ** What the calls leave alone *)

Section Config.
Import FT232RL_PandaAdapter.
Context {P : Type} {SP : Serial P}.
Variable utf8_decode : bytes -> option string.

Lemma same_settings_refl (a : t P) : same_settings a a.
Proof. unfold same_settings. repeat split; reflexivity. Qed.

Lemma same_settings_trans (a b c : t P) :
  same_settings a b -> same_settings b c -> same_settings a c.
Proof.
  unfold same_settings.
  intros (A1 & A2 & A3 & A4 & A5 & A6 & A7 & A8) (B1 & B2 & B3 & B4 & B5 & B6 & B7 & B8).
  repeat split; congruence.
Qed.

Lemma same_config_refl (a : t P) : same_config a a.
Proof. split; [apply same_settings_refl | split; reflexivity]. Qed.

Lemma same_config_trans (a b c : t P) :
  same_config a b -> same_config b c -> same_config a c.
Proof.
  intros (A1 & A2 & A3) (B1 & B2 & B3).
  split; [eapply same_settings_trans; eassumption | split; congruence].
Qed.

Lemma config_ret {A : Type} (x : A) : keeps_config (P := P) (ret x).
Proof. intros self. apply same_config_refl. Qed.

Lemma config_get : keeps_config (P := P) get.
Proof. intros self. apply same_config_refl. Qed.

Lemma config_lift {A : Type} (o : outcome A) : keeps_config (P := P) (lift o).
Proof. intros self. apply same_config_refl. Qed.

Lemma config_modify (f : t P -> t P) :
  (forall self, same_config self (f self)) -> keeps_config (modify f).
Proof. intros H self. apply H. Qed.

Lemma config_on_serial {A : Type} (op : P -> outcome A * P) : keeps_config (on_serial op).
Proof.
  intros self. unfold on_serial.
  destruct (serial self) as [p|] eqn:Hs; [|apply same_config_refl].
  destruct (op p) as [r p']. destruct self. unfold same_config, same_settings.
  cbn in *. subst. repeat split; reflexivity.
Qed.

Lemma config_bind {A B : Type} (m : M P A) (k : A -> M P B) :
  keeps_config m -> (forall x, keeps_config (k x)) -> keeps_config (bind m k).
Proof.
  intros Hm Hk self. unfold bind.
  specialize (Hm self). destruct (m self) as [[x|e] self']; cbn [snd] in *.
  - eapply same_config_trans; [exact Hm | apply Hk].
  - exact Hm.
Qed.

Lemma config_try_except {A : Type} (body handler : M P A) :
  keeps_config body -> keeps_config handler -> keeps_config (try_except body handler).
Proof.
  intros Hb Hh self. unfold try_except.
  specialize (Hb self). destruct (body self) as [[x|e] self']; cbn [snd] in *.
  - exact Hb.
  - eapply same_config_trans; [exact Hb | apply Hh].
Qed.

Ltac config_assign :=
  apply config_modify; intros []; unfold same_config, same_settings; cbn;
  repeat split; reflexivity.

Ltac config_step :=
  first
    [ apply config_ret
    | apply config_get
    | apply config_lift
    | apply config_on_serial
    | config_assign
    | apply config_try_except
    | apply config_bind; [|intros ?]
    | match goal with
      | |- keeps_config (if ?c then _ else _) => destruct c
      | |- keeps_config (match ?x with _ => _ end) => destruct x
      end ].

Lemma config_send_frame (frame : FT232RL_Frame.t) : keeps_config (_send_frame frame).
Proof. unfold _send_frame. repeat config_step. Qed.

Lemma config_receive_frame (timeout : option Q) : keeps_config (_receive_frame timeout).
Proof. unfold _receive_frame. repeat config_step. Qed.

Lemma config_control_transfer (request_type request value index : Z) (data : bytes) :
  keeps_config (_control_transfer request_type request value index data).
Proof.
  unfold _control_transfer.
  repeat first [ apply config_send_frame | apply config_receive_frame | config_step ].
Qed.

Lemma config_reset : keeps_config reset.
Proof. unfold reset. repeat first [ apply config_control_transfer | config_step ]. Qed.

Lemma config_can_send_many (can_messages : list CANMessage.t) (tmo : Z) :
  keeps_config (can_send_many can_messages tmo).
Proof.
  unfold can_send_many. repeat first [ apply config_send_frame | config_step ].
Qed.

Lemma config_can_recv : keeps_config can_recv.
Proof.
  unfold can_recv.
  repeat first [ apply config_send_frame | apply config_receive_frame | config_step ].
Qed.

Lemma config_run (c : call) (self : t P) :
  match c with
  | Connect | Disconnect | Close => same_settings self (run utf8_decode c self)
  | _ => same_config self (run utf8_decode c self)
  end.
Proof.
  revert self.
  destruct c as [ | | | | | mode param | bus speed | | msgs tmo | | addr data bus tmo | | ];
    cbn [run].
  - intros self. unfold connect, bind, get, try_except, lift, modify.
    destruct (Serial_new _ _ _) as [s|e]; [|apply same_settings_refl].
    pose proof (config_reset (set_connected true (set_serial (Some s) self))) as [Hr _].
    assert (H0 : same_settings self (set_connected true (set_serial (Some s) self))).
    { destruct self. unfold same_settings. cbn. repeat split; reflexivity. }
    destruct (reset _) as [[b|e] self']; cbn [snd] in *;
      eapply same_settings_trans; eassumption.
  - intros self. unfold disconnect, bind, get, on_serial, modify, ret.
    destruct (serial self) as [p|] eqn:Hs.
    + destruct (ser_is_open p).
      * rewrite Hs. destruct (ser_close p) as [[[]|e] p'];
          destruct self; unfold same_settings; cbn; repeat split; reflexivity.
      * destruct self; unfold same_settings; cbn; repeat split; reflexivity.
    + destruct self; unfold same_settings; cbn; repeat split; reflexivity.
  - apply config_reset.
  - change (keeps_config (get_version utf8_decode)).
    unfold get_version. repeat first [ apply config_control_transfer | config_step ].
  - change (keeps_config (P := P) health).
    unfold health. repeat first [ apply config_control_transfer | config_step ].
  - change (keeps_config (P := P) (set_safety_mode mode param)).
    unfold set_safety_mode. repeat first [ apply config_control_transfer | config_step ].
  - change (keeps_config (P := P) (set_can_speed_kbps bus speed)).
    unfold set_can_speed_kbps. repeat first [ apply config_control_transfer | config_step ].
  - change (keeps_config (P := P) send_heartbeat).
    unfold send_heartbeat. repeat first [ apply config_control_transfer | config_step ].
  - apply config_can_send_many.
  - apply config_can_recv.
  - change (keeps_config (P := P) (can_send addr data bus tmo)).
    unfold can_send. repeat first [ apply config_can_send_many | config_step ].
  - change (keeps_config (P := P) get_stats).
    unfold get_stats. repeat config_step.
  - intros self. unfold close, disconnect, bind, get, on_serial, modify, ret.
    destruct (serial self) as [p|] eqn:Hs.
    + destruct (ser_is_open p).
      * rewrite Hs. destruct (ser_close p) as [[[]|e] p'];
          destruct self; unfold same_settings; cbn; repeat split; reflexivity.
      * destruct self; unfold same_settings; cbn; repeat split; reflexivity.
    + destruct self; unfold same_settings; cbn; repeat split; reflexivity.
Qed.

Lemma settings_run_all (cs : list call) (self : t P) :
  same_settings self (run_all utf8_decode cs self).
Proof.
  unfold run_all. revert self.
  induction cs as [|c cs IH]; intros self; cbn [fold_left].
  - apply same_settings_refl.
  - eapply same_settings_trans; [|apply IH].
    pose proof (config_run c self) as H. destruct c; try exact H; apply H.
Qed.

End Config.

(** X13.  No call but connect, disconnect and close changes the connected
    flag or whether the adapter holds a serial object, and no sequence of
    calls changes the port name, the baudrate, the timeout,
    sequence_rx_expected or the four chunk attributes: the adapter never
    tracks the sequence numbers of the frames it receives and never
    reassembles chunks. *)
Theorem settings_never_change
  {P : Type} {SP : Serial P} (utf8_decode : bytes -> option string) :
  (forall (c : FT232RL_PandaAdapter.call) (self : FT232RL_PandaAdapter.t P),
      match c with
      | FT232RL_PandaAdapter.Connect | FT232RL_PandaAdapter.Disconnect
      | FT232RL_PandaAdapter.Close =>
          same_settings self (FT232RL_PandaAdapter.run utf8_decode c self)
      | _ => same_config self (FT232RL_PandaAdapter.run utf8_decode c self)
      end) /\
  (forall (cs : list FT232RL_PandaAdapter.call) (self : FT232RL_PandaAdapter.t P),
      same_settings self (FT232RL_PandaAdapter.run_all utf8_decode cs self)).
Proof.
  split.
  - apply config_run.
  - apply settings_run_all.
Qed.

(** ** The only exception of the packing functions *)

Lemma pack_B_raises (v : Z) (e : exn) : PyStruct.pack_B v = Raises e -> e = StructError.
Proof.
  unfold PyStruct.pack_B. destruct ((0 <=? v) && (v <=? 255)); [discriminate|].
  intros H. injection H as <-. reflexivity.
Qed.

Lemma pack_Bs_raises (vs : list Z) (e : exn) :
  PyStruct.pack_Bs vs = Raises e -> e = StructError.
Proof.
  induction vs as [|v vs IH]; cbn [PyStruct.pack_Bs]; [discriminate|].
  destruct (PyStruct.pack_B v) as [b|e0] eqn:Hb; cbn [obind].
  - destruct (PyStruct.pack_Bs vs) as [bs|e1]; cbn [obind]; [discriminate|].
    intros H. injection H as <-. apply IH. reflexivity.
  - intros H. injection H as <-. eapply pack_B_raises. exact Hb.
Qed.

Lemma pack_I_raises (v : Z) (e : exn) : PyStruct.pack_I v = Raises e -> e = StructError.
Proof.
  unfold PyStruct.pack_I. destruct ((0 <=? v) && (v <=? 4294967295)); [discriminate|].
  intros H. injection H as <-. reflexivity.
Qed.

Lemma pack_H_raises (v : Z) (e : exn) : PyStruct.pack_H v = Raises e -> e = StructError.
Proof.
  unfold PyStruct.pack_H. destruct ((0 <=? v) && (v <=? 65535)); [discriminate|].
  intros H. injection H as <-. reflexivity.
Qed.

Lemma init_raises (ft seq : Z) (pl : bytes) (fl : Z) (e : exn) :
  FT232RL_Frame.__init__ ft seq pl fl = Raises e -> e = StructError.
Proof.
  unfold FT232RL_Frame.__init__, FT232RL_Frame._calculate_checksum.
  destruct (PyStruct.pack_Bs _) as [bs|e0] eqn:Hb; cbn [obind]; [discriminate|].
  intros H. injection H as <-. eapply pack_Bs_raises. exact Hb.
Qed.

Lemma pack_message_raises (msg : CANMessage.t) (e : exn) :
  CANCodec.pack_message msg = Raises e -> e = StructError.
Proof.
  unfold CANCodec.pack_message.
  destruct (PyStruct.pack_I _) as [ab|e0] eqn:Ha; cbn [obind].
  - destruct (PyStruct.pack_B _) as [h|e1] eqn:Hh; cbn [obind].
    + rewrite pack_B_ok by apply xor_bytes_range. cbn [obind]. discriminate.
    + intros H. injection H as <-. eapply pack_B_raises. exact Hh.
  - intros H. injection H as <-. eapply pack_I_raises. exact Ha.
Qed.

Lemma pack_loop_raises (can_messages : list CANMessage.t) :
  forall (packed_data : bytes) (count : Z) (e : exn),
    CANCodec.pack_loop can_messages packed_data count = Raises e -> e = StructError.
Proof.
  induction can_messages as [|msg rest IH]; intros packed_data count e;
    cbn [CANCodec.pack_loop]; [discriminate|].
  destruct (len packed_data + 20 >? 250); [discriminate|].
  destruct (CANCodec.pack_message msg) as [enc|e0] eqn:Hm; cbn [obind].
  - apply IH.
  - intros H. injection H as <-. eapply pack_message_raises. exact Hm.
Qed.

(** ** A disconnected adapter, and [connect] *)

Section Disconnected.
Import FT232RL_PandaAdapter.
Context {P : Type} {SP : Serial P}.
Variable utf8_decode : bytes -> option string.

Lemma send_frame_disconnected (frame : FT232RL_Frame.t) (self : t P) :
  connected self = false \/ serial self = None ->
  _send_frame frame self = (Returns false, self).
Proof.
  intros H. unfold _send_frame, bind, get, ret.
  destruct H as [-> | ->]; [reflexivity|].
  destruct (connected self); reflexivity.
Qed.

Lemma control_transfer_disconnected (request_type request value index : Z) (self : t P) :
  connected self = false \/ serial self = None ->
  0 <= request_type <= 255 -> 0 <= request <= 255 ->
  0 <= value <= 65535 -> 0 <= index <= 65535 ->
  _control_transfer request_type request value index [] self = (Returns [], self).
Proof.
  intros H Hrt Hrq Hv Hi.
  unfold _control_transfer, PyStruct.pack_BBHH, PyStruct.pack_H.
  rewrite !pack_B_ok by lia.
  replace ((0 <=? value) && (value <=? 65535)) with true
    by (symmetry; apply andb_true_iff; split; apply Z.leb_le; lia).
  replace ((0 <=? index) && (index <=? 65535)) with true
    by (symmetry; apply andb_true_iff; split; apply Z.leb_le; lia).
  cbn [obind].
  change ((0 <=? 0) && (0 <=? 65535)) with true. cbv iota.
  unfold bind at 1. unfold lift at 1. cbv beta iota.
  unfold bind at 1. unfold lift at 1. cbv beta iota.
  match goal with
  | |- context [FT232RL_Frame.__init__ ?a ?b ?c ?d] =>
      rewrite (FrameFacts.init_ok a b c d)
        by first [ unfold FT232RL_Frame.FRAME_CONTROL; lia
                 | unfold len; simpl List.length; lia ]
  end.
  unfold bind at 1. unfold lift at 1. cbv beta iota.
  unfold bind at 1. rewrite send_frame_disconnected by exact H.
  reflexivity.
Qed.

End Disconnected.

(** X14.  An adapter that is not connected (never connected, or closed) does
    no input or output and changes nothing: every command, [can_recv] and
    [can_send_many] leave the adapter object exactly as it was.  [get_version]
    answers "Error", [health] zeros, [can_recv] the empty list and
    [can_send_many] 0 (unless packing raises); [reset] and [send_heartbeat]
    answer True all the same. *)
Theorem disconnected_adapter_is_inert
  {P : Type} {SP : Serial P} (utf8_decode : bytes -> option string)
  (self : FT232RL_PandaAdapter.t P) :
  FT232RL_PandaAdapter.connected self = false \/ FT232RL_PandaAdapter.serial self = None ->
  FT232RL_PandaAdapter.reset self = (Returns true, self) /\
  FT232RL_PandaAdapter.send_heartbeat self = (Returns true, self) /\
  FT232RL_PandaAdapter.get_version utf8_decode self = (Returns "Error"%string, self) /\
  FT232RL_PandaAdapter.health self
  = (Returns (FT232RL_PandaAdapter.mkHealth 0%Q 0%Q 0), self) /\
  FT232RL_PandaAdapter.can_recv self = (Returns [], self) /\
  (forall can_messages timeout,
      snd (FT232RL_PandaAdapter.can_send_many can_messages timeout self) = self /\
      (fst (FT232RL_PandaAdapter.can_send_many can_messages timeout self) = Returns 0 \/
       fst (FT232RL_PandaAdapter.can_send_many can_messages timeout self)
       = Raises StructError)).
Proof.
  intros H.
  assert (Hct : forall request_type request,
             0 <= request_type <= 255 -> 0 <= request <= 255 ->
             FT232RL_PandaAdapter._control_transfer request_type request 0 0 [] self
             = (Returns [], self)).
  { intros rt rq Hrt Hrq. apply control_transfer_disconnected; try assumption; lia. }
  split.
  { unfold FT232RL_PandaAdapter.reset, FT232RL_PandaAdapter.bind.
    rewrite Hct by (vm_compute; split; discriminate). reflexivity. }
  split.
  { unfold FT232RL_PandaAdapter.send_heartbeat, FT232RL_PandaAdapter.bind.
    rewrite Hct by (vm_compute; split; discriminate). reflexivity. }
  split.
  { unfold FT232RL_PandaAdapter.get_version, FT232RL_PandaAdapter.bind.
    rewrite Hct by (vm_compute; split; discriminate). reflexivity. }
  split.
  { unfold FT232RL_PandaAdapter.health, FT232RL_PandaAdapter.bind.
    rewrite Hct by (vm_compute; split; discriminate). reflexivity. }
  split.
  { unfold FT232RL_PandaAdapter.can_recv, FT232RL_PandaAdapter.bind,
      FT232RL_PandaAdapter.lift.
    change (FT232RL_Frame.__init__ FT232RL_Frame.FRAME_BULK_IN 0 [] 0)
      with (Returns Examples.empty_bulk_in).
    cbv beta iota. rewrite send_frame_disconnected by exact H. reflexivity. }
  intros can_messages timeout.
  unfold FT232RL_PandaAdapter.can_send_many, FT232RL_PandaAdapter.bind,
    FT232RL_PandaAdapter.lift.
  destruct (CANCodec.pack_messages can_messages) as [[packed_data count]|e] eqn:Hp.
  - destruct packed_data as [|b rest]; [cbn; auto|].
    destruct (FT232RL_Frame.__init__ _ _ _ _) as [frame|e] eqn:Hi.
    + rewrite send_frame_disconnected by exact H. cbn. auto.
    + cbn. split; [reflexivity|]. right. f_equal. eapply init_raises. exact Hi.
  - cbn. split; [reflexivity|]. right. f_equal. eapply pack_loop_raises. exact Hp.
Qed.

(** A new adapter object, never connected. *)
Lemma disconnected_adapter_is_inert_witness :
  FT232RL_PandaAdapter.reset (SP := Examples.api)
    (FT232RL_PandaAdapter.__init__ "COM3" 3000000 1%Q)
  = (Returns true, FT232RL_PandaAdapter.__init__ "COM3" 3000000 1%Q) /\
  FT232RL_PandaAdapter.can_recv (SP := Examples.api)
    (FT232RL_PandaAdapter.__init__ "COM3" 3000000 1%Q)
  = (Returns [], FT232RL_PandaAdapter.__init__ "COM3" 3000000 1%Q).
Proof.
  pose proof (disconnected_adapter_is_inert (SP := Examples.api) (fun _ => None)
                (FT232RL_PandaAdapter.__init__ "COM3" 3000000 1%Q)
                (or_introl eq_refl)) as (H1 & _ & _ & _ & H5 & _).
  split; [exact H1 | exact H5].
Defined.

(** ** Exceptions that leave the adapter *)

Lemma pack_BBHH_raises (a b c d : Z) (e : exn) :
  PyStruct.pack_BBHH a b c d = Raises e -> e = StructError.
Proof.
  unfold PyStruct.pack_BBHH.
  destruct (PyStruct.pack_B a) as [x|e0] eqn:Ha; cbn [obind];
    [|intros H; injection H as <-; eapply pack_B_raises; exact Ha].
  destruct (PyStruct.pack_B b) as [y|e0] eqn:Hb; cbn [obind];
    [|intros H; injection H as <-; eapply pack_B_raises; exact Hb].
  destruct (PyStruct.pack_H c) as [z|e0] eqn:Hc; cbn [obind];
    [|intros H; injection H as <-; eapply pack_H_raises; exact Hc].
  destruct (PyStruct.pack_H d) as [w|e0] eqn:Hd; cbn [obind];
    [discriminate|intros H; injection H as <-; eapply pack_H_raises; exact Hd].
Qed.

Section Escapes.
Import FT232RL_PandaAdapter.
Context {P : Type} {SP : Serial P}.
Variable utf8_decode : bytes -> option string.

(** [_control_transfer] raises only while it packs its request, before
    anything is sent. *)
Lemma control_transfer_raises
  (request_type request value index : Z) (data : bytes) (self self' : t P) (e : exn) :
  _control_transfer request_type request value index data self = (Raises e, self') ->
  e = StructError /\ self' = self.
Proof.
  unfold _control_transfer.
  unfold bind at 1. unfold lift at 1.
  destruct (PyStruct.pack_BBHH request_type request value index) as [cd|e0] eqn:Hcd.
  2:{ intros H. injection H as <- <-. split; [eapply pack_BBHH_raises; exact Hcd | reflexivity]. }
  unfold bind at 1. unfold lift at 1.
  match goal with
  | |- context [match ?o with Returns _ => _ | Raises _ => _ end] =>
      destruct o as [tail|e0] eqn:Htail
  end.
  2:{ intros H. injection H as <- <-. split; [|reflexivity].
      destruct data as [|b rest].
      - eapply pack_H_raises. exact Htail.
      - destruct (PyStruct.pack_H (len (b :: rest))) as [l|e1] eqn:Hl; cbn [obind] in Htail;
          [discriminate|].
        injection Htail as <-. eapply pack_H_raises. exact Hl. }
  unfold bind at 1. unfold lift at 1.
  destruct (FT232RL_Frame.__init__ FT232RL_Frame.FRAME_CONTROL 0 (cd ++ tail) 0)
    as [frame|e0] eqn:Hf.
  2:{ intros H. injection H as <- <-. split; [eapply init_raises; exact Hf | reflexivity]. }
  unfold bind at 1.
  destruct (send_frame_returns frame self) as (sent & self1 & ->).
  destruct sent; cbn [negb]; [|unfold ret; discriminate].
  unfold bind.
  destruct (receive_frame_returns (Some 5%Q) self1) as (resp & self2 & ->).
  destruct resp as [f|]; [|unfold ret; discriminate].
  destruct (negb (FT232RL_Frame.frame_type f =? FT232RL_Frame.FRAME_CONTROL));
    unfold ret; discriminate.
Qed.

(** A command raises only when its control transfer does. *)
Lemma command_raises (m : M P bytes) (self self' : t P) (e : exn) :
  (forall e0 self0, m self = (Raises e0, self0) -> e0 = StructError /\ self0 = self) ->
  bind m (fun response => ret (len response >=? 0)) self = (Raises e, self') ->
  e = StructError /\ self' = self.
Proof.
  intros Hm. unfold bind. destruct (m self) as [[r|e0] self0] eqn:E.
  - unfold ret. discriminate.
  - intros H. injection H as <- <-. apply (Hm e0 self0). reflexivity.
Qed.

(** [can_send_many] raises only while it packs the messages. *)
Lemma can_send_many_raises
  (can_messages : list CANMessage.t) (timeout : Z) (self self' : t P) (e : exn) :
  can_send_many can_messages timeout self = (Raises e, self') ->
  e = StructError /\ self' = self.
Proof.
  unfold can_send_many. unfold bind at 1. unfold lift at 1.
  destruct (CANCodec.pack_messages can_messages) as [[packed_data count]|e0] eqn:Hp.
  2:{ intros H. injection H as <- <-. split; [eapply pack_loop_raises; exact Hp | reflexivity]. }
  destruct packed_data as [|b rest]; [unfold ret; discriminate|].
  unfold bind at 1. unfold lift at 1.
  destruct (FT232RL_Frame.__init__ FT232RL_Frame.FRAME_BULK_OUT 0 (b :: rest) 0)
    as [frame|e0] eqn:Hf.
  2:{ intros H. injection H as <- <-. split; [eapply init_raises; exact Hf | reflexivity]. }
  unfold bind.
  destruct (send_frame_returns frame self) as (sent & self1 & ->).
  destruct sent; unfold ret; discriminate.
Qed.

Lemma parse_messages_returns (data : bytes) :
  exists messages, CANCodec.parse_messages data = Returns messages.
Proof.
  unfold CANCodec.parse_messages.
  destruct (parse_loop_ok (S (List.length data)) data 0 []) as (out & Hout & _).
  - pose proof (len_nonneg data). lia.
  - unfold len. lia.
  - constructor.
  - exists out. exact Hout.
Qed.

Lemma can_recv_returns : always_returns (P := P) can_recv.
Proof.
  intros self. unfold can_recv. unfold bind at 1. unfold lift at 1.
  change (FT232RL_Frame.__init__ FT232RL_Frame.FRAME_BULK_IN 0 [] 0)
    with (Returns Examples.empty_bulk_in).
  cbv beta iota. unfold bind at 1.
  destruct (send_frame_returns Examples.empty_bulk_in self) as (sent & self1 & ->).
  destruct sent; cbn [negb]; [|unfold ret; eauto].
  unfold bind.
  destruct (receive_frame_returns (Some 2%Q) self1) as (resp & self2 & ->).
  destruct resp as [f|]; [|unfold ret; eauto].
  destruct (negb (FT232RL_Frame.frame_type f =? FT232RL_Frame.FRAME_BULK_IN));
    [unfold ret; eauto|].
  unfold lift. destruct (parse_messages_returns (FT232RL_Frame.payload f)) as (ms & ->).
  eauto.
Qed.

Lemma plain_transfer_returns (request_type request : Z) :
  0 <= request_type <= 255 -> 0 <= request <= 255 ->
  always_returns (P := P) (_control_transfer request_type request 0 0 []).
Proof. intros H1 H2. apply control_transfer_returns; try assumption; lia. Qed.

Lemma reset_returns : always_returns (P := P) reset.
Proof.
  unfold reset. apply returns_bind; [|intros r; apply returns_ret].
  apply plain_transfer_returns; vm_compute; split; discriminate.
Qed.

Lemma send_heartbeat_returns : always_returns (P := P) send_heartbeat.
Proof.
  unfold send_heartbeat. apply returns_bind; [|intros r; apply returns_ret].
  apply plain_transfer_returns; vm_compute; split; discriminate.
Qed.

Lemma get_version_returns : always_returns (P := P) (get_version utf8_decode).
Proof.
  unfold get_version. apply returns_bind.
  - apply plain_transfer_returns; vm_compute; split; discriminate.
  - intros [|b rest]; [apply returns_ret|].
    destruct (utf8_decode (b :: rest)); apply returns_ret.
Qed.

Lemma health_returns : always_returns (P := P) health.
Proof.
  unfold health. apply returns_bind.
  - apply plain_transfer_returns; vm_compute; split; discriminate.
  - intros r. destruct (len r >=? 12); apply returns_ret.
Qed.

Lemma connect_returns : always_returns (P := P) connect.
Proof.
  unfold connect. apply returns_bind; [intros self; unfold get; eauto|].
  intros self. apply returns_try_except. apply returns_ret.
Qed.

Lemma raised_returns {A : Type} (m : M P A) (self : t P) :
  always_returns m -> raised (m self) = None.
Proof. intros H. unfold raised. destruct (H self) as (x & self' & ->). reflexivity. Qed.

Lemma raised_struct {A : Type} (m : M P A) (self : t P) :
  (forall e self', m self = (Raises e, self') -> e = StructError /\ self' = self) ->
  raised (m self) = None \/ (raised (m self) = Some StructError /\ snd (m self) = self).
Proof.
  intros H. unfold raised. destruct (m self) as [[x|e] self'] eqn:E; cbn [fst snd].
  - left. reflexivity.
  - right. destruct (H e self' eq_refl) as [-> ->]. split; reflexivity.
Qed.

Lemma can_send_raises
  (addr : Z) (data : bytes) (bus timeout : Z) (self self' : t P) (e : exn) :
  can_send addr data bus timeout self = (Raises e, self') ->
  e = StructError /\ self' = self.
Proof.
  unfold can_send, bind.
  destruct (can_send_many [CANMessage.__init__ addr data bus] timeout self)
    as [[n|e0] self0] eqn:E.
  - unfold ret. discriminate.
  - intros H. injection H as <- <-. eapply can_send_many_raises. exact E.
Qed.

End Escapes.

(** X15.  No exception of the serial port leaves the adapter, except through
    disconnect and close: connect, reset, get_version, health,
    send_heartbeat, can_recv and get_stats never raise, and
    set_safety_mode, set_can_speed_kbps, can_send_many and can_send raise
    nothing but struct.error (an argument that does not fit its field),
    and that before anything is sent: the adapter object is then as it
    was. *)
Theorem only_struct_error_escapes
  {P : Type} {SP : Serial P} (utf8_decode : bytes -> option string)
  (c : FT232RL_PandaAdapter.call) (self : FT232RL_PandaAdapter.t P) :
  match c with
  | FT232RL_PandaAdapter.Disconnect | FT232RL_PandaAdapter.Close => True
  | FT232RL_PandaAdapter.SetSafetyMode _ _
  | FT232RL_PandaAdapter.SetCanSpeedKbps _ _
  | FT232RL_PandaAdapter.CanSendMany _ _
  | FT232RL_PandaAdapter.CanSend _ _ _ _ =>
      escapes utf8_decode c self = None \/
      (escapes utf8_decode c self = Some StructError /\
       FT232RL_PandaAdapter.run utf8_decode c self = self)
  | _ => escapes utf8_decode c self = None
  end.
Proof.
  destruct c as [ | | | | |mode param|bus speed| |can_messages timeout| |addr data bus timeout| | ];
    cbn [escapes FT232RL_PandaAdapter.run].
  - apply raised_returns, connect_returns.
  - exact I.
  - apply raised_returns, reset_returns.
  - apply raised_returns, get_version_returns.
  - apply raised_returns, health_returns.
  - apply raised_struct. intros e self'. apply command_raises.
    intros e0 self0. apply control_transfer_raises.
  - apply raised_struct. intros e self'. apply command_raises.
    intros e0 self0. apply control_transfer_raises.
  - apply raised_returns, send_heartbeat_returns.
  - apply raised_struct. intros e self'. apply can_send_many_raises.
  - apply raised_returns, can_recv_returns.
  - apply raised_struct. intros e self'. apply can_send_raises.
  - apply raised_returns. intros s. unfold FT232RL_PandaAdapter.get_stats,
      FT232RL_PandaAdapter.bind, FT232RL_PandaAdapter.get, FT232RL_PandaAdapter.ret. eauto.
  - exact I.
Qed.

(** ** [connect] and [disconnect] *)

(** X16.  [connect] returns False, and leaves the adapter object as it was,
    exactly when [serial.Serial(...)] raises.  Otherwise it returns True,
    whether or not the device answers the reset it sends: the adapter is
    then connected and holds the new serial object (a serial object it held
    before is replaced without being closed), and its state is the one the
    reset leaves. *)
Theorem connect_result {P : Type} {SP : Serial P} (self : FT232RL_PandaAdapter.t P) :
  match Serial_new (FT232RL_PandaAdapter.port self) (FT232RL_PandaAdapter.baudrate self)
          (FT232RL_PandaAdapter.timeout self) with
  | Raises _ => FT232RL_PandaAdapter.connect self = (Returns false, self)
  | Returns s =>
      FT232RL_PandaAdapter.connect self
      = (Returns true,
         snd (FT232RL_PandaAdapter.reset
                (FT232RL_PandaAdapter.set_connected true
                   (FT232RL_PandaAdapter.set_serial (Some s) self)))) /\
      FT232RL_PandaAdapter.connected (snd (FT232RL_PandaAdapter.connect self)) = true /\
      FT232RL_PandaAdapter.is_Some
        (FT232RL_PandaAdapter.serial (snd (FT232RL_PandaAdapter.connect self))) = true
  end.
Proof.
  unfold FT232RL_PandaAdapter.connect, FT232RL_PandaAdapter.bind,
    FT232RL_PandaAdapter.get, FT232RL_PandaAdapter.try_except, FT232RL_PandaAdapter.lift,
    FT232RL_PandaAdapter.modify, FT232RL_PandaAdapter.ret.
  destruct (Serial_new _ _ _) as [s|e]; [|reflexivity].
  set (self1 := FT232RL_PandaAdapter.set_connected true
                  (FT232RL_PandaAdapter.set_serial (Some s) self)).
  pose proof (config_reset self1) as (_ & Hc & Hs).
  destruct (reset_returns self1) as (b & self2 & E).
  rewrite E in *. cbn [snd] in *.
  split; [reflexivity|]. split; [rewrite <- Hc | rewrite <- Hs]; reflexivity.
Qed.

(** X17.  [disconnect] never forgets the serial object, and it clears the
    connected flag unless [serial.close()] raises: then the exception leaves
    the method and the adapter still says it is connected. *)
Theorem disconnect_result {P : Type} {SP : Serial P} (self : FT232RL_PandaAdapter.t P) :
  (forall self',
      FT232RL_PandaAdapter.disconnect self = (Returns tt, self') ->
      FT232RL_PandaAdapter.connected self' = false /\
      FT232RL_PandaAdapter.is_Some (FT232RL_PandaAdapter.serial self')
      = FT232RL_PandaAdapter.is_Some (FT232RL_PandaAdapter.serial self)) /\
  (forall e self',
      FT232RL_PandaAdapter.disconnect self = (Raises e, self') ->
      FT232RL_PandaAdapter.connected self' = FT232RL_PandaAdapter.connected self /\
      exists p p',
        FT232RL_PandaAdapter.serial self = Some p /\ ser_is_open p = true /\
        ser_close p = (Raises e, p') /\
        self' = FT232RL_PandaAdapter.set_serial (Some p') self) /\
  (forall p,
      FT232RL_PandaAdapter.serial self = Some p -> ser_is_open p = false ->
      FT232RL_PandaAdapter.disconnect self
      = (Returns tt, FT232RL_PandaAdapter.set_connected false self)).
Proof.
  unfold FT232RL_PandaAdapter.disconnect, FT232RL_PandaAdapter.bind,
    FT232RL_PandaAdapter.get, FT232RL_PandaAdapter.on_serial,
    FT232RL_PandaAdapter.modify, FT232RL_PandaAdapter.ret.
  destruct (FT232RL_PandaAdapter.serial self) as [p|] eqn:Hs.
  - destruct (ser_is_open p) eqn:Ho.
    + rewrite Hs. destruct (ser_close p) as [[[]|e] p'] eqn:Hc.
      * split; [|split].
        -- intros self' H. injection H as <-. destruct self; cbn in *. split; reflexivity.
        -- intros e self' H. discriminate.
        -- intros q Hq Hq'. injection Hq as <-. congruence.
      * split; [|split].
        -- intros self' H. discriminate.
        -- intros e0 self' H. injection H as <- <-. split; [destruct self; reflexivity|].
           exists p, p'. repeat split; try reflexivity; assumption.
        -- intros q Hq Hq'. injection Hq as <-. congruence.
    + split; [|split].
      * intros self' H. injection H as <-. destruct self; cbn in *. subst. split; reflexivity.
      * intros e self' H. discriminate.
      * intros q Hq _. reflexivity.
  - split; [|split].
    + intros self' H. injection H as <-. destruct self; cbn in *. subst. split; reflexivity.
    + intros e self' H. discriminate.
    + intros q Hq. discriminate.
Qed.

(** ** Arguments that do not fit *)

Lemma range_test (v hi : Z) : (0 <=? v) && (v <=? hi) = true <-> 0 <= v <= hi.
Proof. rewrite andb_true_iff, !Z.leb_le. reflexivity. Qed.

(** X18.  [set_safety_mode] and [set_can_speed_kbps] raise struct.error when
    one of their two arguments is outside 0..65535, before any frame is
    built or sent: the adapter object is as it was. *)
Theorem commands_reject_wide_arguments
  {P : Type} {SP : Serial P} (a b : Z) (self : FT232RL_PandaAdapter.t P) :
  ~ (0 <= a <= 65535 /\ 0 <= b <= 65535) ->
  FT232RL_PandaAdapter.set_safety_mode a b self = (Raises StructError, self) /\
  FT232RL_PandaAdapter.set_can_speed_kbps a b self = (Raises StructError, self).
Proof.
  intros Hout.
  assert (Hp : forall rt rq, 0 <= rt <= 255 -> 0 <= rq <= 255 ->
                             PyStruct.pack_BBHH rt rq a b = Raises StructError).
  { intros rt rq Hrt Hrq. unfold PyStruct.pack_BBHH, PyStruct.pack_H.
    rewrite !pack_B_ok by lia. cbn [obind].
    destruct ((0 <=? a) && (a <=? 65535)) eqn:Ha; cbn [obind]; [|reflexivity].
    destruct ((0 <=? b) && (b <=? 65535)) eqn:Hb; cbn [obind]; [|reflexivity].
    exfalso. apply Hout. apply range_test in Ha. apply range_test in Hb.
    split; assumption. }
  unfold FT232RL_PandaAdapter.set_safety_mode, FT232RL_PandaAdapter.set_can_speed_kbps,
    FT232RL_PandaAdapter._control_transfer, FT232RL_PandaAdapter.bind,
    FT232RL_PandaAdapter.lift.
  rewrite !Hp by (vm_compute; split; discriminate).
  split; reflexivity.
Qed.

(** [set_can_speed_kbps(0, 70000)] on a connected adapter. *)
Lemma commands_reject_wide_arguments_witness :
  FT232RL_PandaAdapter.set_safety_mode (SP := Examples.api) 0 70000
    (Examples.adapter_on (ScriptedPort.quiet 64))
  = (Raises StructError, Examples.adapter_on (ScriptedPort.quiet 64)) /\
  FT232RL_PandaAdapter.set_can_speed_kbps (SP := Examples.api) 0 70000
    (Examples.adapter_on (ScriptedPort.quiet 64))
  = (Raises StructError, Examples.adapter_on (ScriptedPort.quiet 64)).
Proof.
  apply (commands_reject_wide_arguments (SP := Examples.api) 0 70000
           (Examples.adapter_on (ScriptedPort.quiet 64))).
  lia.
Defined.

(** ** [_send_frame], when the flush fails *)

(** X19.  When the port takes the bytes of a frame and the flush then
    raises, [_send_frame] returns False and counts one error; the frame is
    not counted in frames_sent, its bytes are not counted in bytes_sent, and
    the sequence number is not advanced: the next frame carries the same
    one. *)
Theorem send_frame_flush_raises
  {P : Type} {SP : Serial P}
  (frame : FT232RL_Frame.t) (self : FT232RL_PandaAdapter.t P)
  (p p1 p2 : P) (data : bytes) (n : nat) (e : exn) :
  FT232RL_PandaAdapter.connected self = true ->
  FT232RL_PandaAdapter.serial self = Some p ->
  FT232RL_Frame.pack
    (FT232RL_Frame.set_sequence (FT232RL_PandaAdapter.sequence_tx self) frame)
  = Returns data ->
  ser_write data p = (Returns n, p1) ->
  ser_flush p1 = (Raises e, p2) ->
  FT232RL_PandaAdapter._send_frame frame self
  = (Returns false,
     FT232RL_PandaAdapter.set_errors (FT232RL_PandaAdapter.errors self + 1)
       (FT232RL_PandaAdapter.set_serial (Some p2) self)).
Proof.
  intros Hconn Hser Hpack Hwrite Hflush.
  unfold FT232RL_PandaAdapter._send_frame, FT232RL_PandaAdapter.bind,
    FT232RL_PandaAdapter.get, FT232RL_PandaAdapter.try_except, FT232RL_PandaAdapter.lift,
    FT232RL_PandaAdapter.on_serial, FT232RL_PandaAdapter.modify, FT232RL_PandaAdapter.ret.
  rewrite Hconn, Hser. cbn [negb orb FT232RL_PandaAdapter.is_Some].
  rewrite Hpack, Hser, Hwrite.
  destruct self; cbn in *. rewrite Hflush. reflexivity.
Qed.

(** An empty BULK_IN frame written to a port that went away before the
    flush. *)
Lemma send_frame_flush_raises_witness :
  FT232RL_PandaAdapter._send_frame (SP := unplugged_api) Examples.empty_bulk_in
    (Examples.adapter_on (ScriptedPort.quiet 64))
  = (Returns false,
     FT232RL_PandaAdapter.set_errors
       (FT232RL_PandaAdapter.errors (Examples.adapter_on (ScriptedPort.quiet 64)) + 1)
       (FT232RL_PandaAdapter.set_serial
          (Some (ScriptedPort.mk [] [xaa; x01; x00; x00; x00; xab] 64 false 1%Q true))
          (Examples.adapter_on (ScriptedPort.quiet 64)))).
Proof.
  apply (send_frame_flush_raises (SP := unplugged_api) Examples.empty_bulk_in
           (Examples.adapter_on (ScriptedPort.quiet 64))
           (ScriptedPort.quiet 64)
           (ScriptedPort.mk [] [xaa; x01; x00; x00; x00; xab] 64 false 1%Q true)
           (ScriptedPort.mk [] [xaa; x01; x00; x00; x00; xab] 64 false 1%Q true)
           [xaa; x01; x00; x00; x00; xab] 6 SerialException).
  - reflexivity.
  - reflexivity.
  - reflexivity.
  - reflexivity.
  - reflexivity.
Defined.

(** ** How many messages one call sends *)

(** The packing loop stops at the first message it meets with more than 230
    bytes packed; every message before took at least six bytes. *)
Lemma pack_loop_count (can_messages : list CANMessage.t) :
  forall (packed_data : bytes) (count : Z) (out : bytes) (n : Z),
    CANCodec.pack_loop can_messages packed_data count = Returns (out, n) ->
    count <= n <= count + len can_messages /\
    (n = count \/ 6 * (n - count - 1) + len packed_data <= 230) /\
    (n < count + len can_messages -> 230 < len out) /\
    len out <= len packed_data + 21 * (n - count) /\
    (Forall (fun m => len (CANMessage.data m) <= 8) can_messages ->
     len out <= len packed_data + 14 * (n - count)).
Proof.
  induction can_messages as [|msg rest IH]; intros packed_data count out n;
    cbn [CANCodec.pack_loop].
  - intros H. apply Returns_inj in H. injection H as <- <-.
    change (len (@nil CANMessage.t)) with 0.
    repeat split; lia.
  - rewrite len_cons. pose proof (len_nonneg rest) as Hr.
    destruct (Z.gtb_spec (len packed_data + 20) 250) as [Hfull|Hroom].
    + intros H. apply Returns_inj in H. injection H as <- <-.
      repeat split; lia.
    + destruct (CANCodec.pack_message msg) as [enc|e] eqn:Henc; cbn [obind]; [|discriminate].
      intros H. apply IH in H. rewrite len_app in H.
      destruct (pack_message_len_bounds msg enc Henc) as [Hb Hc].
      destruct H as (H1 & H2 & H3 & H4 & H5).
      split; [lia|]. split; [right; lia|]. split; [intros; apply H3; lia|].
      split; [lia|].
      intros Hall. rewrite Forall_cons_iff in Hall. destruct Hall as [Hm Hall].
      specialize (H5 Hall). specialize (Hc Hm). lia.
Qed.

Lemma pack_messages_count (can_messages : list CANMessage.t) (packed_data : bytes) (count : Z) :
  CANCodec.pack_messages can_messages = Returns (packed_data, count) ->
  Z.min (len can_messages) 11 <= count <= Z.min (len can_messages) 39 /\
  (Forall (fun m => len (CANMessage.data m) <= 8) can_messages ->
   Z.min (len can_messages) 17 <= count).
Proof.
  unfold CANCodec.pack_messages. intros H.
  apply pack_loop_count in H. change (len (@nil byte)) with 0 in H.
  destruct H as (H1 & H2 & H3 & H4 & H5).
  split; [lia|]. intros Hall. specialize (H5 Hall). lia.
Qed.

Lemma send_frame_step {P : Type} {SP : Serial P}
  (frame : FT232RL_Frame.t) (self : FT232RL_PandaAdapter.t P) :
  FT232RL_PandaAdapter.frames_sent (snd (FT232RL_PandaAdapter._send_frame frame self))
  <= FT232RL_PandaAdapter.frames_sent self + 1.
Proof.
  unfold FT232RL_PandaAdapter._send_frame, FT232RL_PandaAdapter.bind,
    FT232RL_PandaAdapter.get, FT232RL_PandaAdapter.try_except, FT232RL_PandaAdapter.lift,
    FT232RL_PandaAdapter.on_serial, FT232RL_PandaAdapter.modify, FT232RL_PandaAdapter.ret.
  destruct (negb _ || negb _); cbn [snd]; [lia|].
  destruct (FT232RL_Frame.pack _) as [data|e]; [|destruct self; cbn; lia].
  destruct (FT232RL_PandaAdapter.serial self) as [p|] eqn:Hs; [|destruct self; cbn; lia].
  destruct (ser_write data p) as [[n|e] p1]; [|destruct self; cbn; lia].
  destruct self; cbn.
  destruct (ser_flush p1) as [[[]|e] p2]; cbn; lia.
Qed.



(** ** The messages the packing loop takes *)

Lemma lt_pow2_log2 (x n : Z) : 0 <= x -> 0 < n -> (x < 2 ^ n <-> Z.log2 x < n).
Proof.
  intros Hx Hn. destruct (Z.eq_dec x 0) as [->|Hne].
  - change (Z.log2 0) with 0. pose proof (Z.pow_pos_nonneg 2 n). lia.
  - apply Z.log2_lt_pow2. lia.
Qed.

(** A bitwise or fits [n] bits exactly when both operands do. *)
Lemma lor_range (a b n : Z) :
  0 < n -> (0 <= Z.lor a b < 2 ^ n <-> (0 <= a < 2 ^ n /\ 0 <= b < 2 ^ n)).
Proof.
  intros Hn. rewrite (and_comm (0 <= Z.lor a b)). 
  split.
  - intros [Hlt Hnn]. apply Z.lor_nonneg in Hnn. destruct Hnn as [Ha Hb].
    apply lt_pow2_log2 in Hlt; [|apply Z.lor_nonneg; split; assumption|assumption].
    rewrite Z.log2_lor in Hlt by assumption.
    split; (split; [assumption|]); apply lt_pow2_log2; lia.
  - intros [[Ha Ha'] [Hb Hb']]. split.
    + apply lt_pow2_log2; [apply Z.lor_nonneg; split; assumption|assumption|].
      rewrite Z.log2_lor by assumption.
      apply lt_pow2_log2 in Ha'; [|assumption|assumption].
      apply lt_pow2_log2 in Hb'; [|assumption|assumption]. lia.
    + apply Z.lor_nonneg. split; assumption.
Qed.

Lemma header0_range (dlc bus : Z) (fd : bool) :
  0 <= dlc <= 15 ->
  (0 <= Z.lor (Z.lor (Z.shiftl dlc 4) (Z.shiftl bus 1)) (if fd then 1 else 0) <= 255
   <-> 0 <= bus <= 127).
Proof.
  intros Hd.
  assert (E : forall x, x <= 255 <-> x < 2 ^ 8) by (intros x; change (2 ^ 8) with 256; lia).
  rewrite E, lor_range, lor_range by lia.
  rewrite !Z.shiftl_mul_pow2 by lia. change (2 ^ 8) with 256.
  change (2 ^ 4) with 16. change (2 ^ 1) with 2.
  destruct fd; lia.
Qed.

Lemma tagged_range (addr : Z) (ext : bool) :
  0 <= Z.lor addr (if ext then Z.shiftl 1 30 else 0) <= 4294967295
  <-> 0 <= addr <= 4294967295.
Proof.
  assert (E : forall x, x <= 4294967295 <-> x < 2 ^ 32)
    by (intros x; change (2 ^ 32) with 4294967296; lia).
  rewrite E, lor_range by lia. change (2 ^ 32) with 4294967296.
  destruct ext; [change (Z.shiftl 1 30) with 1073741824|]; lia.
Qed.

(** X21.  The packing loop of [can_send_many] takes a message exactly when
    its bus number is in 0..127 and its address in 0..2^32-1; otherwise
    struct.error is raised.  Data of any length is taken, and so is a bus
    number from 8 to 127, which does not fit the three bits the header byte
    has for it. *)
Theorem pack_message_accepts (msg : CANMessage.t) :
  (0 <= CANMessage.bus msg <= 127 /\ 0 <= CANMessage.addr msg <= 4294967295 ->
   exists enc, CANCodec.pack_message msg = Returns enc) /\
  (~ (0 <= CANMessage.bus msg <= 127 /\ 0 <= CANMessage.addr msg <= 4294967295) ->
   CANCodec.pack_message msg = Raises StructError).
Proof.
  pose proof (len_nonneg (CANMessage.data msg)) as Hl.
  assert (Hd : 0 <= (if len (CANMessage.data msg) >? 8 then 15
                     else len (CANMessage.data msg)) <= 15).
  { destruct (Z.gtb_spec (len (CANMessage.data msg)) 8); lia. }
  pose proof (header0_range _ (CANMessage.bus msg) (CANMessage.fd msg) Hd) as Hh.
  pose proof (tagged_range (CANMessage.addr msg) (CANMessage.extended msg)) as Ha.
  destruct (CANCodec.pack_message msg) as [enc|e] eqn:Epm.
  - split; [eauto|]. intros Hn. exfalso. apply Hn.
    unfold CANCodec.pack_message, PyStruct.pack_I in Epm. cbv zeta in Epm.
    destruct ((0 <=? Z.lor (CANMessage.addr msg) _) && (_ <=? 4294967295)) eqn:Ea;
      cbn [obind] in Epm; [|discriminate].
    unfold PyStruct.pack_B at 1 in Epm.
    destruct ((0 <=? Z.lor (Z.lor _ _) _) && (_ <=? 255)) eqn:Eh;
      cbn [obind] in Epm; [|discriminate].
    apply range_test in Ea. apply range_test in Eh. tauto.
  - split; [|intros _; f_equal; eapply pack_message_raises; exact Epm].
    intros [Hb Haddr]. exfalso.
    apply Hh in Hb. apply Ha in Haddr. apply range_test in Hb. apply range_test in Haddr.
    unfold CANCodec.pack_message, PyStruct.pack_I in Epm. cbv zeta in Epm.
    rewrite Haddr in Epm. cbn [obind] in Epm.
    unfold PyStruct.pack_B at 1 in Epm. rewrite Hb in Epm. cbn [obind] in Epm.
    rewrite pack_B_ok in Epm by apply xor_bytes_range. cbn [obind] in Epm.
    discriminate.
Qed.

(** ** A batch through both loops *)

Lemma index_app_len {A : Type} (pre : list A) (x : A) (tl : list A) :
  index (pre ++ x :: tl) (len pre) = Some x.
Proof.
  unfold index, len.
  replace (Z.of_nat (List.length pre) <? 0) with false by (symmetry; apply Z.ltb_ge; lia).
  rewrite Nat2Z.id. rewrite nth_error_app2 by lia.
  rewrite Nat.sub_diag. reflexivity.
Qed.

Lemma slice_app_len {A : Type} (pre l : list A) (i j : Z) :
  0 <= i -> slice (pre ++ l) (len pre + i) (len pre + j) = slice l i j.
Proof.
  intros Hi. unfold slice, len.
  replace (Z.of_nat (List.length pre) + j - (Z.of_nat (List.length pre) + i)) with (j - i)
    by lia.
  f_equal.
  replace (Z.to_nat (Z.of_nat (List.length pre) + i))
    with (List.length pre + Z.to_nat i)%nat by lia.
  rewrite skipn_app.
  rewrite (skipn_all2 pre) by lia.
  replace (List.length pre + Z.to_nat i - List.length pre)%nat with (Z.to_nat i) by lia.
  reflexivity.
Qed.

(** The record the packing loop writes for a classic message. *)
Lemma pack_message_classic (m : CANMessage.t) :
  classic m ->
  exists (h a0 a1 a2 a3 ck : byte),
    CANCodec.pack_message m
    = Returns (h :: a0 :: a1 :: a2 :: a3 :: CANMessage.data m ++ [ck]) /\
    Z.land (Z.shiftr (byte_val h) 4) 0xF = len (CANMessage.data m) /\
    Z.land (Z.shiftr (byte_val h) 1) 0x7 = CANMessage.bus m /\
    negb (Z.land (byte_val h) 0x1 =? 0) = CANMessage.fd m /\
    exists v,
      PyStruct.unpack_I [a0; a1; a2; a3] = Returns v /\
      negb (Z.land v (Z.shiftl 1 30) =? 0) = CANMessage.extended m /\
      (if CANMessage.extended m then Z.land v 0x1FFFFFFF
       else Z.land (Z.shiftr v 18) 0x7FF)
      = (if CANMessage.extended m
         then Z.land (CANMessage.addr m) 0x1FFFFFFF
         else Z.land (Z.shiftr (CANMessage.addr m) 18) 0x7FF).
Proof.
  destruct m as [addr data bus ext fd]. unfold classic.
  cbn [CANMessage.addr CANMessage.data CANMessage.bus CANMessage.extended CANMessage.fd].
  intros (Hlen & Hbus & Haddr).
  pose proof (len_nonneg data) as Hl.
  destruct (tagged_address addr ext Haddr) as (Hv & Hext & Hmask & Hstd).
  destruct (header_fields (len data) bus fd ltac:(lia) Hbus)
    as (Hh & Hdlc & Hhbus & Hfd & Htable).
  set (v := Z.lor addr (if ext then Z.shiftl 1 30 else 0)) in *.
  set (header0 := Z.lor (Z.lor (Z.shiftl (len data) 4) (Z.shiftl bus 1))
                    (if fd then 1 else 0)) in *.
  destruct (PyStruct.pack_I v) as [addr_bytes|e] eqn:Hpack.
  2:{ unfold PyStruct.pack_I in Hpack.
      replace ((0 <=? v) && (v <=? 4294967295)) with true in Hpack; [discriminate|].
      symmetry. apply andb_true_iff. split; apply Z.leb_le; lia. }
  pose proof (unpack_pack_I v addr_bytes Hpack) as Hunpack.
  assert (Hab : exists a0 a1 a2 a3, addr_bytes = [a0; a1; a2; a3]).
  { unfold PyStruct.pack_I in Hpack.
    destruct ((0 <=? v) && (v <=? 4294967295)); [|discriminate].
    apply Returns_inj in Hpack. subst addr_bytes. eauto. }
  destruct Hab as (a0 & a1 & a2 & a3 & ->).
  exists (byte_of_Z header0), a0, a1, a2, a3,
    (byte_of_Z (xor_bytes 0 ([byte_of_Z header0] ++ [a0; a1; a2; a3] ++ data))).
  rewrite (byte_val_of_Z_small header0 Hh).
  split.
  { unfold CANCodec.pack_message.
    cbn [CANMessage.addr CANMessage.data CANMessage.bus CANMessage.extended CANMessage.fd].
    rewrite (gtb_false (len data) 8 Hlen).
    fold v. rewrite Hpack. cbn [obind]. fold header0.
    rewrite pack_B_ok by exact Hh. cbn [obind].
    rewrite pack_B_ok by apply xor_bytes_range. cbn [obind].
    change (slice [a0; a1; a2; a3] 0 4) with [a0; a1; a2; a3].
    rewrite slice_from_0, firstn_len. reflexivity. }
  split; [exact Hdlc|]. split; [exact Hhbus|]. split; [exact Hfd|].
  exists v. split; [exact Hunpack|]. split; [exact Hext|].
  destruct ext; [exact Hmask | rewrite (Hstd eq_refl); reflexivity].
Qed.

(** One iteration of the parsing loop, at a record of the packing loop. *)
Lemma parse_record (m : CANMessage.t) (enc : bytes) :
  classic m ->
  CANCodec.pack_message m = Returns enc ->
  exists m',
    echoes m m' /\
    forall (fuel : nat) (pre rest : bytes) (acc : list CANMessage.t),
      CANCodec.parse_loop (S fuel) (pre ++ enc ++ rest) (len pre) acc
      = CANCodec.parse_loop fuel (pre ++ enc ++ rest) (len pre + len enc) (acc ++ [m']).
Proof.
  intros Hc Henc.
  destruct (pack_message_classic m Hc)
    as (h & a0 & a1 & a2 & a3 & ck & Hrec & Hdlc & Hbus & Hfd & v & Hun & Hext & Haddr).
  rewrite Hrec in Henc. apply Returns_inj in Henc. subst enc.
  destruct Hc as (Hlen & _ & _).
  set (d := CANMessage.data m) in *.
  pose proof (len_nonneg d) as Hd.
  set (rec := h :: a0 :: a1 :: a2 :: a3 :: d ++ [ck]).
  assert (Hreclen : len rec = 6 + len d).
  { unfold rec. rewrite !len_cons, len_app, len_cons. change (len (@nil byte)) with 0. lia. }
  exists (CANMessage.mk
            (if negb (Z.land v (Z.shiftl 1 30) =? 0) then Z.land v 0x1FFFFFFF
             else Z.land (Z.shiftr v 18) 0x7FF)
            (skipn 1 (d ++ [ck]))
            (Z.land (Z.shiftr (byte_val h) 1) 0x7)
            (negb (Z.land v (Z.shiftl 1 30) =? 0))
            (negb (Z.land (byte_val h) 0x1 =? 0))).
  split.
  { unfold echoes.
    cbn [CANMessage.addr CANMessage.data CANMessage.bus CANMessage.extended CANMessage.fd].
    split; [exact Hbus|]. split; [exact Hext|]. split; [exact Hfd|].
    split; [rewrite Hext; exact Haddr|].
    exists ck. reflexivity. }
  intros fuel pre rest acc.
  pose proof (len_nonneg pre) as Hp. pose proof (len_nonneg rest) as Hr.
  assert (Htot : len (pre ++ rec ++ rest) = len pre + 6 + len d + len rest).
  { rewrite !len_app, Hreclen. lia. }
  assert (Hdata : slice (pre ++ rec ++ rest) (len pre + 6) (len pre + 6 + len d)
                  = skipn 1 (d ++ [ck])).
  { replace (len pre + 6 + len d) with (len pre + (6 + len d)) by lia.
    rewrite (slice_app_len pre (rec ++ rest) 6 (6 + len d)) by lia.
    unfold slice, rec. replace (6 + len d - 6) with (len d) by lia.
    change (Z.to_nat 6) with 6%nat.
    destruct d as [|d0 ds].
    - reflexivity.
    - cbn [app skipn]. rewrite len_cons.
      replace (Z.to_nat (1 + len ds)) with (List.length (ds ++ [ck]) + 0)%nat.
      + rewrite firstn_app_2. cbn [firstn]. apply app_nil_r.
      + rewrite length_app. unfold len. cbn [List.length]. lia. }
  rewrite parse_loop_S.
  replace (len pre + 6 <=? len (pre ++ rec ++ rest)) with true
    by (symmetry; apply Z.leb_le; lia).
  assert (Hidx : index (pre ++ rec ++ rest) (len pre) = Some h).
  { unfold rec. cbn [app]. apply index_app_len. }
  rewrite Hidx. cbv beta iota zeta.
  rewrite (geb_false (len pre + 5) (len (pre ++ rec ++ rest))) by lia.
  rewrite (slice_app_len pre (rec ++ rest) 1 5) by lia.
  change (slice (rec ++ rest) 1 5) with [a0; a1; a2; a3].
  rewrite Hun. cbn [obind].
  rewrite Hdlc. change (len CANCodec.dlc_to_len) with 16.
  replace (len d <? 16) with true by (symmetry; apply Z.ltb_lt; lia).
  assert (Htable : index CANCodec.dlc_to_len (len d) = Some (len d)).
  { assert (C : len d = 0 \/ len d = 1 \/ len d = 2 \/ len d = 3 \/ len d = 4
                \/ len d = 5 \/ len d = 6 \/ len d = 7 \/ len d = 8) by lia.
    repeat (destruct C as [->|C]); try rewrite C; reflexivity. }
  rewrite Htable. cbn [obind].
  rewrite (gtb_false (len pre + 6 + len d) (len (pre ++ rec ++ rest))) by lia.
  rewrite Hdata, Hreclen.
  replace (len pre + (6 + len d)) with (len pre + 6 + len d) by lia.
  reflexivity.
Qed.

(** The parsing loop on the records of a batch of classic messages. *)
Lemma parse_packed (ms : list CANMessage.t) (wire : bytes) :
  packed_from ms wire ->
  Forall classic ms ->
  exists ms',
    Forall2 echoes ms ms' /\
    forall (fuel : nat) (pre : bytes) (acc : list CANMessage.t),
      (List.length ms < fuel)%nat ->
      CANCodec.parse_loop fuel (pre ++ wire) (len pre) acc = Returns (acc ++ ms').
Proof.
  induction 1 as [|msg msgs enc rest Henc Hrest IH]; intros Hall.
  - exists []. split; [constructor|].
    intros fuel pre acc Hfuel. destruct fuel as [|fuel]; [inversion Hfuel|].
    rewrite parse_loop_S, !app_nil_r.
    replace (len pre + 6 <=? len pre) with false by (symmetry; apply Z.leb_gt; lia).
    reflexivity.
  - rewrite Forall_cons_iff in Hall. destruct Hall as [Hc Hall].
    destruct (IH Hall) as (ms' & Hecho & Hparse).
    destruct (parse_record msg enc Hc Henc) as (m' & Hm' & Hstep).
    exists (m' :: ms'). split; [constructor; assumption|].
    intros fuel pre acc Hfuel. destruct fuel as [|fuel]; [inversion Hfuel|].
    cbn [List.length] in Hfuel.
    rewrite Hstep.
    rewrite <- len_app. rewrite (app_assoc pre enc rest).
    rewrite Hparse by lia.
    rewrite <- app_assoc. reflexivity.
Qed.

Lemma packed_from_length (ms : list CANMessage.t) (wire : bytes) :
  packed_from ms wire -> (List.length ms <= List.length wire)%nat.
Proof.
  induction 1 as [|msg msgs enc rest Henc Hrest IH]; [cbn; lia|].
  destruct (pack_message_len_bounds msg enc Henc) as [Hb _].
  rewrite length_app. unfold len in Hb. cbn [List.length]. lia.
Qed.

Lemma Forall_firstn_keep {A : Type} (Q : A -> Prop) (n : nat) (l : list A) :
  Forall Q l -> Forall Q (firstn n l).
Proof.
  intros H. revert n. induction H as [|x l Hx Hl IH]; intros [|n]; cbn [firstn];
    constructor; auto.
Qed.



(** ** A request and its response *)

Section Exchange.
Import FT232RL_PandaAdapter.
Context {P : Type} {SP : Serial P}.

Lemma sent_state_facts (self : t P) (p2 : P) (n : Z) :
  connected (sent_state self p2 n) = connected self /\
  serial (sent_state self p2 n) = Some p2 /\
  frames_received (sent_state self p2 n) = frames_received self /\
  bytes_received (sent_state self p2 n) = bytes_received self.
Proof. destruct self. repeat split; reflexivity. Qed.

(** A frame is written whole, and a packed frame is read back whole. *)
Lemma send_then_receive
  (frame : FT232RL_Frame.t) (tmo : Q) (self : t P) (p p1 p2 p3 p4 p5 p6 : P)
  (request : bytes) (ft seq fl : Z) (pl : bytes) (f : FT232RL_Frame.t) (wire : bytes) :
  connected self = true ->
  serial self = Some p ->
  FT232RL_Frame.pack (FT232RL_Frame.set_sequence (sequence_tx self) frame) = Returns request ->
  ser_write request p = (Returns (List.length request), p1) ->
  ser_flush p1 = (Returns tt, p2) ->
  0 <= ft <= 255 -> 0 <= seq <= 255 -> 0 <= fl <= 255 -> len pl <= 255 ->
  FT232RL_Frame.__init__ ft seq pl fl = Returns f ->
  FT232RL_Frame.pack f = Returns wire ->
  ser_set_timeout tmo p2 = (Returns tt, p3) ->
  ser_read 6 p3 = (Returns (firstn 6 wire), p4) ->
  (if len pl >? 0 then ser_read (len pl) p4 else (Returns [], p4)) = (Returns pl, p5) ->
  ser_set_timeout (ser_timeout p2) p5 = (Returns tt, p6) ->
  _send_frame frame self = (Returns true, sent_state self p2 (len request)) /\
  _receive_frame (Some tmo) (sent_state self p2 (len request))
  = (Returns (Some f), received_state self p2 p6 (len request) (len wire)) /\
  FT232RL_Frame.frame_type f = ft /\ FT232RL_Frame.payload f = pl.
Proof.
  intros Hconn Hser Hreq Hwrite Hflush Hft Hseq Hfl Hpl Hinit Hpack Hset Hread Hpay Hrestore.
  split; [|split].
  - rewrite (send_frame_written frame self p p1 p2 request (List.length request))
      by assumption.
    unfold len. rewrite Z.eqb_refl. reflexivity.
  - rewrite (receive_frame_intact (Some tmo) (sent_state self p2 (len request))
               p2 p3 p4 p5 p6 ft seq fl pl f wire); try assumption.
    + unfold received_state.
      destruct (sent_state_facts self p2 (len request)) as (_ & _ & -> & ->).
      reflexivity.
    + apply sent_state_facts.
  - pose proof (len_nonneg pl) as Hl.
    rewrite FrameFacts.init_ok in Hinit by lia.
    apply Returns_inj in Hinit. subst f. split; reflexivity.
Qed.

Lemma received_state_facts (self : t P) (p2 p6 : P) (n n' : Z) :
  let self' := received_state self p2 p6 n n' in
  serial self' = Some p6 /\
  connected self' = connected self /\
  sequence_tx self' = Z.land (sequence_tx self + 1) 0xFF /\
  frames_sent self' = frames_sent self + 1 /\
  bytes_sent self' = bytes_sent self + n /\
  frames_received self' = frames_received self + 1 /\
  bytes_received self' = bytes_received self + n' /\
  errors self' = errors self.
Proof. destruct self. cbn. repeat split; reflexivity. Qed.

Lemma can_recv_exchange
  (self : t P) (p p1 p2 p3 p4 p5 p6 : P)
  (request : bytes) (ft seq fl : Z) (pl : bytes) (f : FT232RL_Frame.t) (wire : bytes) :
  connected self = true ->
  serial self = Some p ->
  FT232RL_Frame.pack (FT232RL_Frame.set_sequence (sequence_tx self) Examples.empty_bulk_in)
  = Returns request ->
  ser_write request p = (Returns (List.length request), p1) ->
  ser_flush p1 = (Returns tt, p2) ->
  0 <= ft <= 255 -> 0 <= seq <= 255 -> 0 <= fl <= 255 -> len pl <= 255 ->
  FT232RL_Frame.__init__ ft seq pl fl = Returns f ->
  FT232RL_Frame.pack f = Returns wire ->
  ser_set_timeout 2%Q p2 = (Returns tt, p3) ->
  ser_read 6 p3 = (Returns (firstn 6 wire), p4) ->
  (if len pl >? 0 then ser_read (len pl) p4 else (Returns [], p4)) = (Returns pl, p5) ->
  ser_set_timeout (ser_timeout p2) p5 = (Returns tt, p6) ->
  can_recv self
  = ((if ft =? FT232RL_Frame.FRAME_BULK_IN then CANCodec.parse_messages pl else Returns []),
     received_state self p2 p6 (len request) (len wire)).
Proof.
  intros Hconn Hser Hreq Hwrite Hflush Hft Hseq Hfl Hpl Hinit Hpack Hset Hread Hpay Hrestore.
  destruct (send_then_receive Examples.empty_bulk_in 2%Q self p p1 p2 p3 p4 p5 p6
              request ft seq fl pl f wire)
    as (Hsend & Hrecv & Hty & Hpayload); try assumption.
  unfold can_recv. unfold bind at 1. unfold lift at 1.
  change (FT232RL_Frame.__init__ FT232RL_Frame.FRAME_BULK_IN 0 [] 0)
    with (Returns Examples.empty_bulk_in).
  cbv beta iota. unfold bind at 1. rewrite Hsend. cbn [negb].
  unfold bind. rewrite Hrecv. rewrite Hty, Hpayload.
  destruct (ft =? FT232RL_Frame.FRAME_BULK_IN); reflexivity.
Qed.

Lemma control_transfer_exchange
  (request_type req value index : Z) (self : t P) (p p1 p2 p3 p4 p5 p6 : P)
  (control : FT232RL_Frame.t) (request : bytes)
  (ft seq fl : Z) (pl : bytes) (f : FT232RL_Frame.t) (wire : bytes) :
  connected self = true ->
  serial self = Some p ->
  0 <= request_type <= 255 -> 0 <= req <= 255 ->
  0 <= value <= 65535 -> 0 <= index <= 65535 ->
  FT232RL_Frame.__init__ FT232RL_Frame.FRAME_CONTROL 0
    ([byte_of_Z request_type; byte_of_Z req;
      byte_of_Z (Z.land value 255); byte_of_Z (Z.land (Z.shiftr value 8) 255);
      byte_of_Z (Z.land index 255); byte_of_Z (Z.land (Z.shiftr index 8) 255);
      x00; x00]) 0
  = Returns control ->
  FT232RL_Frame.pack (FT232RL_Frame.set_sequence (sequence_tx self) control)
  = Returns request ->
  ser_write request p = (Returns (List.length request), p1) ->
  ser_flush p1 = (Returns tt, p2) ->
  0 <= ft <= 255 -> 0 <= seq <= 255 -> 0 <= fl <= 255 -> len pl <= 255 ->
  FT232RL_Frame.__init__ ft seq pl fl = Returns f ->
  FT232RL_Frame.pack f = Returns wire ->
  ser_set_timeout 5%Q p2 = (Returns tt, p3) ->
  ser_read 6 p3 = (Returns (firstn 6 wire), p4) ->
  (if len pl >? 0 then ser_read (len pl) p4 else (Returns [], p4)) = (Returns pl, p5) ->
  ser_set_timeout (ser_timeout p2) p5 = (Returns tt, p6) ->
  _control_transfer request_type req value index [] self
  = (Returns (if ft =? FT232RL_Frame.FRAME_CONTROL then pl else []),
     received_state self p2 p6 (len request) (len wire)).
Proof.
  intros Hconn Hser Hrt Hrq Hv Hi Hctl Hreq Hwrite Hflush Hft Hseq Hfl Hpl Hinit Hpack
    Hset Hread Hpay Hrestore.
  destruct (send_then_receive control 5%Q self p p1 p2 p3 p4 p5 p6
              request ft seq fl pl f wire)
    as (Hsend & Hrecv & Hty & Hpayload); try assumption.
  unfold _control_transfer, PyStruct.pack_BBHH, PyStruct.pack_H.
  rewrite !pack_B_ok by lia.
  replace ((0 <=? value) && (value <=? 65535)) with true
    by (symmetry; apply andb_true_iff; split; apply Z.leb_le; lia).
  replace ((0 <=? index) && (index <=? 65535)) with true
    by (symmetry; apply andb_true_iff; split; apply Z.leb_le; lia).
  cbn [obind].
  change ((0 <=? 0) && (0 <=? 65535)) with true. cbv iota.
  unfold bind at 1. unfold lift at 1. cbv beta iota.
  unfold bind at 1. unfold lift at 1. cbv beta iota.
  change (byte_of_Z (Z.land 0 255)) with x00.
  change (byte_of_Z (Z.land (Z.shiftr 0 8) 255)) with x00.
  cbn [app]. rewrite Hctl.
  unfold bind at 1. unfold lift at 1. cbv beta iota.
  unfold bind at 1. rewrite Hsend. cbn [negb].
  unfold bind. rewrite Hrecv. rewrite Hty, Hpayload.
  destruct (ft =? FT232RL_Frame.FRAME_CONTROL); reflexivity.
Qed.

End Exchange.

(** X23.  When the request of [can_recv] goes out whole and a well-formed
    frame comes back, [can_recv] returns the messages parsed from the
    payload of that frame if it is a BULK_IN frame, and the empty list if
    it has another type.  The response is taken whatever its sequence
    number and flags are.  In both cases one frame is counted as sent and
    one as received, the timeout of the port is put back, and the error
    counter stays as it was. *)
Theorem can_recv_delivers
  {P : Type} {SP : Serial P} (self : FT232RL_PandaAdapter.t P) (p p1 p2 p3 p4 p5 p6 : P)
  (request : bytes) (ft seq fl : Z) (pl : bytes) (f : FT232RL_Frame.t) (wire : bytes) :
  FT232RL_PandaAdapter.connected self = true ->
  FT232RL_PandaAdapter.serial self = Some p ->
  FT232RL_Frame.pack
    (FT232RL_Frame.set_sequence (FT232RL_PandaAdapter.sequence_tx self)
       Examples.empty_bulk_in)
  = Returns request ->
  ser_write request p = (Returns (List.length request), p1) ->
  ser_flush p1 = (Returns tt, p2) ->
  0 <= ft <= 255 -> 0 <= seq <= 255 -> 0 <= fl <= 255 -> len pl <= 255 ->
  FT232RL_Frame.__init__ ft seq pl fl = Returns f ->
  FT232RL_Frame.pack f = Returns wire ->
  ser_set_timeout 2%Q p2 = (Returns tt, p3) ->
  ser_read 6 p3 = (Returns (firstn 6 wire), p4) ->
  (if len pl >? 0 then ser_read (len pl) p4 else (Returns [], p4)) = (Returns pl, p5) ->
  ser_set_timeout (ser_timeout p2) p5 = (Returns tt, p6) ->
  FT232RL_PandaAdapter.can_recv self
  = ((if ft =? FT232RL_Frame.FRAME_BULK_IN then CANCodec.parse_messages pl else Returns []),
     received_state self p2 p6 (len request) (len wire)) /\
  FT232RL_PandaAdapter.frames_sent (received_state self p2 p6 (len request) (len wire))
  = FT232RL_PandaAdapter.frames_sent self + 1 /\
  FT232RL_PandaAdapter.frames_received (received_state self p2 p6 (len request) (len wire))
  = FT232RL_PandaAdapter.frames_received self + 1 /\
  FT232RL_PandaAdapter.errors (received_state self p2 p6 (len request) (len wire))
  = FT232RL_PandaAdapter.errors self.
Proof.
  intros. split;
    [apply (can_recv_exchange self p p1 p2 p3 p4 p5 p6 request ft seq fl pl f wire);
     assumption|].
  pose proof (received_state_facts self p2 p6 (len request) (len wire)) as H'.
  cbv zeta in H'. tauto.
Qed.

(** A BULK_IN frame with sequence number 7 that carries the record of the
    message 0x123 waits on the port; the adapter's own counter is 0. *)
Lemma can_recv_delivers_witness :
  FT232RL_PandaAdapter.can_recv (SP := Examples.api)
    (Examples.adapter_on
       (ScriptedPort.mk
          [xaa; x01; x07; x0a; x00; xa6; x40; x23; x01; x00; x00; x01; x02; x03; x04; x66]
          [] 64 false 1%Q true))
  = (Returns [CANMessage.mk 0 [x02; x03; x04; x66] 0 false false],
     received_state
       (Examples.adapter_on
          (ScriptedPort.mk
             [xaa; x01; x07; x0a; x00; xa6; x40; x23; x01; x00; x00; x01; x02; x03; x04; x66]
             [] 64 false 1%Q true))
       (ScriptedPort.mk
          [xaa; x01; x07; x0a; x00; xa6; x40; x23; x01; x00; x00; x01; x02; x03; x04; x66]
          [xaa; x01; x00; x00; x00; xab] 64 false 1%Q true)
       (ScriptedPort.mk [] [xaa; x01; x00; x00; x00; xab] 64 false 1%Q true)
       6 16).
Proof.
  refine (proj1 (can_recv_delivers (SP := Examples.api)
           (Examples.adapter_on
              (ScriptedPort.mk
                 [xaa; x01; x07; x0a; x00; xa6; x40; x23; x01; x00; x00;
                  x01; x02; x03; x04; x66]
                 [] 64 false 1%Q true))
           (ScriptedPort.mk
              [xaa; x01; x07; x0a; x00; xa6; x40; x23; x01; x00; x00; x01; x02; x03; x04; x66]
              [] 64 false 1%Q true)
           (ScriptedPort.mk
              [xaa; x01; x07; x0a; x00; xa6; x40; x23; x01; x00; x00; x01; x02; x03; x04; x66]
              [xaa; x01; x00; x00; x00; xab] 64 false 1%Q true)
           (ScriptedPort.mk
              [xaa; x01; x07; x0a; x00; xa6; x40; x23; x01; x00; x00; x01; x02; x03; x04; x66]
              [xaa; x01; x00; x00; x00; xab] 64 false 1%Q true)
           (ScriptedPort.mk
              [xaa; x01; x07; x0a; x00; xa6; x40; x23; x01; x00; x00; x01; x02; x03; x04; x66]
              [xaa; x01; x00; x00; x00; xab] 64 false 2%Q true)
           (ScriptedPort.mk
              [x40; x23; x01; x00; x00; x01; x02; x03; x04; x66]
              [xaa; x01; x00; x00; x00; xab] 64 false 2%Q true)
           (ScriptedPort.mk [] [xaa; x01; x00; x00; x00; xab] 64 false 2%Q true)
           (ScriptedPort.mk [] [xaa; x01; x00; x00; x00; xab] 64 false 1%Q true)
           [xaa; x01; x00; x00; x00; xab] 1 7 0
           [x40; x23; x01; x00; x00; x01; x02; x03; x04; x66]
           (FT232RL_Frame.mk 170 1 7 10 0
              [x40; x23; x01; x00; x00; x01; x02; x03; x04; x66] 166)
           [xaa; x01; x07; x0a; x00; xa6; x40; x23; x01; x00; x00; x01; x02; x03; x04; x66]
           _ _ _ _ _ _ _ _ _ _ _ _ _ _ _));
    try reflexivity; try lia; vm_compute; discriminate.
Defined.

(** X24.  A control transfer without data sends one CONTROL frame whose
    payload is the request type, the request, the value and the index (two
    bytes each, low byte first) and a zero length; when that frame goes out
    whole and a well-formed frame comes back, the transfer returns the
    payload of the response if it is a CONTROL frame and the empty byte
    string if it has another type, in which case the frame is counted as
    received all the same. *)
Theorem control_transfer_delivers
  {P : Type} {SP : Serial P}
  (request_type req value index : Z) (self : FT232RL_PandaAdapter.t P)
  (p p1 p2 p3 p4 p5 p6 : P) (control : FT232RL_Frame.t) (request : bytes)
  (ft seq fl : Z) (pl : bytes) (f : FT232RL_Frame.t) (wire : bytes) :
  FT232RL_PandaAdapter.connected self = true ->
  FT232RL_PandaAdapter.serial self = Some p ->
  0 <= request_type <= 255 -> 0 <= req <= 255 ->
  0 <= value <= 65535 -> 0 <= index <= 65535 ->
  FT232RL_Frame.__init__ FT232RL_Frame.FRAME_CONTROL 0
    ([byte_of_Z request_type; byte_of_Z req;
      byte_of_Z (Z.land value 255); byte_of_Z (Z.land (Z.shiftr value 8) 255);
      byte_of_Z (Z.land index 255); byte_of_Z (Z.land (Z.shiftr index 8) 255);
      x00; x00]) 0
  = Returns control ->
  FT232RL_Frame.pack
    (FT232RL_Frame.set_sequence (FT232RL_PandaAdapter.sequence_tx self) control)
  = Returns request ->
  ser_write request p = (Returns (List.length request), p1) ->
  ser_flush p1 = (Returns tt, p2) ->
  0 <= ft <= 255 -> 0 <= seq <= 255 -> 0 <= fl <= 255 -> len pl <= 255 ->
  FT232RL_Frame.__init__ ft seq pl fl = Returns f ->
  FT232RL_Frame.pack f = Returns wire ->
  ser_set_timeout 5%Q p2 = (Returns tt, p3) ->
  ser_read 6 p3 = (Returns (firstn 6 wire), p4) ->
  (if len pl >? 0 then ser_read (len pl) p4 else (Returns [], p4)) = (Returns pl, p5) ->
  ser_set_timeout (ser_timeout p2) p5 = (Returns tt, p6) ->
  FT232RL_PandaAdapter._control_transfer request_type req value index [] self
  = (Returns (if ft =? FT232RL_Frame.FRAME_CONTROL then pl else []),
     received_state self p2 p6 (len request) (len wire)) /\
  FT232RL_PandaAdapter.frames_received (received_state self p2 p6 (len request) (len wire))
  = FT232RL_PandaAdapter.frames_received self + 1 /\
  FT232RL_PandaAdapter.errors (received_state self p2 p6 (len request) (len wire))
  = FT232RL_PandaAdapter.errors self.
Proof.
  intros. split;
    [apply (control_transfer_exchange request_type req value index self p p1 p2 p3 p4 p5 p6
              control request ft seq fl pl f wire); assumption|].
  pose proof (received_state_facts self p2 p6 (len request) (len wire)) as H'.
  cbv zeta in H'. tauto.
Qed.

(** The transfer of [get_version], answered by a CONTROL frame with
    sequence number 9 and payload "v1". *)
Lemma control_transfer_delivers_witness :
  FT232RL_PandaAdapter._control_transfer (SP := Examples.api) 0xC0 0xD0 0 0 []
    (Examples.adapter_on
       (ScriptedPort.mk [xaa; x00; x09; x02; x00; xe6; x76; x31] [] 64 false 1%Q true))
  = (Returns [x76; x31],
     received_state
       (Examples.adapter_on
          (ScriptedPort.mk [xaa; x00; x09; x02; x00; xe6; x76; x31] [] 64 false 1%Q true))
       (ScriptedPort.mk [xaa; x00; x09; x02; x00; xe6; x76; x31]
          [xaa; x00; x00; x08; x00; xb2; xc0; xd0; x00; x00; x00; x00; x00; x00]
          64 false 1%Q true)
       (ScriptedPort.mk []
          [xaa; x00; x00; x08; x00; xb2; xc0; xd0; x00; x00; x00; x00; x00; x00]
          64 false 1%Q true)
       14 8).
Proof.
  refine (proj1 (control_transfer_delivers (SP := Examples.api) 0xC0 0xD0 0 0
           (Examples.adapter_on
              (ScriptedPort.mk [xaa; x00; x09; x02; x00; xe6; x76; x31] [] 64 false 1%Q true))
           (ScriptedPort.mk [xaa; x00; x09; x02; x00; xe6; x76; x31] [] 64 false 1%Q true)
           (ScriptedPort.mk [xaa; x00; x09; x02; x00; xe6; x76; x31]
              [xaa; x00; x00; x08; x00; xb2; xc0; xd0; x00; x00; x00; x00; x00; x00]
              64 false 1%Q true)
           (ScriptedPort.mk [xaa; x00; x09; x02; x00; xe6; x76; x31]
              [xaa; x00; x00; x08; x00; xb2; xc0; xd0; x00; x00; x00; x00; x00; x00]
              64 false 1%Q true)
           (ScriptedPort.mk [xaa; x00; x09; x02; x00; xe6; x76; x31]
              [xaa; x00; x00; x08; x00; xb2; xc0; xd0; x00; x00; x00; x00; x00; x00]
              64 false 5%Q true)
           (ScriptedPort.mk [x76; x31]
              [xaa; x00; x00; x08; x00; xb2; xc0; xd0; x00; x00; x00; x00; x00; x00]
              64 false 5%Q true)
           (ScriptedPort.mk []
              [xaa; x00; x00; x08; x00; xb2; xc0; xd0; x00; x00; x00; x00; x00; x00]
              64 false 5%Q true)
           (ScriptedPort.mk []
              [xaa; x00; x00; x08; x00; xb2; xc0; xd0; x00; x00; x00; x00; x00; x00]
              64 false 1%Q true)
           (FT232RL_Frame.mk 170 0 0 8 0 [xc0; xd0; x00; x00; x00; x00; x00; x00] 178)
           [xaa; x00; x00; x08; x00; xb2; xc0; xd0; x00; x00; x00; x00; x00; x00]
           0 9 0 [x76; x31]
           (FT232RL_Frame.mk 170 0 9 2 0 [x76; x31] 230)
           [xaa; x00; x09; x02; x00; xe6; x76; x31]
           _ _ _ _ _ _ _ _ _ _ _ _ _ _ _ _ _ _ _ _));
    try reflexivity; try lia; vm_compute; discriminate.
Defined.

(** ** [Panda]: finding the device and connecting *)

Section PandaFacts.
Context {P : Type} {SP : Serial P}.

Lemma first_ftdi_app (before after : list (string * string)) :
  Forall (fun port => Panda.names_ftdi (snd port) = false) before ->
  Panda.first_ftdi (before ++ after) = Panda.first_ftdi after.
Proof.
  induction 1 as [|[device description] rest Hd Hrest IH]; [reflexivity|].
  cbn [app Panda.first_ftdi]. cbn [snd] in Hd. rewrite Hd. exact IH.
Qed.

Lemma first_ftdi_some (ports : list (string * string)) (device : string) :
  Panda.first_ftdi ports = Some device ->
  exists description,
    In (device, description) ports /\ Panda.names_ftdi description = true.
Proof.
  induction ports as [|[d description] rest IH]; cbn [Panda.first_ftdi]; [discriminate|].
  destruct (Panda.names_ftdi description) eqn:Hn.
  - intros H. injection H as <-. exists description. split; [left; reflexivity|exact Hn].
  - intros H. destruct (IH H) as (desc & Hin & Hdesc).
    exists desc. split; [right; exact Hin|exact Hdesc].
Qed.

Lemma first_ftdi_none (ports : list (string * string)) :
  Panda.first_ftdi ports = None ->
  Forall (fun port => Panda.names_ftdi (snd port) = false) ports.
Proof.
  induction ports as [|[d description] rest IH]; cbn [Panda.first_ftdi]; [constructor|].
  destruct (Panda.names_ftdi description) eqn:Hn; [discriminate|].
  intros H. constructor; [exact Hn|apply IH; exact H].
Qed.

Lemma first_open_some (host : Panda.Host P) (names : list string) (port : string) :
  Panda.first_open host names = Some port ->
  In port names /\ Panda.opens host port = true.
Proof.
  induction names as [|name rest IH]; cbn [Panda.first_open]; [discriminate|].
  destruct (Panda.opens host name) eqn:Ho.
  - intros H. injection H as <-. split; [left; reflexivity|exact Ho].
  - intros H. destruct (IH H) as [Hin Hop]. split; [right; exact Hin|exact Hop].
Qed.

Lemma first_open_none (host : Panda.Host P) (names : list string) :
  Panda.first_open host names = None ->
  Forall (fun name => Panda.opens host name = false) names.
Proof.
  induction names as [|name rest IH]; cbn [Panda.first_open]; [constructor|].
  destruct (Panda.opens host name) eqn:Ho; [discriminate|].
  intros H. constructor; [exact Ho|apply IH; exact H].
Qed.

End PandaFacts.

(** X25.  A port that the host lists with FTDI or FT232 in its description
    is chosen without being opened: [_find_ft232rl_device] returns the
    device of the first such port, whatever the platform is and whether or
    not any port can be opened. *)
Theorem find_device_prefers_listed
  {P : Type} {SP : Serial P} (host : Panda.Host P)
  (before after : list (string * string)) (device description : string) :
  Panda.comports host = before ++ (device, description) :: after ->
  Forall (fun port => Panda.names_ftdi (snd port) = false) before ->
  Panda.names_ftdi description = true ->
  Panda._find_ft232rl_device host = Panda.Ok device.
Proof.
  intros Hports Hbefore Hdesc. unfold Panda._find_ft232rl_device.
  rewrite Hports, first_ftdi_app by exact Hbefore.
  cbn [Panda.first_ftdi]. rewrite Hdesc. reflexivity.
Qed.

Lemma find_device_prefers_listed_witness :
  Panda._find_ft232rl_device (SP := Examples.api) ftdi_host
  = Panda.Ok "/dev/ttyUSB1"%string.
Proof.
  apply (find_device_prefers_listed (SP := Examples.api) ftdi_host
           [("/dev/ttyS0", "n/a")]%string [] "/dev/ttyUSB1"%string "FT232R USB UART"%string).
  - reflexivity.
  - repeat constructor.
  - reflexivity.
Defined.

(** X26.  What [_find_ft232rl_device] returns is a listed port whose
    description names the chip, or, when no description does, a name that
    was opened and closed without an exception: one of COM1 to COM19 on
    Windows (COM20 and above are never tried), a match of /dev/ttyUSB* or
    /dev/ttyACM* elsewhere.  It raises exactly when no description names
    the chip and none of those names opens. *)
Theorem find_device_sound {P : Type} {SP : Serial P} (host : Panda.Host P) :
  match Panda._find_ft232rl_device host with
  | Panda.Ok device =>
      (exists description,
          In (device, description) (Panda.comports host) /\
          Panda.names_ftdi description = true) \/
      (Forall (fun port => Panda.names_ftdi (snd port) = false) (Panda.comports host) /\
       Panda.opens host device = true /\
       if String.eqb (Panda.system host) "Windows"
       then exists i : nat, (1 <= i <= 19)%nat /\ device = Panda.com i
       else In device (Panda.glob host "/dev/ttyUSB*" ++ Panda.glob host "/dev/ttyACM*"))
  | Panda.Fails e =>
      e = Panda.NoDeviceFound /\
      Forall (fun port => Panda.names_ftdi (snd port) = false) (Panda.comports host) /\
      Forall (fun name => Panda.opens host name = false) (Panda.candidates host)
  end.
Proof.
  unfold Panda._find_ft232rl_device.
  destruct (Panda.first_ftdi (Panda.comports host)) as [device|] eqn:Hf.
  - left. apply first_ftdi_some. exact Hf.
  - apply first_ftdi_none in Hf.
    destruct (Panda.first_open host (Panda.candidates host)) as [port|] eqn:Ho.
    + right. apply first_open_some in Ho. destruct Ho as [Hin Hop].
      split; [exact Hf|]. split; [exact Hop|].
      unfold Panda.candidates in Hin.
      destruct (String.eqb (Panda.system host) "Windows"); [|exact Hin].
      apply in_map_iff in Hin. destruct Hin as (i & <- & Hi).
      apply in_seq in Hi. exists i. split; [lia|reflexivity].
    + apply first_open_none in Ho. repeat split; assumption.
Qed.

(** X27.  [Panda(serial_port)] with a port name does not look for a device:
    it fails with "Failed to connect" exactly when [serial.Serial(...)]
    raises, and otherwise gives an adapter that is connected, holds the
    serial object, and has that port name, the baudrate asked for and the
    timeout 1.0, whether or not the device answered.  [Panda()] does the
    same with the device [_find_ft232rl_device] returns, and fails as it
    does when none is found. *)
Theorem panda_init_result
  {P : Type} {SP : Serial P} (host : Panda.Host P) (baudrate : Z) :
  (forall serial_port : string,
      match Serial_new serial_port baudrate 1%Q with
      | Raises _ =>
          Panda.__init__ host (Some serial_port) baudrate
          = Panda.Fails (Panda.FailedToConnect serial_port)
      | Returns _ =>
          exists self,
            Panda.__init__ host (Some serial_port) baudrate = Panda.Ok self /\
            FT232RL_PandaAdapter.connected self = true /\
            FT232RL_PandaAdapter.is_Some (FT232RL_PandaAdapter.serial self) = true /\
            FT232RL_PandaAdapter.port self = serial_port /\
            FT232RL_PandaAdapter.baudrate self = baudrate /\
            FT232RL_PandaAdapter.timeout self = 1%Q
      end) /\
  Panda.__init__ host None baudrate
  = match Panda._find_ft232rl_device host with
    | Panda.Ok device => Panda.__init__ host (Some device) baudrate
    | Panda.Fails e => Panda.Fails e
    end.
Proof.
  split.
  - intros serial_port. unfold Panda.__init__.
    set (self0 := FT232RL_PandaAdapter.__init__ serial_port baudrate 1%Q).
    unfold FT232RL_PandaAdapter.connect, FT232RL_PandaAdapter.bind,
      FT232RL_PandaAdapter.get, FT232RL_PandaAdapter.try_except, FT232RL_PandaAdapter.lift,
      FT232RL_PandaAdapter.modify, FT232RL_PandaAdapter.ret.
    change (FT232RL_PandaAdapter.port self0) with serial_port.
    change (FT232RL_PandaAdapter.baudrate self0) with baudrate.
    change (FT232RL_PandaAdapter.timeout self0) with 1%Q.
    destruct (Serial_new serial_port baudrate 1%Q) as [s|e]; [|reflexivity].
    set (self1 := FT232RL_PandaAdapter.set_connected true
                    (FT232RL_PandaAdapter.set_serial (Some s) self0)).
    pose proof (config_reset self1) as ((Hp & Hb & Ht & _) & Hc & Hs).
    destruct (reset_returns self1) as (b & self2 & E).
    rewrite E in *. cbn [snd] in *.
    exists self2. split; [reflexivity|].
    rewrite <- Hc, <- Hs, <- Hp, <- Hb, <- Ht. repeat split; reflexivity.
  - unfold Panda.__init__.
    destruct (Panda._find_ft232rl_device host) as [device|e]; reflexivity.
Qed.

(** No description names the chip on [linux_host]; the device is found by
    opening /dev/ttyUSB0. *)
Example find_device_fallback :
  Panda._find_ft232rl_device (SP := Examples.api) linux_host
  = Panda.Ok "/dev/ttyUSB0"%string.
Proof. reflexivity. Qed.

(** ** Frames a call sends *)

Section Frames.
Import FT232RL_PandaAdapter.
Context {P : Type} {SP : Serial P}.
Variable utf8_decode : bytes -> option string.

Lemma sends_ret {A : Type} (x : A) : sends_at_most (P := P) 0 (ret x).
Proof. intros self. cbn. lia. Qed.

Lemma sends_more {A : Type} (n n' : Z) (m : M P A) :
  n <= n' -> sends_at_most n m -> sends_at_most n' m.
Proof. intros Hn Hm self. specialize (Hm self). lia. Qed.

Lemma sends_bind {A B : Type} (n1 n2 : Z) (m : M P A) (k : A -> M P B) :
  0 <= n2 ->
  sends_at_most n1 m -> (forall x, sends_at_most n2 (k x)) ->
  sends_at_most (n1 + n2) (bind m k).
Proof.
  intros Hn Hm Hk self. unfold bind.
  specialize (Hm self). destruct (m self) as [[x|e] self']; cbn [snd] in *.
  - specialize (Hk x self'). lia.
  - lia.
Qed.

Lemma sends_send_frame (frame : FT232RL_Frame.t) : sends_at_most 1 (_send_frame frame).
Proof.
  intros self. split; [apply grows_send_frame | apply send_frame_step].
Qed.

Lemma sends_receive_frame (timeout : option Q) : sends_at_most 0 (_receive_frame timeout).
Proof.
  intros self. split; [apply grows_receive_frame|].
  unfold _receive_frame, bind, get, try_except, lift, on_serial, modify, ret.
  destruct self as [po ba ti se co stx srx fs fr bs br er cb cts crs cip].
  cbn [connected serial frames_sent set_serial set_errors set_frames_received
       set_bytes_received errors frames_received bytes_received].
  repeat match goal with
         | |- context [match ?x with _ => _ end] =>
             match x with
             | context [match _ with _ => _ end] => fail 1
             | _ => destruct x
             end; cbn [snd fst connected serial frames_sent set_serial set_errors
                       set_frames_received set_bytes_received errors frames_received
                       bytes_received FT232RL_PandaAdapter.timeout]
         end; lia.
Qed.

Lemma sends_control_transfer (request_type request value index : Z) (data : bytes) :
  sends_at_most 1 (_control_transfer request_type request value index data).
Proof.
  unfold _control_transfer.
  change 1 with (0 + (0 + (0 + (1 + 0)))).
  apply sends_bind; [lia | intros self; cbn; lia | intros control_data].
  apply sends_bind; [lia | intros self; cbn; lia | intros tail].
  apply sends_bind; [lia | intros self; cbn; lia | intros frame].
  apply sends_bind; [lia | apply sends_send_frame | intros sent].
  destruct (negb sent); [apply sends_ret|].
  change 0 with (0 + 0).
  apply sends_bind; [lia | apply sends_receive_frame | intros response].
  destruct response as [f|]; [|apply sends_ret].
  destruct (negb _); apply sends_ret.
Qed.

(** A command: one control transfer, then a result computed from it. *)
Lemma sends_command {A : Type} (request_type request value index : Z)
  (k : bytes -> M P A) :
  (forall response, sends_at_most 0 (k response)) ->
  sends_at_most 1 (bind (_control_transfer request_type request value index []) k).
Proof.
  intros Hk. change 1 with (1 + 0).
  apply sends_bind; [lia | apply sends_control_transfer | exact Hk].
Qed.

Lemma sends_get_version : sends_at_most 1 (get_version utf8_decode).
Proof.
  apply sends_command. intros [|b rest]; [apply sends_ret|].
  destruct (utf8_decode (b :: rest)); apply sends_ret.
Qed.

Lemma sends_health : sends_at_most (P := P) 1 health.
Proof.
  apply sends_command. intros response. destruct (len response >=? 12); apply sends_ret.
Qed.

Lemma sends_set_safety_mode (mode param : Z) :
  sends_at_most (P := P) 1 (set_safety_mode mode param).
Proof. apply sends_command. intros response. apply sends_ret. Qed.

Lemma sends_set_can_speed_kbps (bus speed : Z) :
  sends_at_most (P := P) 1 (set_can_speed_kbps bus speed).
Proof. apply sends_command. intros response. apply sends_ret. Qed.

Lemma sends_send_heartbeat : sends_at_most (P := P) 1 send_heartbeat.
Proof. apply sends_command. intros response. apply sends_ret. Qed.

Lemma set_safety_mode_returns (mode param : Z) :
  0 <= mode <= 65535 -> 0 <= param <= 65535 ->
  always_returns (P := P) (set_safety_mode mode param).
Proof.
  intros Hm Hp. unfold set_safety_mode. apply returns_bind; [|intros r; apply returns_ret].
  apply control_transfer_returns; try assumption; vm_compute; split; discriminate.
Qed.

Lemma set_can_speed_kbps_returns (bus speed : Z) :
  0 <= bus <= 65535 -> 0 <= speed <= 65535 ->
  always_returns (P := P) (set_can_speed_kbps bus speed).
Proof.
  intros Hb Hs. unfold set_can_speed_kbps.
  apply returns_bind; [|intros r; apply returns_ret].
  apply control_transfer_returns; try assumption; vm_compute; split; discriminate.
Qed.

Lemma bind_result {A B : Type} (m : M P A) (k : A -> M P B) (v : B) :
  (forall x self r self', k x self = (Returns r, self') -> r = v) ->
  forall self r self', bind m k self = (Returns r, self') -> r = v.
Proof.
  intros Hk self r self'. unfold bind.
  destruct (m self) as [[x|e] s]; [apply Hk | discriminate].
Qed.

(** The [try] block of [setup]: seven commands, none of which raises. *)
Lemma setup_body_runs (p : t P) :
  exists p',
    CANTester.setup_body utf8_decode p = (Returns true, p') /\
    frames_sent p <= frames_sent p' <= frames_sent p + 7.
Proof.
  assert (Hsends : sends_at_most 7 (CANTester.setup_body utf8_decode)).
  { unfold CANTester.setup_body, CANTester.for_each.
    change 7 with (1 + (1 + (1 + ((1 + (1 + (1 + 0))) + (1 + 0))))).
    apply sends_bind; [lia | apply sends_get_version | intros _].
    apply sends_bind; [lia | apply sends_health | intros _].
    apply sends_bind; [lia | apply sends_set_safety_mode | intros _].
    apply sends_bind; [lia | | intros _].
    - apply sends_bind; [lia | apply sends_set_can_speed_kbps | intros _].
      apply sends_bind; [lia | apply sends_set_can_speed_kbps | intros _].
      apply sends_bind; [lia | apply sends_set_can_speed_kbps | intros _].
      apply sends_ret.
    - apply sends_bind; [lia | apply sends_send_heartbeat | intros _].
      apply sends_ret. }
  assert (Hret : always_returns (CANTester.setup_body utf8_decode)).
  { unfold CANTester.setup_body, CANTester.for_each.
    apply returns_bind; [apply get_version_returns | intros _].
    apply returns_bind; [apply health_returns | intros _].
    apply returns_bind;
      [apply set_safety_mode_returns; vm_compute; split; discriminate | intros _].
    apply returns_bind; [|intros _].
    - apply returns_bind;
        [apply set_can_speed_kbps_returns; vm_compute; split; discriminate | intros _].
      apply returns_bind;
        [apply set_can_speed_kbps_returns; vm_compute; split; discriminate | intros _].
      apply returns_bind;
        [apply set_can_speed_kbps_returns; vm_compute; split; discriminate | intros _].
      apply returns_ret.
    - apply returns_bind; [apply send_heartbeat_returns | intros _].
      apply returns_ret. }
  specialize (Hsends p). destruct (Hret p) as (r & p' & E).
  rewrite E in Hsends. cbn [snd] in Hsends.
  exists p'. split; [|exact Hsends].
  rewrite E. f_equal. f_equal.
  (* the last statement of the block is [return True] *)
  revert E. unfold CANTester.setup_body.
  repeat (apply bind_result; intros ? ? ? ?).
  unfold ret. intros H. injection H as <- _. reflexivity.
Qed.

End Frames.

(** ** The tester of Examples/simple_can_test.py *)

(** X28.  [CANTester.setup] returns False only when the tester holds no
    Panda.  With one it returns True whatever the port does, connected or
    not, answered or not: none of its seven commands raises, so its except
    branch is never taken, and no response is looked at.  It sends at most
    seven frames and leaves the tester's own counters as they were. *)
Theorem setup_always_succeeds
  {P : Type} {SP : Serial P} (utf8_decode : bytes -> option string) (self : CANTester.t P) :
  match CANTester.panda self with
  | None => CANTester.setup utf8_decode self = (false, self)
  | Some p =>
      exists p',
        CANTester.setup utf8_decode self = (true, CANTester.set_panda (Some p') self) /\
        FT232RL_PandaAdapter.frames_sent p <= FT232RL_PandaAdapter.frames_sent p'
        <= FT232RL_PandaAdapter.frames_sent p + 7
  end.
Proof.
  unfold CANTester.setup.
  destruct (CANTester.panda self) as [p|]; [|reflexivity].
  destruct (setup_body_runs utf8_decode p) as (p' & E & Hframes).
  exists p'. rewrite E. split; [reflexivity|exact Hframes].
Qed.


(** What [Panda(...)] returns is connected. *)
Lemma panda_init_ok {P : Type} {SP : Serial P} (host : Panda.Host P)
  (serial_port : option string) (baudrate : Z) (p : FT232RL_PandaAdapter.t P) :
  Panda.__init__ host serial_port baudrate = Panda.Ok p ->
  FT232RL_PandaAdapter.connected p = true /\
  FT232RL_PandaAdapter.is_Some (FT232RL_PandaAdapter.serial p) = true /\
  FT232RL_PandaAdapter.baudrate p = baudrate /\
  FT232RL_PandaAdapter.timeout p = 1%Q /\
  (forall name, serial_port = Some name -> FT232RL_PandaAdapter.port p = name).
Proof.
  unfold Panda.__init__.
  destruct (match serial_port with
            | Some name => Panda.Ok name
            | None => Panda._find_ft232rl_device host
            end) as [device|e] eqn:Hdev; [|discriminate].
  set (self0 := FT232RL_PandaAdapter.__init__ device baudrate 1%Q).
  unfold FT232RL_PandaAdapter.connect, FT232RL_PandaAdapter.bind,
    FT232RL_PandaAdapter.get, FT232RL_PandaAdapter.try_except, FT232RL_PandaAdapter.lift,
    FT232RL_PandaAdapter.modify, FT232RL_PandaAdapter.ret.
  destruct (Serial_new _ _ _) as [s|e]; [|discriminate].
  set (self1 := FT232RL_PandaAdapter.set_connected true
                  (FT232RL_PandaAdapter.set_serial (Some s) self0)).
  pose proof (config_reset self1) as ((Hp & Hb & Ht & _) & Hc & Hs).
  destruct (reset_returns self1) as (b & self2 & E).
  rewrite E in *. cbn [snd] in *.
  intros H. injection H as <-.
  rewrite <- Hc, <- Hs, <- Hp, <- Hb, <- Ht.
  repeat split. intros name ->. injection Hdev as <-. reflexivity.
Qed.

(** X30.  [CANTester.connect] looks for a device when the tester was made
    without a port name or with the empty string, and uses the name it was
    given otherwise.  It returns True exactly when [Panda(...)] returns, and
    the tester then holds an adapter that is connected, with a serial
    object, baudrate 3000000 and timeout 1.0; when [Panda(...)] raises it
    returns False and the tester is left as it was. *)
Theorem tester_connect_result
  {P : Type} {SP : Serial P} (host : Panda.Host P) (self : CANTester.t P) :
  match Panda.__init__ host
          (match CANTester.port self with
           | Some name => if String.eqb name "" then None else Some name
           | None => None
           end) 3000000 with
  | Panda.Ok p =>
      CANTester.connect host self = (true, CANTester.set_panda (Some p) self) /\
      FT232RL_PandaAdapter.connected p = true /\
      FT232RL_PandaAdapter.is_Some (FT232RL_PandaAdapter.serial p) = true /\
      FT232RL_PandaAdapter.baudrate p = 3000000 /\
      FT232RL_PandaAdapter.timeout p = 1%Q
  | Panda.Fails _ => CANTester.connect host self = (false, self)
  end.
Proof.
  unfold CANTester.connect.
  destruct (CANTester.port self) as [name|].
  - destruct (String.eqb name "").
    + destruct (Panda.__init__ host None 3000000) as [p|e] eqn:E; [|reflexivity].
      destruct (panda_init_ok host None 3000000 p E) as (Hc & Hs & Hb & Ht & _).
      repeat split; assumption.
    + destruct (Panda.__init__ host (Some name) 3000000) as [p|e] eqn:E; [|reflexivity].
      destruct (panda_init_ok host (Some name) 3000000 p E) as (Hc & Hs & Hb & Ht & _).
      repeat split; assumption.
  - destruct (Panda.__init__ host None 3000000) as [p|e] eqn:E; [|reflexivity].
    destruct (panda_init_ok host None 3000000 p E) as (Hc & Hs & Hb & Ht & _).
    repeat split; assumption.
Qed.

(** [receive_messages] counts what [can_recv] returned; [cleanup] closes
    the adapter and keeps the counts. *)
Lemma receive_messages_counts {P : Type} {SP : Serial P} (self : CANTester.t P) :
  CANTester.messages_sent (CANTester.receive_messages self) = CANTester.messages_sent self /\
  CANTester.messages_received self
  <= CANTester.messages_received (CANTester.receive_messages self).
Proof.
  unfold CANTester.receive_messages.
  destruct (CANTester.panda self) as [p|]; [|split; [reflexivity|lia]].
  destruct (FT232RL_PandaAdapter.can_recv p) as [[[|m ms]|e] p']; cbn;
    (split; [reflexivity|]); lia.
Qed.

Lemma cleanup_keeps_counts {P : Type} {SP : Serial P} (self : CANTester.t P) :
  CANTester.messages_sent (CANTester.cleanup self) = CANTester.messages_sent self /\
  CANTester.messages_received (CANTester.cleanup self) = CANTester.messages_received self.
Proof.
  unfold CANTester.cleanup. destruct (CANTester.panda self); split; reflexivity.
Qed.
